(** * bmkg-alert: the alert engine, matcher, state manager and dispatcher

    A shallow embedding of [backend/app/engine/matcher.py],
    [backend/app/engine/state.py], [backend/app/engine/worker.py] and
    [backend/app/notifications/dispatcher.py], with the properties the
    specification states about them.

    Conventions.
    - A Python [str] is a [string]; [x in y] on strings is [str_in].
    - The store is a record of tables; a table is the list of its rows in
      rowid order.  Statements are functions on that record.
    - Code that can raise runs in the monad [M] (state of the store, result
      or exception).  A statement is committed on its own
      ([DatabaseManager.execute]), so the store survives an exception.
    - What the outside world answers (upstream API, senders, clocks) is read
      from an [Env.t], indexed by the number of external calls made so far. *)

From Stdlib Require Import ZArith String Ascii List Bool Lia.
From stdpp Require Import base option list strings pretty gmap.

Import ListNotations.
Local Open Scope string_scope.
Local Open Scope list_scope.
Local Open Scope Z_scope.

(** ** Python built-ins the code relies on *)

(** Decoded JSON, as [json.loads] returns it. *)
#[local] Unset Elimination Schemes.
Inductive Json :=
| JNull
| JBool (b : bool)
| JNum (z : Z)
| JStr (s : string)
| JArr (items : list Json)
| JObj (members : list (string * Json)).
#[local] Set Elimination Schemes.

Module Py.

(** [bool(s)] for a [str]: only the empty string is falsy. *)
Definition truthy (s : string) : bool :=
  match s with
  | EmptyString => false
  | String _ _ => true
  end.

(** [needle in haystack]: some suffix of [haystack] starts with [needle]. *)
Fixpoint str_in (needle haystack : string) : bool :=
  String.prefix needle haystack
  || match haystack with
     | EmptyString => false
     | String _ rest => str_in needle rest
     end.

(** The mathematical reading of "is a substring of". *)
Definition substring_of (needle haystack : string) : Prop :=
  exists pre post, haystack = pre +:+ needle +:+ post.

(** [s.split(sep)[0]] for a one-character separator: the text before the
    first separator, or all of [s] when there is none.  The list returned
    by [split] is never empty, so index 0 always exists. *)
Fixpoint split_first (sep : ascii) (s : string) : string :=
  match s with
  | EmptyString => EmptyString
  | String c rest =>
      if Ascii.eqb c sep then EmptyString else String c (split_first sep rest)
  end.

(** The built-ins whose full definition lives in the interpreter:
    [str.lower], [int(str)] ([None] stands for [ValueError]),
    [json.dumps] and [json.loads] ([None] stands for [JSONDecodeError]). *)
Class Runtime := {
  lower : string -> string;
  lower_empty : lower "" = "";
  int : string -> option Z;
  json_dumps : Json -> string;
  json_loads : string -> option Json
}.

End Py.

(** A runtime restricted to ASCII text, used to run the model on concrete
    inputs. *)
Module AsciiRuntime.

Definition lower_char (c : ascii) : ascii :=
  let n := N_of_ascii c in
  if ((65 <=? n) && (n <=? 90))%N then ascii_of_N (n + 32) else c.

Fixpoint lower (s : string) : string :=
  match s with
  | EmptyString => EmptyString
  | String c rest => String (lower_char c) (lower rest)
  end.

Definition is_space (c : ascii) : bool :=
  let n := N_of_ascii c in
  ((n =? 32) || ((9 <=? n) && (n <=? 13)) || ((28 <=? n) && (n <=? 31)))%N.

Fixpoint lstrip (s : string) : string :=
  match s with
  | String c rest => if is_space c then lstrip rest else s
  | EmptyString => EmptyString
  end.

Definition digit_of (c : ascii) : option Z :=
  let n := N_of_ascii c in
  if ((48 <=? n) && (n <=? 57))%N then Some (Z.of_N n - 48) else None.

(** Digits with single underscores between them, then optional trailing
    white space.  [seen] says a digit has just been read. *)
Fixpoint digits (acc : Z) (seen : bool) (s : string) : option Z :=
  match s with
  | EmptyString => if seen then Some acc else None
  | String c rest =>
      match digit_of c with
      | Some d => digits (10 * acc + d) true rest
      | None =>
          if Ascii.eqb c "_" then
            (if seen then
               match rest with
               | String c' _ =>
                   match digit_of c' with
                   | Some _ => digits acc false rest
                   | None => None
                   end
               | EmptyString => None
               end
             else None)
          else if seen && Py.truthy s && negb (Py.truthy (lstrip s))
          then Some acc else None
      end
  end.

(** [int(s)] in base 10. *)
Definition int (s : string) : option Z :=
  match lstrip s with
  | String "-" rest => option_map Z.opp (digits 0 false rest)
  | String "+" rest => digits 0 false rest
  | t => digits 0 false t
  end.

Definition quote (s : string) : string :=
  String (ascii_of_nat 34) s +:+ String (ascii_of_nat 34) EmptyString.

(** No character is escaped. *)
Fixpoint json_dumps (j : Json) : string :=
  match j with
  | JNull => "null"
  | JBool true => "true"
  | JBool false => "false"
  | JNum z => pretty z
  | JStr s => quote s
  | JArr items => "[" +:+ String.concat ", " (map json_dumps items) +:+ "]"
  | JObj members =>
      "{" +:+
      String.concat ", "
        (map (fun kv => quote (fst kv) +:+ ": " +:+ json_dumps (snd kv))
             members)
      +:+ "}"
  end.

(** Only the empty object is recognised. *)
Definition json_loads (s : string) : option Json :=
  if String.eqb s "{}" then Some (JObj []) else None.

#[export] Instance runtime : Py.Runtime :=
  {| Py.lower := lower;
     Py.lower_empty := eq_refl;
     Py.int := int;
     Py.json_dumps := json_dumps;
     Py.json_loads := json_loads |}.

End AsciiRuntime.

(** ** Domain models ([app/models.py]) *)

Module WarningArea.
Record t := { name : string; polygon : list (list Z) }.
End WarningArea.

Module WarningInfo.
Record t := {
  identifier : string;
  event : string;
  severity : string;
  urgency : string;
  certainty : string;
  effective : string;
  expires : string;
  headline : string;
  description : string;
  sender : string;
  infographic_url : string;
  areas : list WarningArea.t;
  is_expired : bool
}.
End WarningInfo.

(** [latitude], [longitude] (floats) and [created_at] are carried by the
    rows but read by none of the modelled code; they are left out. *)
Module Location.
Record t := {
  id : Z;
  label : string;
  province_code : string;
  province_name : string;
  district_code : string;
  district_name : string;
  subdistrict_code : string;
  subdistrict_name : string;
  enabled : bool
}.
End Location.

Module MatchResult.
Record t := {
  location : Location.t;
  match_type : string;
  matched_text : string
}.
End MatchResult.

(** ** The matcher ([app/engine/matcher.py]) *)

Module Matcher.
Section WithRuntime.
Context `{RT : Py.Runtime}.

Definition _word_boundary_match (needle haystack : string) : bool :=
  Py.str_in needle haystack.

(** [{area.name.lower() for area in warning.areas}] *)
Definition area_names (warning : WarningInfo.t) : gset string :=
  list_to_set
    (map (fun area => Py.lower (WarningArea.name area))
         (WarningInfo.areas warning)).

(** [any(district in area_name for area_name in area_names_lower)] *)
Definition any_area (district : string) (area_names_lower : gset string) : bool :=
  existsb (Py.str_in district) (elements area_names_lower).

(** One turn of the [for location in locations] loop on the accumulator
    [results]. *)
Definition match_step (description_lower : string)
    (area_names_lower : gset string)
    (results : list MatchResult.t) (location : Location.t)
  : list MatchResult.t :=
  if negb (Location.enabled location) then results
  else
    let subdistrict := Py.lower (Location.subdistrict_name location) in
    if Py.truthy subdistrict
       && _word_boundary_match subdistrict description_lower
    then
      results ++
        [ {| MatchResult.location := location;
             MatchResult.match_type := "kecamatan";
             MatchResult.matched_text := Location.subdistrict_name location |} ]
    else
      let district := Py.lower (Location.district_name location) in
      if Py.truthy district && any_area district area_names_lower
      then
        results ++
          [ {| MatchResult.location := location;
               MatchResult.match_type := "kabupaten";
               MatchResult.matched_text := Location.district_name location |} ]
      else results.

Definition match_locations (warning : WarningInfo.t)
    (locations : list Location.t) : list MatchResult.t :=
  let description_lower := Py.lower (WarningInfo.description warning) in
  let area_names_lower := area_names warning in
  fold_left (match_step description_lower area_names_lower) locations [].

End WithRuntime.
End Matcher.

(** ** Rows of the store ([app/models.py], columns named in the statements
    of [app/engine/state.py] and [app/routes/trial.py]) *)

(** [created_at] is filled by the store and read by none of the modelled
    code; it is left out. *)
Module Alert.
Record t := {
  id : Z;
  bmkg_alert_code : string;
  event : string;
  severity : string;
  urgency : string;
  certainty : string;
  headline : string;
  description : string;
  effective : string;
  expires : string;
  infographic_url : string;
  polygon_data : string;
  matched_location_id : option Z;
  match_type : string;
  matched_text : string;
  status : string;
  expired_notified : bool
}.

(** The row after [UPDATE alerts SET status = s]. *)
Definition set_status (s : string) (a : t) : t :=
  {| id := id a; bmkg_alert_code := bmkg_alert_code a; event := event a;
     severity := severity a; urgency := urgency a; certainty := certainty a;
     headline := headline a; description := description a;
     effective := effective a; expires := expires a;
     infographic_url := infographic_url a; polygon_data := polygon_data a;
     matched_location_id := matched_location_id a;
     match_type := match_type a; matched_text := matched_text a;
     status := s; expired_notified := expired_notified a |}.
End Alert.

Module AlertDelivery.
Record t := {
  id : Z;
  alert_id : Z;
  channel_id : Z;
  status : string;
  error_message : string
}.
End AlertDelivery.

Module ActivityLogEntry.
Record t := {
  id : Z;
  event_type : string;
  message : string;
  details : string
}.
End ActivityLogEntry.

(** A row of [notification_channels]; [config] is JSON text. *)
Module NotificationChannel.
Record t := {
  id : Z;
  channel_type : string;
  enabled : bool;
  config : string
}.
End NotificationChannel.

(** A row of [trial_subscriptions]; [expired_notified] is the integer
    column the statements compare with 0 and set to 1. *)
Module Trial.
Record t := {
  id : Z;
  telegram_chat_id : string;
  subdistrict_code : string;
  subdistrict_name : string;
  district_name : string;
  province_name : string;
  severity_threshold : string;
  registered_at : string;
  expires_at : string;
  expired_notified : Z;
  ip_address : string
}.

(** The row after [UPDATE trial_subscriptions SET expired_notified = 1]. *)
Definition set_notified (r : t) : t :=
  {| id := id r; telegram_chat_id := telegram_chat_id r;
     subdistrict_code := subdistrict_code r;
     subdistrict_name := subdistrict_name r;
     district_name := district_name r; province_name := province_name r;
     severity_threshold := severity_threshold r;
     registered_at := registered_at r; expires_at := expires_at r;
     expired_notified := 1; ip_address := ip_address r |}.
End Trial.

(** The [dict] handed to the dispatcher: [dict(row)] with [config] decoded.
    The dispatcher reads it with [.get(key, default)], so a key may be
    missing. *)
Module Channel.
Record t := {
  id : option Z;
  channel_type : option string;
  config : option Json
}.
End Channel.

(** ** The store ([app/database.py]) *)

Module Store.

Record t := {
  alerts : list Alert.t;
  alert_deliveries : list AlertDelivery.t;
  activity_log : list ActivityLogEntry.t;
  config : gmap string string;
  locations : list Location.t;
  notification_channels : list NotificationChannel.t;
  trial_subscriptions : list Trial.t
}.

Definition empty : t :=
  {| alerts := []; alert_deliveries := []; activity_log := [];
     config := ∅; locations := []; notification_channels := [];
     trial_subscriptions := [] |}.

Definition with_alerts (f : list Alert.t -> list Alert.t) (db : t) : t :=
  {| alerts := f (alerts db); alert_deliveries := alert_deliveries db;
     activity_log := activity_log db; config := config db;
     locations := locations db;
     notification_channels := notification_channels db;
     trial_subscriptions := trial_subscriptions db |}.

Definition with_deliveries
    (f : list AlertDelivery.t -> list AlertDelivery.t) (db : t) : t :=
  {| alerts := alerts db; alert_deliveries := f (alert_deliveries db);
     activity_log := activity_log db; config := config db;
     locations := locations db;
     notification_channels := notification_channels db;
     trial_subscriptions := trial_subscriptions db |}.

Definition with_activity
    (f : list ActivityLogEntry.t -> list ActivityLogEntry.t) (db : t) : t :=
  {| alerts := alerts db; alert_deliveries := alert_deliveries db;
     activity_log := f (activity_log db); config := config db;
     locations := locations db;
     notification_channels := notification_channels db;
     trial_subscriptions := trial_subscriptions db |}.

Definition with_trials (f : list Trial.t -> list Trial.t) (db : t) : t :=
  {| alerts := alerts db; alert_deliveries := alert_deliveries db;
     activity_log := activity_log db; config := config db;
     locations := locations db;
     notification_channels := notification_channels db;
     trial_subscriptions := f (trial_subscriptions db) |}.

(** The rowid the store gives a new row: one more than the largest in the
    table, 1 for an empty table. *)
Definition next_id (ids : list Z) : Z := 1 + fold_right Z.max 0 ids.

End Store.

(** What the code depends on in [schema.sql], which [init_schema] loads:
    whether the [alerts] table is declared with a unique constraint on
    [(bmkg_alert_code, matched_location_id)]. *)
Module Schema.
Record t := { dedup_unique : bool }.

(** Modelled from the spec: [schema.sql] is not among the sources.  The
    specification says that the store has a unique constraint on
    [(bmkg_alert_code, matched_location_id)], "unique across all statuses",
    and that an insert of a pair already present fails with
    [DuplicateKey]. *)
Definition spec : t := {| dedup_unique := true |}.
End Schema.

(** ** Exceptions and the monad of stateful code *)

Inductive exn :=
| DuplicateKey (constraint : string)
| Exception (message : string).

(** [str(exc)] *)
Definition exn_str (e : exn) : string :=
  match e with
  | DuplicateKey c => "UNIQUE constraint failed: " +:+ c
  | Exception m => m
  end.

Inductive result (A : Type) :=
| Ok (a : A)
| Raise (e : exn).
Arguments Ok {A} a.
Arguments Raise {A} e.

Definition M (S A : Type) : Type := S -> result A * S.

Definition ret {S A} (a : A) : M S A := fun s => (Ok a, s).

Definition raise {S A} (e : exn) : M S A := fun s => (Raise e, s).

Definition bind {S A B} (m : M S A) (k : A -> M S B) : M S B :=
  fun s =>
    match m s with
    | (Ok a, s') => k a s'
    | (Raise e, s') => (Raise e, s')
    end.

(** [try: m  except Exception as e: h e] *)
Definition try_except {S A} (m : M S A) (h : exn -> M S A) : M S A :=
  fun s =>
    match m s with
    | (Ok a, s') => (Ok a, s')
    | (Raise e, s') => h e s'
    end.

Definition get {S} : M S S := fun s => (Ok s, s).

Definition modify {S} (f : S -> S) : M S unit := fun s => (Ok tt, f s).

Declare Scope monad_scope.
Delimit Scope monad_scope with monad.
Notation "x <- m ;; k" := (bind m (fun x => k))
  (at level 100, m at next level, right associativity) : monad_scope.
Notation "m ;;; k" := (bind m (fun _ => k))
  (at level 100, right associativity) : monad_scope.

(** [for x in xs: acc = body acc x], stopping at the first exception. *)
Fixpoint for_each {S A X} (xs : list X) (acc : A) (body : A -> X -> M S A)
  : M S A :=
  match xs with
  | [] => ret acc
  | x :: rest => bind (body acc x) (fun acc' => for_each rest acc' body)
  end.

(** ** The state manager ([app/engine/state.py]) *)

Module StateManager.
Section WithRuntime.
Context `{RT : Py.Runtime} (schema : Schema.t).

Local Open Scope monad_scope.

(** [WHERE bmkg_alert_code = ? AND matched_location_id = ?]; a NULL
    [matched_location_id] equals nothing. *)
Definition same_key (alert_code : string) (location_id : Z) (a : Alert.t)
  : bool :=
  String.eqb (Alert.bmkg_alert_code a) alert_code
  && match Alert.matched_location_id a with
     | Some l => l =? location_id
     | None => false
     end.

Definition is_duplicate (alert_code : string) (location_id : Z)
  : M Store.t bool :=
  db <- get ;;
  let row := List.find (same_key alert_code location_id) (Store.alerts db) in
  ret (match row with Some _ => true | None => false end).

(** [INSERT INTO alerts (...) VALUES (..., 'active')] through
    [DatabaseManager.execute]: the store picks the id; under the unique
    constraint the statement raises and inserts nothing when the pair is
    already present. *)
Definition insert_alert (row : Alert.t) : M Store.t Z :=
  db <- get ;;
  let clash :=
    match Alert.matched_location_id row with
    | Some l => existsb (same_key (Alert.bmkg_alert_code row) l) (Store.alerts db)
    | None => false
    end in
  if Schema.dedup_unique schema && clash
  then raise (DuplicateKey "alerts.bmkg_alert_code, alerts.matched_location_id")
  else
    let lastrowid := Store.next_id (map Alert.id (Store.alerts db)) in
    let row' :=
      {| Alert.id := lastrowid;
         Alert.bmkg_alert_code := Alert.bmkg_alert_code row;
         Alert.event := Alert.event row;
         Alert.severity := Alert.severity row;
         Alert.urgency := Alert.urgency row;
         Alert.certainty := Alert.certainty row;
         Alert.headline := Alert.headline row;
         Alert.description := Alert.description row;
         Alert.effective := Alert.effective row;
         Alert.expires := Alert.expires row;
         Alert.infographic_url := Alert.infographic_url row;
         Alert.polygon_data := Alert.polygon_data row;
         Alert.matched_location_id := Alert.matched_location_id row;
         Alert.match_type := Alert.match_type row;
         Alert.matched_text := Alert.matched_text row;
         Alert.status := Alert.status row;
         Alert.expired_notified := Alert.expired_notified row |} in
    modify (Store.with_alerts (fun rows => rows ++ [row'])) ;;;
    ret lastrowid.

Definition store_alert (warning : WarningInfo.t) (match_ : MatchResult.t)
    (alert_code : string) : M Store.t Z :=
  let polygon_json :=
    Py.json_dumps
      (JArr
         (map (fun area =>
                 JObj [ ("name", JStr (WarningArea.name area));
                        ("polygon",
                         JArr (map (fun point => JArr (map JNum point))
                                   (WarningArea.polygon area))) ])
              (WarningInfo.areas warning))) in
  lastrowid <-
    insert_alert
      {| Alert.id := 0;
         Alert.bmkg_alert_code := alert_code;
         Alert.event := WarningInfo.event warning;
         Alert.severity := WarningInfo.severity warning;
         Alert.urgency := WarningInfo.urgency warning;
         Alert.certainty := WarningInfo.certainty warning;
         Alert.headline := WarningInfo.headline warning;
         Alert.description := WarningInfo.description warning;
         Alert.effective := WarningInfo.effective warning;
         Alert.expires := WarningInfo.expires warning;
         Alert.infographic_url := WarningInfo.infographic_url warning;
         Alert.polygon_data := polygon_json;
         Alert.matched_location_id :=
           Some (Location.id (MatchResult.location match_));
         Alert.match_type := MatchResult.match_type match_;
         Alert.matched_text := MatchResult.matched_text match_;
         Alert.status := "active";
         Alert.expired_notified := false |} ;;
  (* alert_id = cursor.lastrowid or 0 *)
  let alert_id := if lastrowid =? 0 then 0 else lastrowid in
  ret alert_id.

(** [WHERE status = 'active' AND expires != '' AND expires < ?]; text is
    compared byte by byte. *)
Definition is_overdue (now_utc : string) (a : Alert.t) : bool :=
  String.eqb (Alert.status a) "active"
  && negb (String.eqb (Alert.expires a) "")
  && String.ltb (Alert.expires a) now_utc.

(** [UPDATE alerts SET status = 'expired' WHERE id = ?] *)
Definition expire_by_id (id : Z) (rows : list Alert.t) : list Alert.t :=
  map (fun a => if Alert.id a =? id then Alert.set_status "expired" a else a)
      rows.

(** [now_utc] is [datetime.now(timezone.utc).isoformat()]. *)
Definition mark_expired_alerts (now_utc : string) : M Store.t (list Alert.t) :=
  db <- get ;;
  let rows := List.filter (is_overdue now_utc) (Store.alerts db) in
  for_each rows []
    (fun expired_alerts alert =>
       modify (Store.with_alerts (expire_by_id (Alert.id alert))) ;;;
       ret (expired_alerts ++ [alert])).

Definition log_activity (event_type message details : string)
  : M Store.t unit :=
  modify
    (Store.with_activity
       (fun rows =>
          rows ++
            [ {| ActivityLogEntry.id :=
                   Store.next_id (map ActivityLogEntry.id rows);
                 ActivityLogEntry.event_type := event_type;
                 ActivityLogEntry.message := message;
                 ActivityLogEntry.details := details |} ])).

Definition log_delivery (alert_id channel_id : Z)
    (status error_message : string) : M Store.t unit :=
  modify
    (Store.with_deliveries
       (fun rows =>
          rows ++
            [ {| AlertDelivery.id := Store.next_id (map AlertDelivery.id rows);
                 AlertDelivery.alert_id := alert_id;
                 AlertDelivery.channel_id := channel_id;
                 AlertDelivery.status := status;
                 AlertDelivery.error_message := error_message |} ])).

Definition get_enabled_locations : M Store.t (list Location.t) :=
  db <- get ;;
  ret (List.filter Location.enabled (Store.locations db)).

(** [channel["config"]] is a [str] in every row, so it is always decoded. *)
Definition get_enabled_channels : M Store.t (list Channel.t) :=
  db <- get ;;
  let rows :=
    List.filter NotificationChannel.enabled (Store.notification_channels db) in
  for_each rows []
    (fun result row =>
       match Py.json_loads (NotificationChannel.config row) with
       | Some cfg =>
           ret (result ++
                  [ {| Channel.id := Some (NotificationChannel.id row);
                       Channel.channel_type :=
                         Some (NotificationChannel.channel_type row);
                       Channel.config := Some cfg |} ])
       | None => raise (Exception "JSONDecodeError")
       end).

Definition get_config_value (key default : string) : M Store.t string :=
  db <- get ;;
  ret (match Store.config db !! key with
       | Some value => value
       | None => default
       end).

(** [WHERE expires_at > CURRENT_TIMESTAMP] *)
Definition get_active_trials (current_timestamp : string)
  : M Store.t (list Trial.t) :=
  db <- get ;;
  ret (List.filter (fun r => String.ltb current_timestamp (Trial.expires_at r))
         (Store.trial_subscriptions db)).

(** [WHERE expires_at <= CURRENT_TIMESTAMP AND expired_notified = 0] *)
Definition is_lapsed (current_timestamp : string) (r : Trial.t) : bool :=
  String.leb (Trial.expires_at r) current_timestamp
  && (Trial.expired_notified r =? 0).

(** [UPDATE trial_subscriptions SET expired_notified = 1 WHERE id IN (ids)] *)
Definition notify_by_ids (ids : list Z) (rows : list Trial.t) : list Trial.t :=
  map (fun r =>
         if existsb (Z.eqb (Trial.id r)) ids then Trial.set_notified r else r)
      rows.

Definition expire_trials (current_timestamp : string)
  : M Store.t (list Trial.t) :=
  db <- get ;;
  let expired :=
    List.filter (is_lapsed current_timestamp) (Store.trial_subscriptions db) in
  match expired with
  | [] => ret expired
  | _ :: _ =>
      let ids := map Trial.id expired in
      modify (Store.with_trials (notify_by_ids ids)) ;;;
      ret expired
  end.

End WithRuntime.
End StateManager.

(** ** The dispatcher ([app/notifications/dispatcher.py]) *)

(** A channel sender's [send(warning, match, channel_config)]: a network
    call, so its answer is given from outside. *)
Definition Sender : Type :=
  WarningInfo.t -> MatchResult.t -> Json -> result bool.

Module Senders.
Record t := {
  telegram : Sender;
  discord : Sender;
  slack : Sender;
  email : Sender;
  webhook : Sender
}.
End Senders.

Definition lift_result {S A} (r : result A) : M S A := fun s => (r, s).

Module NotificationDispatcher.
Section WithRuntime.
Context `{RT : Py.Runtime}.

Local Open Scope monad_scope.

Definition sender_map (senders : Senders.t) : gmap string Sender :=
  list_to_map
    [ ("telegram", Senders.telegram senders);
      ("discord", Senders.discord senders);
      ("slack", Senders.slack senders);
      ("email", Senders.email senders);
      ("webhook", Senders.webhook senders) ].

(** [now] is [datetime.now(timezone.utc).hour].  [int] raising
    [ValueError] lands in the [except] branch. *)
Definition _is_quiet_hours (now : Z) (severity : string) : M Store.t bool :=
  enabled <- StateManager.get_config_value "quiet_hours_enabled" "false" ;;
  if negb (String.eqb enabled "true") then ret false
  else
    override_severe <-
      StateManager.get_config_value "quiet_hours_override_severe" "true" ;;
    if String.eqb override_severe "true"
       && (String.eqb severity "Severe" || String.eqb severity "Extreme")
    then ret false
    else
      start_str <- StateManager.get_config_value "quiet_hours_start" "22:00" ;;
      end_str <- StateManager.get_config_value "quiet_hours_end" "06:00" ;;
      let local_hour := (now + 7) mod 24 in
      match Py.int (Py.split_first ":" start_str) with
      | None => ret false
      | Some start_hour =>
          match Py.int (Py.split_first ":" end_str) with
          | None => ret false
          | Some end_hour =>
              if start_hour >? end_hour
              then ret ((local_hour >=? start_hour) || (local_hour <? end_hour))
              else ret ((start_hour <=? local_hour) && (local_hour <? end_hour))
          end
      end.

Definition send (now : Z) (senders : Senders.t) (alert_id : Z)
    (warning : WarningInfo.t) (match_ : MatchResult.t) (channel : Channel.t)
  : M Store.t bool :=
  let channel_id := default 0 (Channel.id channel) in
  let channel_type := default "" (Channel.channel_type channel) in
  let channel_config := default (JObj []) (Channel.config channel) in
  quiet <- _is_quiet_hours now (WarningInfo.severity warning) ;;
  if quiet then
    StateManager.log_delivery alert_id channel_id "skipped_quiet_hours" "" ;;;
    ret false
  else
    outcome <-
      try_except
        (match sender_map senders !! channel_type with
         | Some sender =>
             success <- lift_result (sender warning match_ channel_config) ;;
             ret (success, "")
         | None =>
             ret (false, "Unsupported channel type: " +:+ channel_type)
         end)
        (fun exc => ret (false, exn_str exc)) ;;
    let '(success, error_msg) := outcome in
    let status := if (success : bool) then "sent" else "failed" in
    StateManager.log_delivery alert_id channel_id status error_msg ;;;
    ret success.

End WithRuntime.
End NotificationDispatcher.

(** ** The alert engine ([app/engine/worker.py]) *)

Module NowcastListItem.
Record t := {
  code : string;
  province : string;
  description : string;
  published_at : string;
  detail_url : string
}.
End NowcastListItem.

Module NowcastDetailData.
Record t := { province : string; warnings : list WarningInfo.t }.
End NowcastDetailData.

(** The [summary] dict of one cycle. *)
Module Summary.
Record t := {
  warnings_fetched : Z;
  details_fetched : Z;
  matches_found : Z;
  new_alerts : Z;
  duplicates_skipped : Z;
  notifications_sent : Z;
  expired_alerts : Z;
  trial_notifications : Z;
  trials_expired : Z;
  errors : list string
}.

Definition zero : t :=
  {| warnings_fetched := 0; details_fetched := 0; matches_found := 0;
     new_alerts := 0; duplicates_skipped := 0; notifications_sent := 0;
     expired_alerts := 0; trial_notifications := 0; trials_expired := 0;
     errors := [] |}.

Definition set_warnings_fetched (n : Z) (s : t) : t :=
  {| warnings_fetched := n; details_fetched := details_fetched s;
     matches_found := matches_found s; new_alerts := new_alerts s;
     duplicates_skipped := duplicates_skipped s;
     notifications_sent := notifications_sent s;
     expired_alerts := expired_alerts s;
     trial_notifications := trial_notifications s;
     trials_expired := trials_expired s; errors := errors s |}.

Definition add_details_fetched (n : Z) (s : t) : t :=
  {| warnings_fetched := warnings_fetched s;
     details_fetched := details_fetched s + n;
     matches_found := matches_found s; new_alerts := new_alerts s;
     duplicates_skipped := duplicates_skipped s;
     notifications_sent := notifications_sent s;
     expired_alerts := expired_alerts s;
     trial_notifications := trial_notifications s;
     trials_expired := trials_expired s; errors := errors s |}.

Definition add_matches_found (n : Z) (s : t) : t :=
  {| warnings_fetched := warnings_fetched s;
     details_fetched := details_fetched s;
     matches_found := matches_found s + n; new_alerts := new_alerts s;
     duplicates_skipped := duplicates_skipped s;
     notifications_sent := notifications_sent s;
     expired_alerts := expired_alerts s;
     trial_notifications := trial_notifications s;
     trials_expired := trials_expired s; errors := errors s |}.

Definition add_new_alerts (n : Z) (s : t) : t :=
  {| warnings_fetched := warnings_fetched s;
     details_fetched := details_fetched s;
     matches_found := matches_found s; new_alerts := new_alerts s + n;
     duplicates_skipped := duplicates_skipped s;
     notifications_sent := notifications_sent s;
     expired_alerts := expired_alerts s;
     trial_notifications := trial_notifications s;
     trials_expired := trials_expired s; errors := errors s |}.

Definition add_duplicates_skipped (n : Z) (s : t) : t :=
  {| warnings_fetched := warnings_fetched s;
     details_fetched := details_fetched s;
     matches_found := matches_found s; new_alerts := new_alerts s;
     duplicates_skipped := duplicates_skipped s + n;
     notifications_sent := notifications_sent s;
     expired_alerts := expired_alerts s;
     trial_notifications := trial_notifications s;
     trials_expired := trials_expired s; errors := errors s |}.

Definition add_notifications_sent (n : Z) (s : t) : t :=
  {| warnings_fetched := warnings_fetched s;
     details_fetched := details_fetched s;
     matches_found := matches_found s; new_alerts := new_alerts s;
     duplicates_skipped := duplicates_skipped s;
     notifications_sent := notifications_sent s + n;
     expired_alerts := expired_alerts s;
     trial_notifications := trial_notifications s;
     trials_expired := trials_expired s; errors := errors s |}.

Definition set_expired_alerts (n : Z) (s : t) : t :=
  {| warnings_fetched := warnings_fetched s;
     details_fetched := details_fetched s;
     matches_found := matches_found s; new_alerts := new_alerts s;
     duplicates_skipped := duplicates_skipped s;
     notifications_sent := notifications_sent s;
     expired_alerts := n;
     trial_notifications := trial_notifications s;
     trials_expired := trials_expired s; errors := errors s |}.

Definition set_trial_notifications (n : Z) (s : t) : t :=
  {| warnings_fetched := warnings_fetched s;
     details_fetched := details_fetched s;
     matches_found := matches_found s; new_alerts := new_alerts s;
     duplicates_skipped := duplicates_skipped s;
     notifications_sent := notifications_sent s;
     expired_alerts := expired_alerts s;
     trial_notifications := n;
     trials_expired := trials_expired s; errors := errors s |}.

Definition set_trials_expired (n : Z) (s : t) : t :=
  {| warnings_fetched := warnings_fetched s;
     details_fetched := details_fetched s;
     matches_found := matches_found s; new_alerts := new_alerts s;
     duplicates_skipped := duplicates_skipped s;
     notifications_sent := notifications_sent s;
     expired_alerts := expired_alerts s;
     trial_notifications := trial_notifications s;
     trials_expired := n; errors := errors s |}.

Definition append_error (e : string) (s : t) : t :=
  {| warnings_fetched := warnings_fetched s;
     details_fetched := details_fetched s;
     matches_found := matches_found s; new_alerts := new_alerts s;
     duplicates_skipped := duplicates_skipped s;
     notifications_sent := notifications_sent s;
     expired_alerts := expired_alerts s;
     trial_notifications := trial_notifications s;
     trials_expired := trials_expired s; errors := errors s ++ [e] |}.
End Summary.

(** What the world outside the process answers.  Every field that stands
    for a call is indexed by the number of outside calls made before it, so
    that two calls with the same arguments may be answered differently.
    The text of a raw Telegram message is not modelled. *)
Module Env.
Record t := {
  get_nowcast_list : nat -> result (list NowcastListItem.t);
  get_nowcast_detail : nat -> string -> result NowcastDetailData.t;
  senders : nat -> Senders.t;
  send_raw : nat -> string -> string -> result bool;
  utc_hour : nat -> Z;
  utc_isoformat : nat -> string;
  current_timestamp : nat -> string;
  telegram_bot_token : option string
}.
End Env.

(** The engine object together with the store it writes to and the
    [summary] dict of the cycle in progress, which stays as it is when an
    exception unwinds. *)
Module World.
Record t := {
  store : Store.t;
  calls : nat;
  summary : Summary.t;
  _last_poll : option string;
  _last_poll_result : option string
}.

Definition initial (db : Store.t) : t :=
  {| store := db; calls := 0%nat; summary := Summary.zero;
     _last_poll := None; _last_poll_result := None |}.

Definition with_store (f : Store.t -> Store.t) (w : t) : t :=
  {| store := f (store w); calls := calls w; summary := summary w;
     _last_poll := _last_poll w; _last_poll_result := _last_poll_result w |}.

Definition with_summary (f : Summary.t -> Summary.t) (w : t) : t :=
  {| store := store w; calls := calls w; summary := f (summary w);
     _last_poll := _last_poll w; _last_poll_result := _last_poll_result w |}.

Definition tick (w : t) : t :=
  {| store := store w; calls := S (calls w); summary := summary w;
     _last_poll := _last_poll w; _last_poll_result := _last_poll_result w |}.

Definition set_last_poll (s : string) (w : t) : t :=
  {| store := store w; calls := calls w; summary := summary w;
     _last_poll := Some s; _last_poll_result := _last_poll_result w |}.

Definition set_last_poll_result (s : string) (w : t) : t :=
  {| store := store w; calls := calls w; summary := summary w;
     _last_poll := _last_poll w; _last_poll_result := Some s |}.
End World.

(** A state-manager call made from the engine. *)
Definition on_store {A} (m : M Store.t A) : M World.t A :=
  fun w =>
    let '(r, db) := m (World.store w) in
    (r, World.with_store (fun _ => db) w).

(** One call to the outside: read the answer at the current index and
    advance it. *)
Definition outside {A} (answer : nat -> A) : M World.t A :=
  fun w => (Ok (answer (World.calls w)), World.tick w).

(** [for x in xs: body x], stopping at the first exception. *)
Fixpoint for_ {S X} (xs : list X) (body : X -> M S unit) : M S unit :=
  match xs with
  | [] => ret tt
  | x :: rest => bind (body x) (fun _ => for_ rest body)
  end.

(** Decimal text of an integer, for the f-strings. *)
Definition str_of_Z (z : Z) : string := pretty z.

Module AlertEngine.
Section WithRuntime.
Context `{RT : Py.Runtime} (schema : Schema.t) (env : Env.t).

Local Open Scope monad_scope.

Definition _SEVERITY_ORDER : gmap string Z :=
  list_to_map [ ("minor", 0); ("moderate", 1); ("severe", 2); ("extreme", 3) ].

Definition update_summary (f : Summary.t -> Summary.t) : M World.t unit :=
  modify (World.with_summary f).

Definition len {X} (xs : list X) : Z := Z.of_nat (length xs).

(** [bool(s)] for an optional [str]. *)
Definition token_truthy (s : option string) : bool :=
  match s with
  | Some t => Py.truthy t
  | None => false
  end.

(** The body of [for channel in channels]. *)
Definition notify_channel (alert_id : Z) (warning : WarningInfo.t)
    (match_ : MatchResult.t) (channel : Channel.t) : M World.t unit :=
  try_except
    (now <- outside (Env.utc_hour env) ;;
     senders <- outside (Env.senders env) ;;
     success <-
       on_store
         (NotificationDispatcher.send now senders alert_id warning match_
            channel) ;;
     if (success : bool)
     then update_summary (Summary.add_notifications_sent 1)
     else ret tt)
    (fun send_err => update_summary (Summary.append_error (exn_str send_err))).

(** The body of [for match in matches]; [self._dispatcher] is always set
    ([main.py]). *)
Definition handle_match (channels : list Channel.t)
    (item : NowcastListItem.t) (warning : WarningInfo.t)
    (match_ : MatchResult.t) : M World.t unit :=
  duplicate <-
    on_store
      (StateManager.is_duplicate (NowcastListItem.code item)
         (Location.id (MatchResult.location match_))) ;;
  if (duplicate : bool) then update_summary (Summary.add_duplicates_skipped 1)
  else
    alert_id <-
      on_store
        (StateManager.store_alert schema warning match_
           (NowcastListItem.code item)) ;;
    update_summary (Summary.add_new_alerts 1) ;;;
    match channels with
    | [] => ret tt
    | _ :: _ => for_ channels (notify_channel alert_id warning match_)
    end.

(** The body of [for warning in detail.warnings]. *)
Definition handle_warning (locations : list Location.t)
    (channels : list Channel.t) (item : NowcastListItem.t)
    (warning : WarningInfo.t) : M World.t unit :=
  if WarningInfo.is_expired warning then ret tt
  else
    let matches := Matcher.match_locations warning locations in
    update_summary (Summary.add_matches_found (len matches)) ;;;
    for_ matches (handle_match channels item warning).

(** The body of [for item in nowcast.data]. *)
Definition handle_item (locations : list Location.t)
    (channels : list Channel.t) (item : NowcastListItem.t) : M World.t unit :=
  try_except
    (answer <- outside (Env.get_nowcast_detail env) ;;
     detail <- lift_result (answer (NowcastListItem.code item)) ;;
     update_summary (Summary.add_details_fetched 1) ;;;
     for_ (NowcastDetailData.warnings detail)
       (handle_warning locations channels item))
    (fun detail_err =>
       update_summary
         (Summary.append_error
            (NowcastListItem.code item +:+ ": " +:+ exn_str detail_err))).

(** The test applied to one trial for one warning in [_process_trials]. *)
Definition trial_wants (description_lower : string)
    (area_names_lower : gset string) (warn_sev : Z) (trial : Trial.t) : bool :=
  let trial_threshold := Trial.severity_threshold trial in
  let passes :=
    if negb (String.eqb trial_threshold "all")
    then
      let trial_sev :=
        default 0 (_SEVERITY_ORDER !! Py.lower trial_threshold) in
      negb (warn_sev <? trial_sev)
    else true in
  let sub_name := Py.lower (Trial.subdistrict_name trial) in
  let dist_name := Py.lower (Trial.district_name trial) in
  passes
  && (if Py.truthy sub_name && Py.str_in sub_name description_lower then true
      else Py.truthy dist_name && Matcher.any_area dist_name area_names_lower).

Definition _process_trials (nowcast : list NowcastListItem.t) : M World.t Z :=
  match Env.telegram_bot_token env with
  | None => ret 0
  | Some bot_token =>
      if negb (Py.truthy bot_token) then ret 0
      else
        now <- outside (Env.current_timestamp env) ;;
        trials <- on_store (StateManager.get_active_trials now) ;;
        match trials with
        | [] => ret 0
        | _ :: _ =>
            for_each nowcast 0
              (fun sent_count item =>
                 answer <- outside (Env.get_nowcast_detail env) ;;
                 match answer (NowcastListItem.code item) with
                 | Raise _ => ret sent_count
                 | Ok detail =>
                     for_each (NowcastDetailData.warnings detail) sent_count
                       (fun sent_count warning =>
                          if WarningInfo.is_expired warning then ret sent_count
                          else
                            let description_lower :=
                              Py.lower (WarningInfo.description warning) in
                            let area_names_lower :=
                              Matcher.area_names warning in
                            let warn_sev :=
                              default 0
                                (_SEVERITY_ORDER
                                   !! Py.lower (WarningInfo.severity warning)) in
                            for_each trials sent_count
                              (fun sent_count trial =>
                                 if negb
                                      (trial_wants description_lower
                                         area_names_lower warn_sev trial)
                                 then ret sent_count
                                 else
                                   answer <- outside (Env.send_raw env) ;;
                                   match
                                     answer bot_token
                                       (Trial.telegram_chat_id trial)
                                   with
                                   | Ok true => ret (sent_count + 1)
                                   | Ok false => ret sent_count
                                   | Raise _ => ret sent_count
                                   end))
                 end)
        end
  end.

Definition _expire_trials : M World.t Z :=
  now <- outside (Env.current_timestamp env) ;;
  expired_trials <- on_store (StateManager.expire_trials now) ;;
  match expired_trials with
  | [] => ret 0
  | _ :: _ =>
      match Env.telegram_bot_token env with
      | None => ret (len expired_trials)
      | Some bot_token =>
          if negb (Py.truthy bot_token) then ret (len expired_trials)
          else
            for_ expired_trials
              (fun trial =>
                 answer <- outside (Env.send_raw env) ;;
                 let _ := answer bot_token (Trial.telegram_chat_id trial) in
                 ret tt) ;;;
            ret (len expired_trials)
      end
  end.

(** [json.dumps(summary, default=str)] *)
Definition summary_json (s : Summary.t) : string :=
  Py.json_dumps
    (JObj
       [ ("warnings_fetched", JNum (Summary.warnings_fetched s));
         ("details_fetched", JNum (Summary.details_fetched s));
         ("matches_found", JNum (Summary.matches_found s));
         ("new_alerts", JNum (Summary.new_alerts s));
         ("duplicates_skipped", JNum (Summary.duplicates_skipped s));
         ("notifications_sent", JNum (Summary.notifications_sent s));
         ("expired_alerts", JNum (Summary.expired_alerts s));
         ("trial_notifications", JNum (Summary.trial_notifications s));
         ("trials_expired", JNum (Summary.trials_expired s));
         ("errors", JArr (map JStr (Summary.errors s))) ]).

(** What runs inside the outer [try] once the list is known to be
    non-empty and locations are configured. *)
Definition poll_body (nowcast : list NowcastListItem.t)
    (locations : list Location.t) : M World.t unit :=
  channels <- on_store StateManager.get_enabled_channels ;;
  for_ nowcast (handle_item locations channels) ;;;
  now_utc <- outside (Env.utc_isoformat env) ;;
  expired <- on_store (StateManager.mark_expired_alerts now_utc) ;;
  update_summary (Summary.set_expired_alerts (len expired)) ;;;
  trial_notifications <- _process_trials nowcast ;;
  update_summary (Summary.set_trial_notifications trial_notifications) ;;;
  trials_expired <- _expire_trials ;;
  update_summary (Summary.set_trials_expired trials_expired) ;;;
  w <- get ;;
  let summary := World.summary w in
  let last_poll_result :=
    "OK: " +:+ str_of_Z (Summary.new_alerts summary) +:+ " new, "
    +:+ str_of_Z (Summary.duplicates_skipped summary) +:+ " dupes, "
    +:+ str_of_Z (Summary.expired_alerts summary) +:+ " expired" in
  modify (World.set_last_poll_result last_poll_result) ;;;
  on_store
    (StateManager.log_activity "poll_completed" last_poll_result
       (summary_json summary)).

Definition _run_poll_cycle : M World.t Summary.t :=
  start_time <- outside (Env.utc_isoformat env) ;;
  modify (World.set_last_poll start_time) ;;;
  modify (World.with_summary (fun _ => Summary.zero)) ;;;
  try_except
    (answer <- outside (Env.get_nowcast_list env) ;;
     nowcast <- lift_result answer ;;
     update_summary (Summary.set_warnings_fetched (len nowcast)) ;;;
     match nowcast with
     | [] =>
         modify (World.set_last_poll_result "no warnings") ;;;
         on_store
           (StateManager.log_activity "poll_completed"
              "No active warnings found" "")
     | _ :: _ =>
         locations <- on_store StateManager.get_enabled_locations ;;
         match locations with
         | [] => modify (World.set_last_poll_result "no locations configured")
         | _ :: _ => poll_body nowcast locations
         end
     end)
    (fun exc =>
       modify (World.set_last_poll_result ("error: " +:+ exn_str exc)) ;;;
       on_store
         (StateManager.log_activity "poll_error"
            ("Poll cycle failed: " +:+ exn_str exc) "")) ;;;
  w <- get ;;
  ret (World.summary w).

(** [check_now] *)
Definition check_now : M World.t Summary.t := _run_poll_cycle.

End WithRuntime.
End AlertEngine.

(** ** Notions used to state the properties *)

(** A postcondition for code in [M]: [Q] on normal return, [E] when an
    exception leaves the code. *)
Definition triple {S A} (P : S -> Prop) (m : M S A)
    (Q : A -> S -> Prop) (E : exn -> S -> Prop) : Prop :=
  forall s, P s ->
    match m s with
    | (Ok a, s') => Q a s'
    | (Raise e, s') => E e s'
    end.

(** [m] keeps [I] whether it returns or raises. *)
Definition keeps {S A} (I : S -> Prop) (m : M S A) : Prop :=
  triple I m (fun _ => I) (fun _ => I).

(** [m] does not change the [alerts] table. *)
Definition alerts_fixed {A} (m : M Store.t A) : Prop :=
  forall db, Store.alerts (snd (m db)) = Store.alerts db.

(** A property of the store, read on the engine's state. *)
Definition on_world (Is : Store.t -> Prop) (w : World.t) : Prop :=
  Is (World.store w).

Module Dedup.

(** Number of [alerts] rows with [bmkg_alert_code = c] and
    [matched_location_id = l]. *)
Definition count (c : string) (l : Z) (rows : list Alert.t) : nat :=
  length (List.filter (StateManager.same_key c l) rows).

(** At most one row for every pair. *)
Definition unique (rows : list Alert.t) : Prop :=
  forall c l, (count c l rows <= 1)%nat.

End Dedup.

Module Reach.
Section WithRuntime.
Context `{RT : Py.Runtime} (schema : Schema.t).

(** Stores the engine can be in: it starts with an empty [alerts] table;
    a poll cycle runs against any outside world; between cycles the other
    tables (locations, channels, config, trials) may be edited. *)
Inductive reachable : Store.t -> Prop :=
| reach_fresh db :
    Store.alerts db = [] -> reachable db
| reach_cycle env w r w' :
    reachable (World.store w) ->
    AlertEngine._run_poll_cycle schema env w = (r, w') ->
    reachable (World.store w')
| reach_edit db db' :
    reachable db ->
    Store.alerts db' = Store.alerts db ->
    reachable db'.

End WithRuntime.
End Reach.

Module QuietHours.
Section WithRuntime.
Context `{RT : Py.Runtime}.

(** [config.key], with the default of the configuration table. *)
Definition config_value (db : Store.t) (key default : string) : string :=
  match Store.config db !! key with
  | Some v => v
  | None => default
  end.

(** The hour field of ["HH:MM"], when it is an integer. *)
Definition hour_field (s : string) : option Z :=
  Py.int (Py.split_first ":" s).

(** [hour] lies in [[start, end_)], a window that crosses midnight being
    written [start > end_]. *)
Definition in_window (start end_ hour : Z) : Prop :=
  if start >? end_ then hour >= start \/ hour < end_
  else start <= hour < end_.

(** The quiet-hours condition as the specification words it. *)
Definition applies (db : Store.t) (utc_hour : Z) (severity : string) : Prop :=
  config_value db "quiet_hours_enabled" "false" = "true"
  /\ ~ (config_value db "quiet_hours_override_severe" "true" = "true"
        /\ (severity = "Severe" \/ severity = "Extreme"))
  /\ exists start end_,
       hour_field (config_value db "quiet_hours_start" "22:00") = Some start
       /\ hour_field (config_value db "quiet_hours_end" "06:00") = Some end_
       /\ in_window start end_ ((utc_hour + 7) mod 24).

End WithRuntime.
End QuietHours.

Module Route.

(** What the routing block of [send] computes: [(success, error_msg)]. *)
Definition outcome (senders : Senders.t) (warning : WarningInfo.t)
    (match_ : MatchResult.t) (channel : Channel.t) : bool * string :=
  let channel_type := default "" (Channel.channel_type channel) in
  let channel_config := default (JObj []) (Channel.config channel) in
  match NotificationDispatcher.sender_map senders !! channel_type with
  | Some sender =>
      match sender warning match_ channel_config with
      | Ok success => (success, "")
      | Raise exc => (false, exn_str exc)
      end
  | None => (false, "Unsupported channel type: " +:+ channel_type)
  end.

(** The row [log_delivery] appends. *)
Definition delivery (db : Store.t) (alert_id channel_id : Z)
    (status error_message : string) : AlertDelivery.t :=
  {| AlertDelivery.id :=
       Store.next_id (map AlertDelivery.id (Store.alert_deliveries db));
     AlertDelivery.alert_id := alert_id;
     AlertDelivery.channel_id := channel_id;
     AlertDelivery.status := status;
     AlertDelivery.error_message := error_message |}.

End Route.

Module Trials.

(** The lists returned by [expire_trials] called once at each of the
    clock readings [nows], in order, starting from the store [db]. *)
Fixpoint returned (nows : list string) (db : Store.t) : list (list Trial.t) :=
  match nows with
  | [] => []
  | now :: later =>
      match StateManager.expire_trials now db with
      | (Ok expired, db') => expired :: returned later db'
      | (Raise _, _) => []
      end
  end.

(** How often the trial [id] was handed back. *)
Definition times_returned (id : Z) (batches : list (list Trial.t)) : nat :=
  length (List.filter (fun r => Trial.id r =? id) (concat batches)).

End Trials.

(** ** Sample data: the seed scenarios of the specification *)

Module Sample.

Definition warning (severity description expires : string)
    (area_names : list string) : WarningInfo.t :=
  {| WarningInfo.identifier := "";
     WarningInfo.event := "Hujan Lebat dan Petir";
     WarningInfo.severity := severity;
     WarningInfo.urgency := "Immediate";
     WarningInfo.certainty := "Observed";
     WarningInfo.effective := "2026-02-17T19:55:00+07:00";
     WarningInfo.expires := expires;
     WarningInfo.headline := "";
     WarningInfo.description := description;
     WarningInfo.sender := "";
     WarningInfo.infographic_url := "";
     WarningInfo.areas :=
       map (fun n => {| WarningArea.name := n; WarningArea.polygon := [] |})
           area_names;
     WarningInfo.is_expired := false |}.

Definition location (id : Z) (subdistrict district : string) (enabled : bool)
  : Location.t :=
  {| Location.id := id;
     Location.label := "Rumah";
     Location.province_code := "33";
     Location.province_name := "Jawa Tengah";
     Location.district_code := "3305";
     Location.district_name := district;
     Location.subdistrict_code := "330501";
     Location.subdistrict_name := subdistrict;
     Location.enabled := enabled |}.

Definition hujan : WarningInfo.t :=
  warning "Moderate" "Hujan di Alian, Bonorowo" "2026-02-17T23:00:00+07:00"
    ["Jawa Tengah"].

Definition alian : Location.t := location 1 "Alian" "Kebumen" true.

Definition alian_match : MatchResult.t :=
  {| MatchResult.location := alian;
     MatchResult.match_type := "kecamatan";
     MatchResult.matched_text := "Alian" |}.

Definition item : NowcastListItem.t :=
  {| NowcastListItem.code := "CBT1";
     NowcastListItem.province := "Jawa Tengah";
     NowcastListItem.description := "";
     NowcastListItem.published_at := "";
     NowcastListItem.detail_url := "" |}.

Definition telegram_row : NotificationChannel.t :=
  {| NotificationChannel.id := 7;
     NotificationChannel.channel_type := "telegram";
     NotificationChannel.enabled := true;
     NotificationChannel.config := "{}" |}.

Definition telegram : Channel.t :=
  {| Channel.id := Some 7;
     Channel.channel_type := Some "telegram";
     Channel.config := Some (JObj []) |}.

Definition fax : Channel.t :=
  {| Channel.id := Some 8;
     Channel.channel_type := Some "fax";
     Channel.config := Some (JObj []) |}.

Definition delivering : Sender := fun _ _ _ => Ok true.
Definition refusing : Sender := fun _ _ _ => Ok false.
Definition crashing : Sender := fun _ _ _ => Raise (Exception "timeout").

Definition senders (telegram : Sender) : Senders.t :=
  {| Senders.telegram := telegram;
     Senders.discord := delivering;
     Senders.slack := delivering;
     Senders.email := delivering;
     Senders.webhook := delivering |}.

(** A store with one location, one channel and the given configuration. *)
Definition db (config : list (string * string)) (alerts : list Alert.t)
    (trials : list Trial.t) : Store.t :=
  {| Store.alerts := alerts;
     Store.alert_deliveries := [];
     Store.activity_log := [];
     Store.config := list_to_map config;
     Store.locations := [alian];
     Store.notification_channels := [telegram_row];
     Store.trial_subscriptions := trials |}.

Definition quiet_config : list (string * string) :=
  [ ("quiet_hours_enabled", "true");
    ("quiet_hours_start", "22:00");
    ("quiet_hours_end", "06:00");
    ("quiet_hours_override_severe", "true") ].

Definition broken_config : list (string * string) :=
  [ ("quiet_hours_enabled", "true");
    ("quiet_hours_start", "");
    ("quiet_hours_end", "06:00") ].

Definition alert (id : Z) (code : string) (location_id : Z)
    (status expires : string) : Alert.t :=
  {| Alert.id := id;
     Alert.bmkg_alert_code := code;
     Alert.event := "Hujan Lebat dan Petir";
     Alert.severity := "Moderate";
     Alert.urgency := "";
     Alert.certainty := "";
     Alert.headline := "";
     Alert.description := "";
     Alert.effective := "";
     Alert.expires := expires;
     Alert.infographic_url := "";
     Alert.polygon_data := "[]";
     Alert.matched_location_id := Some location_id;
     Alert.match_type := "kecamatan";
     Alert.matched_text := "Alian";
     Alert.status := status;
     Alert.expired_notified := false |}.

Definition old_alerts : list Alert.t :=
  [ alert 1 "CBT1" 1 "active" "2000-01-01T00:00:00+00:00";
    alert 2 "CBT2" 1 "active" "2999-01-01T00:00:00+00:00";
    alert 3 "CBT3" 1 "active" "";
    alert 4 "CBT4" 1 "cancelled" "2000-01-01T00:00:00+00:00" ].

Definition trial (id : Z) (expires_at : string) (expired_notified : Z)
  : Trial.t :=
  {| Trial.id := id;
     Trial.telegram_chat_id := "42";
     Trial.subdistrict_code := "330501";
     Trial.subdistrict_name := "Alian";
     Trial.district_name := "Kebumen";
     Trial.province_name := "Jawa Tengah";
     Trial.severity_threshold := "all";
     Trial.registered_at := "2026-02-16 12:00:00";
     Trial.expires_at := expires_at;
     Trial.expired_notified := expired_notified;
     Trial.ip_address := "10.0.0.1" |}.

Definition trials : list Trial.t :=
  [ trial 1 "2026-02-17 12:00:00" 0;
    trial 2 "2026-02-19 12:00:00" 0;
    trial 3 "2026-02-15 12:00:00" 1 ].

(** The outside of scenario S1: one code, one warning, 23h local time. *)
Definition env : Env.t :=
  {| Env.get_nowcast_list := fun _ => Ok [item];
     Env.get_nowcast_detail :=
       fun _ _ =>
         Ok {| NowcastDetailData.province := "Jawa Tengah";
               NowcastDetailData.warnings := [hujan] |};
     Env.senders := fun _ => senders delivering;
     Env.send_raw := fun _ _ _ => Ok true;
     Env.utc_hour := fun _ => 16;
     Env.utc_isoformat := fun _ => "2026-02-17T16:00:00+00:00";
     Env.current_timestamp := fun _ => "2026-02-17 16:00:00";
     Env.telegram_bot_token := None |}.

(** The store after one cycle, and after a second one. *)
Definition cycle (w : World.t) : result Summary.t * World.t :=
  AlertEngine._run_poll_cycle (RT := AsciiRuntime.runtime) Schema.spec env w.

Definition after_one : World.t := snd (cycle (World.initial (db [] [] []))).
Definition after_two : World.t := snd (cycle after_one).

End Sample.

(** ** More of the state manager ([app/engine/state.py]) *)

Module StateQueries.

Local Open Scope monad_scope.

(** The count of the rows [WHERE status = 'active']; the aggregate always
    yields a row, so the [else 0] branch is never taken. *)
Definition get_alert_count : M Store.t Z :=
  db <- get ;;
  let cnt :=
    Z.of_nat
      (length
         (List.filter (fun a => String.eqb (Alert.status a) "active")
            (Store.alerts db))) in
  ret cnt.

End StateQueries.

(** ** Notions for the further properties *)

Module Hits.
Section WithRuntime.
Context `{RT : Py.Runtime}.

(** The primary test of the matcher for one location. *)
Definition kecamatan (w : WarningInfo.t) (loc : Location.t) : bool :=
  Py.truthy (Py.lower (Location.subdistrict_name loc))
  && Py.str_in (Py.lower (Location.subdistrict_name loc))
       (Py.lower (WarningInfo.description w)).

(** The fallback test of the matcher for one location. *)
Definition kabupaten (w : WarningInfo.t) (loc : Location.t) : bool :=
  Py.truthy (Py.lower (Location.district_name loc))
  && Matcher.any_area (Py.lower (Location.district_name loc))
       (Matcher.area_names w).

(** The match the loop body builds for a location that passed a test. *)
Definition result (w : WarningInfo.t) (loc : Location.t) : MatchResult.t :=
  if kecamatan w loc then
    {| MatchResult.location := loc;
       MatchResult.match_type := "kecamatan";
       MatchResult.matched_text := Location.subdistrict_name loc |}
  else
    {| MatchResult.location := loc;
       MatchResult.match_type := "kabupaten";
       MatchResult.matched_text := Location.district_name loc |}.

End WithRuntime.
End Hits.

Module Rows.

(** The statuses the engine writes. *)
Definition engine_status (a : Alert.t) : Prop :=
  Alert.status a = "active" \/ Alert.status a = "expired".

(** How the engine may change a stored alert: not at all, or from
    [active] to [expired]. *)
Definition advanced (a a' : Alert.t) : Prop :=
  a' = a \/ (Alert.status a = "active" /\ a' = Alert.set_status "expired" a).

(** [rows'] holds the rows of [rows], in place and each advanced, followed
    by new rows. *)
Definition grown (rows rows' : list Alert.t) : Prop :=
  exists old new,
    rows' = old ++ new /\ Forall2 advanced rows old.

End Rows.

(** [m] keeps [I] and lets no exception out. *)
Definition safe {S A} (I : S -> Prop) (m : M S A) : Prop :=
  triple I m (fun _ => I) (fun _ _ => False).

(** The books of one poll cycle: how the tables and the counters of the
    summary stand to each other while the cycle runs. *)
Module Ledger.

(** [m] leaves the number of alerts, the deliveries and the channels as
    they are. *)
Definition fixed {A} (m : M Store.t A) : Prop :=
  forall db,
    length (Store.alerts (snd (m db))) = length (Store.alerts db)
    /\ Store.alert_deliveries (snd (m db)) = Store.alert_deliveries db
    /\ Store.notification_channels (snd (m db)) =
         Store.notification_channels db.

Section Books.
Context (alerts0 deliveries0 : Z) (channels0 : list NotificationChannel.t).

(** Number of enabled channels when the cycle starts. *)
Definition enabled_channels : Z :=
  Z.of_nat (length (List.filter NotificationChannel.enabled channels0)).

(** [pending]: matches counted but not yet handled; [in_flight]: channels
    the newest alert has not yet been sent to; [ahead]: alerts stored but
    not yet counted. *)
Definition balanced (pending in_flight ahead : Z) (w : World.t) : Prop :=
  let s := World.summary w in
  let db := World.store w in
  Z.of_nat (length (Store.alerts db))
    = alerts0 + Summary.new_alerts s + ahead
  /\ Z.of_nat (length (Store.alert_deliveries db))
       = deliveries0 + Summary.new_alerts s * enabled_channels - in_flight
  /\ Summary.matches_found s
       = Summary.new_alerts s + Summary.duplicates_skipped s + pending
  /\ 0 <= Summary.notifications_sent s
       <= Summary.new_alerts s * enabled_channels - in_flight
  /\ Store.notification_channels db = channels0.

End Books.
End Ledger.

(** [m] leaves the configuration, the locations and the channels as they
    are. *)
Definition settings_fixed {A} (m : M Store.t A) : Prop :=
  forall db,
    Store.config (snd (m db)) = Store.config db
    /\ Store.locations (snd (m db)) = Store.locations db
    /\ Store.notification_channels (snd (m db)) =
         Store.notification_channels db.

(** ** More built-ins *)

Module PyMore.


(** [s[n:]] *)
Fixpoint drop (n : nat) (s : string) : string :=
  match n, s with
  | O, _ => s
  | S _, EmptyString => EmptyString
  | S n', String _ rest => drop n' rest
  end.

(** [s.split(sep)] for a one-character separator; never empty. *)
Fixpoint split (sep : ascii) (s : string) : list string :=
  match s with
  | EmptyString => [EmptyString]
  | String c rest =>
      if Ascii.eqb c sep then EmptyString :: split sep rest
      else
        match split sep rest with
        | part :: parts => String c part :: parts
        | [] => [String c EmptyString]
        end
  end.

(** [type(j).__name__] of decoded JSON. *)
Definition type_name (j : Json) : string :=
  match j with
  | JNull => "NoneType"
  | JBool _ => "bool"
  | JNum _ => "int"
  | JStr _ => "str"
  | JArr _ => "list"
  | JObj _ => "dict"
  end.

(** [bool(j)] *)
Definition truthy (j : Json) : bool :=
  match j with
  | JNull => false
  | JBool b => b
  | JNum z => negb (z =? 0)
  | JStr s => Py.truthy s
  | JArr [] => false
  | JArr (_ :: _) => true
  | JObj [] => false
  | JObj (_ :: _) => true
  end.

(** [j.get(key, default)]: only a [dict] has the method. *)
Definition get (j : Json) (key : string) (default : Json) : result Json :=
  match j with
  | JObj members =>
      match List.find (fun kv => String.eqb (fst kv) key) members with
      | Some kv => Ok (snd kv)
      | None => Ok default
      end
  | _ =>
      Raise (Exception
               ("'" +:+ type_name j +:+ "' object has no attribute 'get'"))
  end.

(** Sequencing of code that can raise but has no state. *)
Definition and_then {A B} (r : result A) (k : A -> result B) : result B :=
  match r with
  | Ok a => k a
  | Raise e => Raise e
  end.

End PyMore.

(** ** The generic webhook sender ([app/notifications/webhook.py]) *)

Module WebhookSender.

(** [_post(webhook_url, payload, headers)]: the network call. *)
Definition Post : Type := Json -> Json -> Json -> result bool.

(** [loc.adm_code]: the location model ([MonitoredLocation] in
    [app/models/alert.py], [Location] in [app/models.py]) declares no
    such field, so reading it raises [AttributeError]. *)
Definition adm_code (loc : Location.t) : result Json :=
  Raise (Exception "'MonitoredLocation' object has no attribute 'adm_code'").

(** The dict display is evaluated left to right: the warning part first,
    then [loc.adm_code]. *)
Definition _build_payload (warning : WarningInfo.t) (match_ : MatchResult.t)
    (is_trial : bool) : result Json :=
  let loc := MatchResult.location match_ in
  let warning_part :=
    JObj [ ("event", JStr (WarningInfo.event warning));
           ("severity", JStr (WarningInfo.severity warning));
           ("headline", JStr (WarningInfo.headline warning));
           ("description", JStr (WarningInfo.description warning));
           ("effective", JStr (WarningInfo.effective warning));
           ("expires", JStr (WarningInfo.expires warning));
           ("infographic_url", JStr (WarningInfo.infographic_url warning)) ] in
  PyMore.and_then (adm_code loc) (fun code =>
  Ok (JObj
        [ ("source", JStr "bmkg-alert");
          ("version", JStr "1.0");
          ("is_trial", JBool is_trial);
          ("warning", warning_part);
          ("location",
           JObj [ ("code", code);
                  ("label", JStr (Location.label loc));
                  ("subdistrict", JStr (Location.subdistrict_name loc));
                  ("district", JStr (Location.district_name loc));
                  ("province", JStr (Location.province_name loc)) ]);
          ("match",
           JObj [ ("type", JStr (MatchResult.match_type match_));
                  ("text", JStr (MatchResult.matched_text match_)) ]) ])).

(** [send(warning, match, channel_config)], [is_trial] at its default. *)
Definition send (post : Post) : Sender :=
  fun warning match_ channel_config =>
    PyMore.and_then (PyMore.get channel_config "webhook_url" (JStr ""))
      (fun webhook_url =>
    if negb (PyMore.truthy webhook_url) then Ok false
    else
      PyMore.and_then (PyMore.get channel_config "headers" (JObj []))
        (fun headers =>
      PyMore.and_then (_build_payload warning match_ false) (fun payload =>
      post webhook_url payload headers))).

End WebhookSender.

(** ** The time formatter ([app/notifications/formatter.py]) *)

Module Formatter.


End Formatter.

(** ** The write guard ([app/dependencies.py]) *)

(** A response or the [HTTPException] a route raises. *)
Inductive http_result (A : Type) :=
| Respond (a : A)
| HTTPException (status_code : Z) (detail : string).
Arguments Respond {A} a.
Arguments HTTPException {A} status_code detail.

(** The headers of a request, by lower-cased name. *)
Module Request.
Record t := { headers : gmap string string }.

(** [request.headers.get(name, default)] *)
Definition header (request : t) (name default : string) : string :=
  match headers request !! name with
  | Some v => v
  | None => default
  end.
End Request.

(** The fields of [settings] the guard reads ([app/config.py]). *)
Module Settings.
Record t := { demo_mode : bool; admin_password : string }.
End Settings.

Module Dependencies.

Definition _is_admin (settings : Settings.t) (request : Request.t) : bool :=
  let admin_pw := Settings.admin_password settings in
  let auth := Request.header request "authorization" "" in
  if String.prefix "Bearer " auth && String.eqb (PyMore.drop 7 auth) admin_pw
  then true
  else
    let token := Request.header request "x-admin-token" "" in
    if Py.truthy token && String.eqb token admin_pw then true
    else false.

Definition require_write_allowed (settings : Settings.t) (request : Request.t)
  : http_result unit :=
  if negb (Settings.demo_mode settings) then Respond tt
  else if _is_admin settings request then Respond tt
  else
    HTTPException 403
      "This action is disabled in demo mode. Deploy your own instance to configure.".

End Dependencies.

(** ** The configuration routes ([app/routes/config.py]) *)

Module ConfigRoutes.

Local Open Scope monad_scope.

Definition with_config (f : gmap string string -> gmap string string)
    (db : Store.t) : Store.t :=
  {| Store.alerts := Store.alerts db;
     Store.alert_deliveries := Store.alert_deliveries db;
     Store.activity_log := Store.activity_log db;
     Store.config := f (Store.config db);
     Store.locations := Store.locations db;
     Store.notification_channels := Store.notification_channels db;
     Store.trial_subscriptions := Store.trial_subscriptions db |}.

(** [INSERT INTO config ... ON CONFLICT(key) DO UPDATE SET value = ?] *)
Definition upsert (kv : string * string) : M Store.t unit :=
  modify (with_config (fun config => <[fst kv := snd kv]> config)).

(** [settings] is [body.settings.items()], in the order of the dict. *)
Definition update_config (settings : list (string * string))
  : M Store.t (gmap string string) :=
  for_ settings upsert ;;;
  db <- get ;;
  ret (Store.config db).

Definition defaults : list (string * string) :=
  [ ("setup_completed", "false");
    ("bmkg_api_url", "https://bmkg-restapi.vercel.app");
    ("poll_interval", "300");
    ("severity_threshold", "all");
    ("quiet_hours_enabled", "false");
    ("quiet_hours_start", "22:00");
    ("quiet_hours_end", "06:00");
    ("quiet_hours_override_severe", "true");
    ("notification_language", "id") ].

Definition reset_config : M Store.t (list (string * string)) :=
  for_ defaults upsert ;;;
  ret defaults.

End ConfigRoutes.

(** ** Start, stop and the loop ([app/engine/worker.py]) *)

(** The engine object: the state of the cycles, the [_running] flag,
    whether a loop task is held in [_task], and whether [_stop_event] is
    set.  [start] only creates the task; what the task runs is
    [_poll_loop]. *)
Module Engine.
Record t := {
  world : World.t;
  _running : bool;
  _task : bool;
  _stop_event : bool
}.

Definition with_world (f : World.t -> World.t) (e : t) : t :=
  {| world := f (world e); _running := _running e; _task := _task e;
     _stop_event := _stop_event e |}.
End Engine.

(** A call of the cycle-level code on the engine object. *)
Definition on_world_of {A} (m : M World.t A) : M Engine.t A :=
  fun e =>
    let '(r, w) := m (Engine.world e) in
    (r, Engine.with_world (fun _ => w) e).

Module EngineControl.
Section WithRuntime.
Context `{RT : Py.Runtime} (schema : Schema.t) (env : Env.t).

Local Open Scope monad_scope.

Definition start : M Engine.t unit :=
  e <- get ;;
  if Engine._running e then ret tt
  else
    modify (fun e =>
              {| Engine.world := Engine.world e;
                 Engine._running := true;
                 Engine._task := true;
                 Engine._stop_event := false |}) ;;;
    on_world_of
      (on_store
         (StateManager.log_activity "engine_started" "Alert engine started" "")).



(** [_poll_loop], for at most [fuel] turns of the [while].  [stopped]
    tells, at each wait, whether [_stop_event] fired before the timeout.
    The answer [true] says the loop ended, [false] that the turns ran
    out. *)
Fixpoint _poll_loop (stopped : nat -> Z -> bool) (fuel : nat)
  : M Engine.t bool :=
  match fuel with
  | O => ret false
  | S fuel' =>
      e <- get ;;
      if negb (Engine._running e) then ret true
      else
        try_except
          (on_world_of (AlertEngine._run_poll_cycle schema env) ;;; ret tt)
          (fun exc =>
             on_world_of
               (modify (World.set_last_poll_result
                          ("error: " +:+ exn_str exc)))) ;;;
        value <-
          on_world_of
            (on_store (StateManager.get_config_value "poll_interval" "300")) ;;
        match Py.int value with
        | None => raise (Exception "ValueError")
        | Some poll_interval =>
            fired <-
              on_world_of (outside (fun n => stopped n poll_interval)) ;;
            if (fired : bool) then ret true
            else _poll_loop stopped fuel'
        end
  end.

End WithRuntime.
End EngineControl.

(** ** More sample data *)

Module Sample2.

Definition quiet_env (answer : result (list NowcastListItem.t)) : Env.t :=
  {| Env.get_nowcast_list := fun _ => answer;
     Env.get_nowcast_detail := Env.get_nowcast_detail Sample.env;
     Env.senders := Env.senders Sample.env;
     Env.send_raw := Env.send_raw Sample.env;
     Env.utc_hour := Env.utc_hour Sample.env;
     Env.utc_isoformat := Env.utc_isoformat Sample.env;
     Env.current_timestamp := Env.current_timestamp Sample.env;
     Env.telegram_bot_token := None |}.



Definition db_no_locations : Store.t :=
  {| Store.alerts := Sample.old_alerts;
     Store.alert_deliveries := [];
     Store.activity_log := [];
     Store.config := ∅;
     Store.locations := [Sample.location 1 "Alian" "Kebumen" false];
     Store.notification_channels := [Sample.telegram_row];
     Store.trial_subscriptions := Sample.trials |}.

Definition webhook_channel : Channel.t :=
  {| Channel.id := Some 11;
     Channel.channel_type := Some "webhook";
     Channel.config :=
       Some (JObj [("webhook_url", JStr "https://example.org/hook")]) |}.

(** The senders of the application, the webhook one answered by [post]. *)
Definition senders_with_webhook (post : WebhookSender.Post) : Senders.t :=
  {| Senders.telegram := Sample.delivering;
     Senders.discord := Sample.delivering;
     Senders.slack := Sample.delivering;
     Senders.email := Sample.delivering;
     Senders.webhook := WebhookSender.send post |}.

Definition accepting : WebhookSender.Post := fun _ _ _ => Ok true.

Definition engine (running : bool) (db : Store.t) : Engine.t :=
  {| Engine.world := World.initial db;
     Engine._running := running;
     Engine._task := running;
     Engine._stop_event := negb running |}.

End Sample2.

(** * Properties *)

(** ** Strings *)

Module PyFacts.

Lemma prefix_spec (needle haystack : string) :
  String.prefix needle haystack = true <->
  exists post, haystack = needle +:+ post.
Proof.
  revert haystack.
  induction needle as [|c needle IH]; intros haystack.
  - split; [intros _; now exists haystack | now destruct haystack].
  - destruct haystack as [|d haystack]; simpl.
    + split; [discriminate | intros [post Hpost]; discriminate].
    + destruct (ascii_dec c d) as [->|Hcd].
      * rewrite IH. split.
        -- intros [post ->]. now exists post.
        -- intros [post Hpost]. injection Hpost as ->. now exists post.
      * split; [discriminate |].
        intros [post Hpost]. simpl in Hpost. injection Hpost as Hd _.
        now symmetry in Hd.
Qed.

Lemma append_cons (c : ascii) (a b : string) :
  String c a +:+ b = String c (a +:+ b).
Proof. reflexivity. Qed.

Lemma str_in_nil (needle : string) :
  Py.str_in needle "" = String.prefix needle "".
Proof. apply orb_false_r. Qed.

Lemma str_in_cons (needle : string) (d : ascii) (haystack : string) :
  Py.str_in needle (String d haystack) =
  String.prefix needle (String d haystack) || Py.str_in needle haystack.
Proof. reflexivity. Qed.

(** [needle in haystack] says exactly that [needle] is a substring. *)
Lemma str_in_spec (needle haystack : string) :
  Py.str_in needle haystack = true <-> Py.substring_of needle haystack.
Proof.
  split.
  - induction haystack as [|d haystack IH].
    + rewrite str_in_nil. intros H. apply prefix_spec in H as [post ->].
      now exists "", post.
    + rewrite str_in_cons. intros H. apply orb_true_iff in H as [H|H].
      * apply prefix_spec in H as [post ->]. now exists "", post.
      * destruct (IH H) as (pre & post & ->). now exists (String d pre), post.
  - intros (pre & post & ->).
    induction pre as [|d pre IH].
    + assert (Hp : String.prefix needle (needle +:+ post) = true)
        by (apply prefix_spec; now exists post).
      change ("" +:+ needle +:+ post) with (needle +:+ post).
      destruct (needle +:+ post);
        [rewrite str_in_nil | rewrite str_in_cons, Hp]; auto.
    + rewrite append_cons, str_in_cons, IH. apply orb_true_r.
Qed.

Lemma truthy_spec (s : string) : Py.truthy s = true <-> s <> "".
Proof. destruct s; simpl; split; congruence. Qed.

End PyFacts.

(** ** The matcher *)

Module MatcherFacts.
Section WithRuntime.
Context `{RT : Py.Runtime}.

Implicit Types (w : WarningInfo.t) (loc : Location.t) (m : MatchResult.t).

(** The area test finds an area of the warning. *)
Lemma any_area_spec w (district : string) :
  Matcher.any_area district (Matcher.area_names w) = true <->
  exists area, In area (WarningInfo.areas w)
    /\ Py.substring_of district (Py.lower (WarningArea.name area)).
Proof.
  unfold Matcher.any_area, Matcher.area_names.
  rewrite existsb_exists. split.
  - intros (n & Hn & Hin).
    apply list_elem_of_In, elem_of_elements, elem_of_list_to_set in Hn.
    apply list_elem_of_In, in_map_iff in Hn as (area & <- & Harea).
    exists area. split; [assumption | now apply PyFacts.str_in_spec].
  - intros (area & Harea & Hsub).
    exists (Py.lower (WarningArea.name area)). split.
    + apply list_elem_of_In, elem_of_elements, elem_of_list_to_set.
      apply list_elem_of_In, in_map_iff. now exists area.
    + now apply PyFacts.str_in_spec.
Qed.

(** The loop body only appends: what it adds does not depend on what has
    been collected. *)
Lemma match_step_app (d : string) (names : gset string)
    (acc : list MatchResult.t) loc :
  Matcher.match_step d names acc loc = acc ++ Matcher.match_step d names [] loc.
Proof.
  unfold Matcher.match_step.
  repeat match goal with
         | |- context [if ?b then _ else _] => destruct b
         end; simpl; now rewrite ?app_nil_r.
Qed.

Lemma fold_match_step (d : string) (names : gset string)
    (locations : list Location.t) (acc : list MatchResult.t) :
  fold_left (Matcher.match_step d names) locations acc =
  acc ++ flat_map (Matcher.match_step d names []) locations.
Proof.
  revert acc. induction locations as [|loc locations IH]; intros acc; simpl.
  - now rewrite app_nil_r.
  - rewrite IH, (match_step_app d names acc loc). now rewrite <- app_assoc.
Qed.

(** The result is the concatenation, in input order, of what each location
    contributes. *)
Lemma match_locations_flat_map w (locations : list Location.t) :
  Matcher.match_locations w locations =
  flat_map
    (Matcher.match_step (Py.lower (WarningInfo.description w))
       (Matcher.area_names w) [])
    locations.
Proof. unfold Matcher.match_locations. now rewrite fold_match_step. Qed.

(** What one location contributes: nothing, its kecamatan match, or its
    kabupaten match. *)
Lemma match_step_cases (d : string) (names : gset string) loc :
  let sub := Py.lower (Location.subdistrict_name loc) in
  let dist := Py.lower (Location.district_name loc) in
  (Matcher.match_step d names [] loc = []
   /\ (Location.enabled loc = false
       \/ (Py.truthy sub && Py.str_in sub d = false
           /\ Py.truthy dist && Matcher.any_area dist names = false)))
  \/ (Matcher.match_step d names [] loc =
        [ {| MatchResult.location := loc;
             MatchResult.match_type := "kecamatan";
             MatchResult.matched_text := Location.subdistrict_name loc |} ]
      /\ Location.enabled loc = true
      /\ Py.truthy sub = true /\ Py.str_in sub d = true)
  \/ (Matcher.match_step d names [] loc =
        [ {| MatchResult.location := loc;
             MatchResult.match_type := "kabupaten";
             MatchResult.matched_text := Location.district_name loc |} ]
      /\ Location.enabled loc = true
      /\ Py.truthy sub && Py.str_in sub d = false
      /\ Py.truthy dist = true /\ Matcher.any_area dist names = true).
Proof.
  intros sub dist. unfold Matcher.match_step, Matcher._word_boundary_match.
  fold sub dist.
  destruct (Location.enabled loc); simpl; [|left; auto].
  destruct (Py.truthy sub && Py.str_in sub d) eqn:Hk.
  - right; left. apply andb_true_iff in Hk as [? ?]. auto.
  - destruct (Py.truthy dist && Matcher.any_area dist names) eqn:Hb.
    + right; right. apply andb_true_iff in Hb as [? ?]. auto.
    + left. auto.
Qed.

Lemma match_step_length (d : string) (names : gset string) loc :
  (length (Matcher.match_step d names [] loc) <= 1)%nat.
Proof.
  destruct (match_step_cases d names loc) as [[-> _]|[[-> _]|[-> _]]];
    simpl; lia.
Qed.

(** Every match names the location it came from, which is in the input. *)
Lemma match_locations_origin w (locations : list Location.t) m :
  In m (Matcher.match_locations w locations) <->
  In (MatchResult.location m) locations
  /\ Matcher.match_step (Py.lower (WarningInfo.description w))
       (Matcher.area_names w) [] (MatchResult.location m) = [m].
Proof.
  rewrite match_locations_flat_map, in_flat_map. split.
  - intros (loc & Hloc & Hm).
    destruct (match_step_cases (Py.lower (WarningInfo.description w))
                (Matcher.area_names w) loc) as [[E _]|[[E _]|[E _]]];
      rewrite E in Hm; simpl in Hm; try tauto;
      destruct Hm as [<-|[]]; simpl; auto.
  - intros [Hloc E]. exists (MatchResult.location m).
    split; [assumption | rewrite E; now left].
Qed.

End WithRuntime.
End MatcherFacts.

Module MatcherProps.
Section WithRuntime.
Context `{RT : Py.Runtime}.

Implicit Types (w : WarningInfo.t) (loc : Location.t) (m : MatchResult.t).

(** C3.  Every match returned by [match_locations] is either a kecamatan
    match whose lower-cased subdistrict name is a substring of the
    lower-cased description, or a kabupaten match whose lower-cased district
    name is a substring of the lower-cased name of some area of the warning.
    One location never yields both: the result is the in-order concatenation
    of at most one match per location, two matches for the same location are
    the same match, and a kabupaten match is only produced when the
    kecamatan test failed. *)
Theorem match_locations_sound w (locations : list Location.t) :
  let step :=
    Matcher.match_step (Py.lower (WarningInfo.description w))
      (Matcher.area_names w) [] in
  (forall m, In m (Matcher.match_locations w locations) ->
     (MatchResult.match_type m = "kecamatan"
      /\ Py.substring_of
           (Py.lower (Location.subdistrict_name (MatchResult.location m)))
           (Py.lower (WarningInfo.description w)))
     \/ (MatchResult.match_type m = "kabupaten"
         /\ exists area, In area (WarningInfo.areas w)
              /\ Py.substring_of
                   (Py.lower (Location.district_name (MatchResult.location m)))
                   (Py.lower (WarningArea.name area))))
  /\ (Matcher.match_locations w locations = flat_map step locations
      /\ forall loc, (length (step loc) <= 1)%nat)
  /\ (forall m1 m2,
        In m1 (Matcher.match_locations w locations) ->
        In m2 (Matcher.match_locations w locations) ->
        MatchResult.location m1 = MatchResult.location m2 ->
        m1 = m2)
  /\ (forall m, In m (Matcher.match_locations w locations) ->
        MatchResult.match_type m = "kabupaten" ->
        ~ (Py.lower (Location.subdistrict_name (MatchResult.location m)) <> ""
           /\ Py.substring_of
                (Py.lower (Location.subdistrict_name (MatchResult.location m)))
                (Py.lower (WarningInfo.description w)))).
Proof.
  intros step. repeat split.
  - intros m Hm. apply MatcherFacts.match_locations_origin in Hm as [_ E].
    destruct (MatcherFacts.match_step_cases
                (Py.lower (WarningInfo.description w)) (Matcher.area_names w)
                (MatchResult.location m))
      as [[E' _]|[(E' & _ & _ & Hin)|(E' & _ & _ & _ & Hany)]];
      rewrite E in E'; try discriminate; injection E' as Em;
      rewrite Em; simpl.
    + left. split; [reflexivity | now apply PyFacts.str_in_spec].
    + right. split; [reflexivity | now apply MatcherFacts.any_area_spec].
  - apply MatcherFacts.match_locations_flat_map.
  - intros loc. apply MatcherFacts.match_step_length.
  - intros m1 m2 H1 H2 Hloc.
    apply MatcherFacts.match_locations_origin in H1 as [_ E1].
    apply MatcherFacts.match_locations_origin in H2 as [_ E2].
    rewrite Hloc in E1. congruence.
  - intros m Hm Hty [Hne Hsub].
    apply MatcherFacts.match_locations_origin in Hm as [_ E].
    destruct (MatcherFacts.match_step_cases
                (Py.lower (WarningInfo.description w)) (Matcher.area_names w)
                (MatchResult.location m))
      as [[E' _]|[(E' & _)|(E' & _ & Hk & _)]];
      rewrite E in E'; try discriminate.
    + injection E' as Em. rewrite Em in Hty. discriminate.
    + apply PyFacts.truthy_spec in Hne. apply PyFacts.str_in_spec in Hsub.
      rewrite Hne, Hsub in Hk. discriminate.
Qed.

(** C9.  A location whose subdistrict name is empty never gets a kecamatan
    match, one whose district name is empty never gets a kabupaten match,
    and a disabled location gets no match at all: every match returned is
    for an enabled location and for a non-empty name of the kind it
    reports; a location that is disabled, or has both names empty,
    contributes nothing. *)
Theorem match_locations_empty_names w (locations : list Location.t) :
  (forall m, In m (Matcher.match_locations w locations) ->
     Location.enabled (MatchResult.location m) = true
     /\ (Location.subdistrict_name (MatchResult.location m) = "" ->
         MatchResult.match_type m <> "kecamatan")
     /\ (Location.district_name (MatchResult.location m) = "" ->
         MatchResult.match_type m <> "kabupaten"))
  /\ (forall loc,
        Location.enabled loc = false
        \/ (Location.subdistrict_name loc = ""
            /\ Location.district_name loc = "") ->
        Matcher.match_step (Py.lower (WarningInfo.description w))
          (Matcher.area_names w) [] loc = []).
Proof.
  split.
  - intros m Hm. apply MatcherFacts.match_locations_origin in Hm as [_ E].
    destruct (MatcherFacts.match_step_cases
                (Py.lower (WarningInfo.description w)) (Matcher.area_names w)
                (MatchResult.location m))
      as [[E' _]|[(E' & Hen & Ht & _)|(E' & Hen & _ & Ht & _)]];
      rewrite E in E'; try discriminate; injection E' as Em;
      (split; [assumption|]); split; intros Hempty;
      try (rewrite Em; simpl; discriminate);
      rewrite Hempty, Py.lower_empty in Ht; discriminate.
  - intros loc Hloc.
    destruct (MatcherFacts.match_step_cases
                (Py.lower (WarningInfo.description w)) (Matcher.area_names w)
                loc)
      as [[E' _]|[(E' & Hen & Ht & _)|(E' & Hen & _ & Ht & _)]];
      [assumption| |];
      destruct Hloc as [Hdis|[Hs Hd]]; try congruence.
    + rewrite Hs, Py.lower_empty in Ht. discriminate.
    + rewrite Hd, Py.lower_empty in Ht. discriminate.
Qed.

End WithRuntime.
End MatcherProps.

(** ** The state manager *)

Module StateFacts.

Lemma same_key_spec (c : string) (l : Z) (a : Alert.t) :
  StateManager.same_key c l a = true <->
  Alert.bmkg_alert_code a = c /\ Alert.matched_location_id a = Some l.
Proof.
  unfold StateManager.same_key. rewrite andb_true_iff, String.eqb_eq.
  destruct (Alert.matched_location_id a) as [l'|].
  - rewrite Z.eqb_eq. split; intros [? ?]; split; congruence.
  - split; intros [? ?]; discriminate.
Qed.

Lemma same_key_set_status (c : string) (l : Z) (s : string) (a : Alert.t) :
  StateManager.same_key c l (Alert.set_status s a) =
  StateManager.same_key c l a.
Proof. reflexivity. Qed.

Lemma find_existsb {X} (p : X -> bool) (xs : list X) :
  match List.find p xs with Some _ => true | None => false end = existsb p xs.
Proof.
  induction xs as [|x xs IH]; simpl; [reflexivity|].
  destruct (p x); [reflexivity | exact IH].
Qed.

Lemma existsb_same_key (c : string) (l : Z) (rows : list Alert.t) :
  existsb (StateManager.same_key c l) rows = true <->
  exists a, In a rows
    /\ Alert.bmkg_alert_code a = c /\ Alert.matched_location_id a = Some l.
Proof.
  rewrite existsb_exists. split; intros (a & Ha & Hk); exists a;
    (split; [assumption | now apply same_key_spec]).
Qed.

Lemma next_id_pos (ids : list Z) : 0 < Store.next_id ids.
Proof.
  unfold Store.next_id.
  assert (0 <= fold_right Z.max 0 ids).
  { induction ids as [|i ids IH]; simpl; [reflexivity|].
    eapply Z.le_trans; [exact IH | apply Z.le_max_r]. }
  lia.
Qed.

(** A new id is larger than every id in the table. *)
Lemma next_id_above (ids : list Z) (i : Z) : In i ids -> i < Store.next_id ids.
Proof.
  unfold Store.next_id. induction ids as [|j ids IH]; simpl; [tauto|].
  intros [->|Hi].
  - pose proof (Z.le_max_l i (fold_right Z.max 0 ids)). lia.
  - specialize (IH Hi).
    pose proof (Z.le_max_r j (fold_right Z.max 0 ids)). lia.
Qed.

(** What [is_duplicate] returns; it does not write. *)
Lemma is_duplicate_run (c : string) (l : Z) (db : Store.t) :
  StateManager.is_duplicate c l db =
  (Ok (existsb (StateManager.same_key c l) (Store.alerts db)), db).
Proof.
  unfold StateManager.is_duplicate, bind, get, ret.
  now rewrite find_existsb.
Qed.

(** [store_alert] under a schema and a store where the insert goes
    through: the row is appended with status [active]. *)
Lemma store_alert_inserts `{RT : Py.Runtime} (schema : Schema.t)
    (w : WarningInfo.t) (m : MatchResult.t) (c : string) (db : Store.t) :
  Schema.dedup_unique schema
  && existsb (StateManager.same_key c (Location.id (MatchResult.location m)))
       (Store.alerts db) = false ->
  exists alert_id row,
    StateManager.store_alert schema w m c db =
      (Ok alert_id, Store.with_alerts (fun rows => rows ++ [row]) db)
    /\ Alert.bmkg_alert_code row = c
    /\ Alert.matched_location_id row = Some (Location.id (MatchResult.location m))
    /\ Alert.status row = "active"
    /\ Alert.id row = alert_id.
Proof.
  intros Hfree.
  unfold StateManager.store_alert, StateManager.insert_alert, bind, get, ret,
    modify, raise.
  cbn [Alert.matched_location_id Alert.bmkg_alert_code].
  rewrite Hfree. cbn.
  set (n := Store.next_id (map Alert.id (Store.alerts db))).
  assert (Hn : (n =? 0) = false).
  { apply Z.eqb_neq. pose proof (next_id_pos (map Alert.id (Store.alerts db))).
    unfold n. lia. }
  rewrite Hn. eexists _, _. split; [reflexivity|]. cbn. auto.
Qed.

(** [store_alert] when the unique constraint rejects the insert. *)
Lemma store_alert_rejects `{RT : Py.Runtime} (schema : Schema.t)
    (w : WarningInfo.t) (m : MatchResult.t) (c : string) (db : Store.t) :
  Schema.dedup_unique schema
  && existsb (StateManager.same_key c (Location.id (MatchResult.location m)))
       (Store.alerts db) = true ->
  StateManager.store_alert schema w m c db =
    (Raise (DuplicateKey "alerts.bmkg_alert_code, alerts.matched_location_id"),
     db).
Proof.
  intros Hclash.
  unfold StateManager.store_alert, StateManager.insert_alert, bind, get, ret,
    modify, raise.
  cbn [Alert.matched_location_id Alert.bmkg_alert_code].
  now rewrite Hclash.
Qed.

End StateFacts.

Module StateProps.

(** C8.  [is_duplicate] returns true exactly when some [alerts] row has the
    given code and location id.  It writes nothing, and the answer does not
    depend on the rows' status: giving every row any other status leaves it
    unchanged. *)
Theorem is_duplicate_iff (alert_code : string) (location_id : Z)
    (db : Store.t) :
  exists b,
    StateManager.is_duplicate alert_code location_id db = (Ok b, db)
    /\ (b = true <->
        exists a, In a (Store.alerts db)
          /\ Alert.bmkg_alert_code a = alert_code
          /\ Alert.matched_location_id a = Some location_id)
    /\ forall status_of : Alert.t -> string,
         let db' :=
           Store.with_alerts
             (map (fun a => Alert.set_status (status_of a) a)) db in
         StateManager.is_duplicate alert_code location_id db' = (Ok b, db').
Proof.
  exists (existsb (StateManager.same_key alert_code location_id)
            (Store.alerts db)).
  split; [apply StateFacts.is_duplicate_run|].
  split; [apply StateFacts.existsb_same_key|].
  intros status_of db'. rewrite StateFacts.is_duplicate_run. f_equal. f_equal.
  unfold db'. simpl. induction (Store.alerts db) as [|a rows IH]; simpl.
  - reflexivity.
  - now rewrite StateFacts.same_key_set_status, IH.
Qed.

(** C2.  With the unique constraint the specification gives the [alerts]
    table, [store_alert] raises [DuplicateKey] whenever a row with the same
    code and location id is already stored, and the store is left as it
    was: no row is inserted. *)
Theorem store_alert_duplicate_key `{RT : Py.Runtime} (warning : WarningInfo.t)
    (match_ : MatchResult.t) (alert_code : string) (db : Store.t) :
  (exists a, In a (Store.alerts db)
     /\ Alert.bmkg_alert_code a = alert_code
     /\ Alert.matched_location_id a =
          Some (Location.id (MatchResult.location match_))) ->
  exists constraint,
    StateManager.store_alert Schema.spec warning match_ alert_code db =
      (Raise (DuplicateKey constraint), db).
Proof.
  intros Hdup. eexists. apply StateFacts.store_alert_rejects.
  simpl. now apply StateFacts.existsb_same_key.
Qed.

End StateProps.

(** ** Sweeps: [mark_expired_alerts] and [expire_trials] *)

Module SweepFacts.

Section Keyed.
Context {X : Type} (key : X -> Z).

(** Rows of a table are told apart by their id. *)
Lemma key_inj (rows : list X) (a b : X) :
  NoDup (map key rows) -> In a rows -> In b rows -> key a = key b -> a = b.
Proof.
  induction rows as [|x rows IH]; simpl; [tauto|].
  intros Hnd Ha Hb Hk. apply NoDup_cons in Hnd as [Hx Hnd].
  destruct Ha as [->|Ha], Hb as [->|Hb]; try reflexivity.
  - exfalso. apply Hx. rewrite Hk. apply list_elem_of_In, in_map, Hb.
  - exfalso. apply Hx. rewrite <- Hk. apply list_elem_of_In, in_map, Ha.
  - now apply IH.
Qed.

(** Selecting by the ids of the selected rows selects the same rows. *)
Lemma selected_by_key (p : X -> bool) (rows : list X) (a : X) :
  NoDup (map key rows) -> In a rows ->
  existsb (fun r => key a =? key r) (List.filter p rows) = p a.
Proof.
  intros Hnd Ha. destruct (p a) eqn:Hp.
  - apply existsb_exists. exists a. split; [|apply Z.eqb_refl].
    apply filter_In. auto.
  - apply not_true_is_false. intros H.
    apply existsb_exists in H as (r & Hr & Hk).
    apply filter_In in Hr as [Hr Hpr]. apply Z.eqb_eq in Hk.
    rewrite (key_inj rows a r Hnd Ha Hr Hk) in Hp. congruence.
Qed.

Lemma count_by_key (p : X -> bool) (rows : list X) (a : X) :
  NoDup (map key rows) -> In a rows ->
  length (List.filter (fun r => key r =? key a) (List.filter p rows)) =
  if p a then 1%nat else 0%nat.
Proof.
  induction rows as [|x rows IH]; simpl; [tauto|].
  intros Hnd Ha. apply NoDup_cons in Hnd as [Hx Hnd].
  assert (Hrest : forall r, In r rows -> key r <> key x).
  { intros r Hr E. apply Hx. rewrite <- E. apply list_elem_of_In, in_map, Hr. }
  destruct Ha as [->|Ha].
  - assert (E : List.filter (fun r => key r =? key a) (List.filter p rows) = []).
    { clear IH. induction rows as [|y rows IH]; simpl; [reflexivity|].
      assert (key y <> key a) by (apply Hrest; now left).
      assert (IH' : List.filter (fun r => key r =? key a)
                      (List.filter p rows) = []).
      { apply IH.
        - intros Hin. apply Hx. simpl. apply elem_of_cons. now right.
        - now apply NoDup_cons in Hnd as [_ ?].
        - intros r Hr. apply Hrest. now right. }
      destruct (p y); simpl; [|exact IH'].
      destruct (key y =? key a) eqn:Hk; [apply Z.eqb_eq in Hk; tauto|].
      exact IH'. }
    destruct (p a); simpl; [rewrite Z.eqb_refl; simpl|]; now rewrite E.
  - specialize (IH Hnd Ha).
    assert (Hne : (key x =? key a) = false).
    { apply Z.eqb_neq. intros E. now apply (Hrest a Ha). }
    destruct (p x); simpl; [rewrite Hne|]; exact IH.
Qed.

End Keyed.

(** *** Alerts *)

Lemma is_overdue_spec (now : string) (a : Alert.t) :
  StateManager.is_overdue now a = true <->
  Alert.status a = "active" /\ Alert.expires a <> ""
  /\ String.ltb (Alert.expires a) now = true.
Proof.
  unfold StateManager.is_overdue.
  rewrite !andb_true_iff, negb_true_iff, String.eqb_eq, String.eqb_neq.
  tauto.
Qed.

Lemma is_overdue_expired (now : string) (a : Alert.t) :
  StateManager.is_overdue now (Alert.set_status "expired" a) = false.
Proof. reflexivity. Qed.

(** Running the updates of the loop one id after the other. *)
Lemma fold_expire_by_id (rows al : list Alert.t) :
  fold_left (fun al r => StateManager.expire_by_id (Alert.id r) al) rows al =
  map (fun a =>
         if existsb (fun r => Alert.id a =? Alert.id r) rows
         then Alert.set_status "expired" a else a) al.
Proof.
  revert al. induction rows as [|r rows IH]; intros al; simpl.
  - symmetry. apply map_id.
  - rewrite IH. unfold StateManager.expire_by_id. rewrite map_map.
    apply map_ext. intros a.
    destruct (Alert.id a =? Alert.id r) eqn:Hk; simpl; [|reflexivity].
    now destruct (existsb _ rows).
Qed.

Lemma expire_loop (rows acc : list Alert.t) (db : Store.t) :
  for_each rows acc
    (fun expired_alerts alert =>
       bind (modify (Store.with_alerts
                       (StateManager.expire_by_id (Alert.id alert))))
         (fun _ => ret (expired_alerts ++ [alert]))) db =
  (Ok (acc ++ rows),
   Store.with_alerts
     (fold_left (fun al r => StateManager.expire_by_id (Alert.id r) al) rows)
     db).
Proof.
  revert acc db. induction rows as [|r rows IH]; intros acc db.
  - destruct db. simpl. unfold ret. now rewrite app_nil_r.
  - simpl. unfold bind at 1 2. unfold modify, ret. rewrite IH.
    rewrite <- app_assoc. reflexivity.
Qed.

Lemma mark_expired_alerts_run (now : string) (db : Store.t) :
  StateManager.mark_expired_alerts now db =
  (Ok (List.filter (StateManager.is_overdue now) (Store.alerts db)),
   Store.with_alerts
     (map (fun a =>
             if existsb (fun r => Alert.id a =? Alert.id r)
                  (List.filter (StateManager.is_overdue now) (Store.alerts db))
             then Alert.set_status "expired" a else a)) db).
Proof.
  unfold StateManager.mark_expired_alerts. unfold bind at 1. unfold get.
  rewrite expire_loop. simpl. f_equal.
  unfold Store.with_alerts. f_equal. apply fold_expire_by_id.
Qed.

(** After the sweep no row is overdue at the same clock reading. *)
Lemma none_overdue_after (now : string) (al : list Alert.t) :
  List.filter (StateManager.is_overdue now)
    (map (fun a =>
            if existsb (fun r => Alert.id a =? Alert.id r)
                 (List.filter (StateManager.is_overdue now) al)
            then Alert.set_status "expired" a else a) al) = [].
Proof.
  set (rows := List.filter (StateManager.is_overdue now) al).
  assert (Hrows : forall a, In a al -> StateManager.is_overdue now a = true ->
                            In a rows).
  { intros a Ha Hp. apply filter_In. auto. }
  clearbody rows. induction al as [|a al IH]; simpl; [reflexivity|].
  destruct (existsb (fun r => Alert.id a =? Alert.id r) rows) eqn:Hex.
  - rewrite is_overdue_expired. apply IH. intros b Hb. apply Hrows. now right.
  - destruct (StateManager.is_overdue now a) eqn:Hp.
    + exfalso. apply not_true_iff_false in Hex. apply Hex.
      apply existsb_exists. exists a. split; [|apply Z.eqb_refl].
      apply Hrows; [now left | assumption].
    + apply IH. intros b Hb. apply Hrows. now right.
Qed.

(** What a later sweep finds: the rows that became overdue in between. *)
Lemma later_overdue (now later : string) (al : list Alert.t) :
  List.filter (StateManager.is_overdue later)
    (map (fun a =>
            if StateManager.is_overdue now a
            then Alert.set_status "expired" a else a) al) =
  List.filter
    (fun a => StateManager.is_overdue later a
              && negb (StateManager.is_overdue now a)) al.
Proof.
  induction al as [|a al IH]; simpl; [reflexivity|].
  destruct (StateManager.is_overdue now a) eqn:Hp.
  - rewrite is_overdue_expired, andb_false_r. exact IH.
  - rewrite andb_true_r. now rewrite IH.
Qed.

End SweepFacts.

Module TrialFacts.

Lemma is_lapsed_notified (now : string) (r : Trial.t) :
  StateManager.is_lapsed now (Trial.set_notified r) = false.
Proof. unfold StateManager.is_lapsed. simpl. apply andb_false_r. Qed.

Lemma notify_by_ids_ids (ids : list Z) (rows : list Trial.t) :
  map Trial.id (StateManager.notify_by_ids ids rows) = map Trial.id rows.
Proof.
  unfold StateManager.notify_by_ids. rewrite map_map. apply map_ext.
  intros r. now destruct (existsb _ ids).
Qed.

Lemma existsb_ids (a : Trial.t) (rows : list Trial.t) :
  existsb (Z.eqb (Trial.id a)) (map Trial.id rows) =
  existsb (fun r => Trial.id a =? Trial.id r) rows.
Proof. induction rows as [|r rows IH]; simpl; [reflexivity | now rewrite IH]. Qed.

(** When nothing is selected the table is rewritten to itself. *)
Lemma nothing_lapsed (now : string) (rows : list Trial.t) :
  List.filter (StateManager.is_lapsed now) rows = [] ->
  map (fun r => if StateManager.is_lapsed now r then Trial.set_notified r else r)
      rows = rows.
Proof.
  induction rows as [|r rows IH]; simpl; [reflexivity|].
  destruct (StateManager.is_lapsed now r); [discriminate|].
  intros H. now rewrite IH.
Qed.

(** One call, for a table whose ids are distinct. *)
Lemma expire_trials_run (now : string) (db : Store.t) :
  NoDup (map Trial.id (Store.trial_subscriptions db)) ->
  StateManager.expire_trials now db =
  (Ok (List.filter (StateManager.is_lapsed now) (Store.trial_subscriptions db)),
   Store.with_trials
     (map (fun r =>
             if StateManager.is_lapsed now r then Trial.set_notified r else r))
     db).
Proof.
  intros Hnd. unfold StateManager.expire_trials, bind, get, modify, ret.
  destruct (List.filter (StateManager.is_lapsed now)
              (Store.trial_subscriptions db)) as [|x xs] eqn:E.
  - destruct db. unfold Store.with_trials. simpl in *.
    now rewrite nothing_lapsed.
  - rewrite <- E. f_equal. unfold Store.with_trials. f_equal.
    unfold StateManager.notify_by_ids. apply map_ext_in.
    intros a Ha. rewrite existsb_ids.
    now rewrite (SweepFacts.selected_by_key Trial.id).
Qed.

(** After the call nothing is selected at the same clock reading. *)
Lemma none_lapsed_after (now : string) (rows : list Trial.t) :
  List.filter (StateManager.is_lapsed now)
    (map (fun r =>
            if StateManager.is_lapsed now r then Trial.set_notified r else r)
         rows) = [].
Proof.
  induction rows as [|r rows IH]; simpl; [reflexivity|].
  destruct (StateManager.is_lapsed now r) eqn:Hp.
  - now rewrite is_lapsed_notified.
  - now rewrite Hp.
Qed.

(** Over any later calls a trial is handed back once if it is ever due and
    not yet notified, and never otherwise. *)
Lemma times_returned_spec (nows : list string) (db : Store.t) (r : Trial.t) :
  NoDup (map Trial.id (Store.trial_subscriptions db)) ->
  In r (Store.trial_subscriptions db) ->
  Trials.times_returned (Trial.id r) (Trials.returned nows db) =
  if (Trial.expired_notified r =? 0)
     && existsb (String.leb (Trial.expires_at r)) nows
  then 1%nat else 0%nat.
Proof.
  revert db r. induction nows as [|now nows IH]; intros db r Hnd Hr.
  - simpl. now rewrite andb_false_r.
  - simpl. rewrite (expire_trials_run now db Hnd).
    unfold Trials.times_returned. simpl. rewrite List.filter_app, List.length_app.
    rewrite (SweepFacts.count_by_key Trial.id _ _ r Hnd Hr).
    set (g := fun r => if StateManager.is_lapsed now r
                       then Trial.set_notified r else r).
    assert (Hid : forall x, Trial.id (g x) = Trial.id x)
      by (intros x; unfold g; now destruct (StateManager.is_lapsed now x)).
    assert (Hnd' : NoDup (map Trial.id (map g (Store.trial_subscriptions db)))).
    { rewrite map_map. erewrite map_ext; [exact Hnd | exact Hid]. }
    assert (Hr' : In (g r) (map g (Store.trial_subscriptions db)))
      by now apply in_map.
    specialize (IH (Store.with_trials (map g) db) (g r) Hnd' Hr').
    unfold Trials.times_returned in IH. rewrite Hid in IH. rewrite IH.
    unfold g, StateManager.is_lapsed.
    destruct (String.leb (Trial.expires_at r) now) eqn:Hle;
      destruct (Trial.expired_notified r =? 0) eqn:Hz; simpl;
      rewrite ?Hz; simpl; reflexivity.
Qed.

End TrialFacts.

Module SweepProps.

(** C6.  On a table with distinct ids, [mark_expired_alerts] returns the
    rows that were active, had a non-empty [expires] and had [expires]
    before the clock reading, as they were before the call; it sets exactly
    those rows to [expired] and changes nothing else; called again at the
    same clock reading it returns the empty list and changes nothing.  A
    call at another clock reading returns the rows overdue then that were
    not overdue at the first call. *)
Theorem mark_expired_alerts_idempotent (now_utc : string) (db : Store.t) :
  NoDup (map Alert.id (Store.alerts db)) ->
  let returned :=
    List.filter (StateManager.is_overdue now_utc) (Store.alerts db) in
  let db' :=
    Store.with_alerts
      (map (fun a =>
              if StateManager.is_overdue now_utc a
              then Alert.set_status "expired" a else a)) db in
  StateManager.mark_expired_alerts now_utc db = (Ok returned, db')
  /\ (forall a, In a returned <->
        In a (Store.alerts db)
        /\ Alert.status a = "active" /\ Alert.expires a <> ""
        /\ String.ltb (Alert.expires a) now_utc = true)
  /\ StateManager.mark_expired_alerts now_utc db' = (Ok [], db')
  /\ (forall later,
        fst (StateManager.mark_expired_alerts later db') =
        Ok (List.filter
              (fun a => StateManager.is_overdue later a
                        && negb (StateManager.is_overdue now_utc a))
              (Store.alerts db))).
Proof.
  intros Hnd returned db'.
  assert (Hdb' : db' =
    Store.with_alerts
      (map (fun a =>
              if existsb (fun r => Alert.id a =? Alert.id r) returned
              then Alert.set_status "expired" a else a)) db).
  { unfold db', Store.with_alerts. f_equal. apply map_ext_in. intros a Ha.
    unfold returned. now rewrite (SweepFacts.selected_by_key Alert.id). }
  split; [|split; [|split]].
  - rewrite Hdb'. apply SweepFacts.mark_expired_alerts_run.
  - intros a. unfold returned. rewrite filter_In, SweepFacts.is_overdue_spec.
    tauto.
  - rewrite SweepFacts.mark_expired_alerts_run.
    assert (E : List.filter (StateManager.is_overdue now_utc)
                  (Store.alerts db') = []).
    { rewrite Hdb'. simpl. apply SweepFacts.none_overdue_after. }
    rewrite E. simpl. f_equal. destruct db'. unfold Store.with_alerts. simpl.
    f_equal. apply map_id.
  - intros later. rewrite SweepFacts.mark_expired_alerts_run. simpl.
    f_equal. apply SweepFacts.later_overdue.
Qed.

(** C7.  On a table with distinct ids, [expire_trials] returns exactly the
    rows with [expires_at <= now] and [expired_notified = 0], as they were
    before the call, and sets [expired_notified = 1] on exactly those rows;
    called again at the same clock reading it returns the empty list; and
    over any sequence of calls, at whatever clock readings, a trial is
    handed back once if it was not yet notified and is due at one of the
    readings, and never otherwise. *)
Theorem expire_trials_once (now : string) (db : Store.t) :
  NoDup (map Trial.id (Store.trial_subscriptions db)) ->
  let returned :=
    List.filter (StateManager.is_lapsed now) (Store.trial_subscriptions db) in
  let db' :=
    Store.with_trials
      (map (fun r =>
              if StateManager.is_lapsed now r then Trial.set_notified r else r))
      db in
  StateManager.expire_trials now db = (Ok returned, db')
  /\ (forall r, In r returned <->
        In r (Store.trial_subscriptions db)
        /\ String.leb (Trial.expires_at r) now = true
        /\ Trial.expired_notified r = 0)
  /\ StateManager.expire_trials now db' = (Ok [], db')
  /\ (forall nows r, In r (Store.trial_subscriptions db) ->
        Trials.times_returned (Trial.id r) (Trials.returned nows db) =
        if (Trial.expired_notified r =? 0)
           && existsb (String.leb (Trial.expires_at r)) nows
        then 1%nat else 0%nat).
Proof.
  intros Hnd returned db'. split; [|split; [|split]].
  - now apply TrialFacts.expire_trials_run.
  - intros r. unfold returned, StateManager.is_lapsed.
    rewrite filter_In, andb_true_iff, Z.eqb_eq. tauto.
  - unfold StateManager.expire_trials, bind, get, ret.
    unfold db' at 1. simpl. now rewrite TrialFacts.none_lapsed_after.
  - intros nows r Hr. now apply TrialFacts.times_returned_spec.
Qed.

End SweepProps.

(** ** The dispatcher *)

Module DispatchFacts.
Section WithRuntime.
Context `{RT : Py.Runtime}.

Lemma get_config_value_run (key default : string) (db : Store.t) :
  StateManager.get_config_value key default db =
  (Ok (QuietHours.config_value db key default), db).
Proof. reflexivity. Qed.

Lemma in_window_spec (start end_ hour : Z) :
  (if start >? end_
   then (hour >=? start) || (hour <? end_)
   else (start <=? hour) && (hour <? end_)) = true
  <-> QuietHours.in_window start end_ hour.
Proof.
  unfold QuietHours.in_window. destruct (start >? end_).
  - rewrite orb_true_iff, Z.geb_le, Z.ltb_lt. lia.
  - rewrite andb_true_iff, Z.leb_le, Z.ltb_lt. lia.
Qed.

(** [_is_quiet_hours] reads the configuration, writes nothing, and answers
    the condition of the specification. *)
Lemma is_quiet_hours_run (now : Z) (severity : string) (db : Store.t) :
  exists b,
    NotificationDispatcher._is_quiet_hours now severity db = (Ok b, db)
    /\ (b = true <-> QuietHours.applies db now severity).
Proof.
  unfold NotificationDispatcher._is_quiet_hours, QuietHours.applies,
    QuietHours.hour_field.
  unfold bind at 1. rewrite get_config_value_run.
  destruct (String.eqb (QuietHours.config_value db "quiet_hours_enabled" "false")
              "true") eqn:Hen; simpl.
  2:{ exists false. split; [reflexivity|]. split; [discriminate|].
      intros [H _]. apply String.eqb_neq in Hen. contradiction. }
  apply String.eqb_eq in Hen.
  unfold bind at 1. rewrite get_config_value_run.
  destruct (String.eqb
              (QuietHours.config_value db "quiet_hours_override_severe" "true")
              "true"
            && (String.eqb severity "Severe" || String.eqb severity "Extreme"))
    eqn:Hov.
  { exists false. split; [reflexivity|]. split; [discriminate|].
    intros (_ & H & _). exfalso. apply H.
    apply andb_true_iff in Hov as [Ho Hs]. apply String.eqb_eq in Ho.
    apply orb_true_iff in Hs. rewrite !String.eqb_eq in Hs. auto. }
  assert (Hnov :
    ~ (QuietHours.config_value db "quiet_hours_override_severe" "true" = "true"
       /\ (severity = "Severe" \/ severity = "Extreme"))).
  { intros [Ho Hs]. apply not_true_iff_false in Hov. apply Hov.
    apply andb_true_iff. split; [now apply String.eqb_eq|].
    apply orb_true_iff. now rewrite !String.eqb_eq. }
  unfold bind at 1. rewrite get_config_value_run.
  unfold bind at 1. rewrite get_config_value_run.
  destruct (Py.int (Py.split_first ":"
              (QuietHours.config_value db "quiet_hours_start" "22:00")))
    as [start|] eqn:Hs.
  2:{ exists false. split; [reflexivity|]. split; [discriminate|].
      intros (_ & _ & s & e & H & _). discriminate. }
  destruct (Py.int (Py.split_first ":"
              (QuietHours.config_value db "quiet_hours_end" "06:00")))
    as [end_|] eqn:He.
  2:{ exists false. split; [reflexivity|]. split; [discriminate|].
      intros (_ & _ & s & e & _ & H & _). discriminate. }
  exists (if start >? end_
          then ((now + 7) mod 24 >=? start) || ((now + 7) mod 24 <? end_)
          else (start <=? (now + 7) mod 24) && ((now + 7) mod 24 <? end_)).
  split.
  - now destruct (start >? end_).
  - rewrite in_window_spec. split.
    + intros Hw. repeat split; try assumption. now exists start, end_.
    + intros (_ & _ & s & e & Es & Ee & Hw). congruence.
Qed.

(** The routing block writes nothing and never lets an exception out. *)
Lemma route_run (senders : Senders.t) (w : WarningInfo.t) (m : MatchResult.t)
    (ch : Channel.t) (db : Store.t) :
  try_except
    (match NotificationDispatcher.sender_map senders
             !! default "" (Channel.channel_type ch) with
     | Some sender =>
         bind (lift_result (sender w m (default (JObj []) (Channel.config ch))))
           (fun success => ret (success, ""))
     | None =>
         ret (false,
              "Unsupported channel type: "
              +:+ default "" (Channel.channel_type ch))
     end)
    (fun exc => ret (false, exn_str exc)) db =
  (Ok (Route.outcome senders w m ch), db).
Proof.
  unfold Route.outcome, try_except.
  destruct (NotificationDispatcher.sender_map senders
              !! default "" (Channel.channel_type ch)) as [sender|].
  - unfold bind, lift_result, ret.
    now destruct (sender w m (default (JObj []) (Channel.config ch))).
  - reflexivity.
Qed.

(** The two ways [send] ends, by the answer of [_is_quiet_hours]. *)
Lemma send_run (now : Z) (senders : Senders.t) (alert_id : Z)
    (w : WarningInfo.t) (m : MatchResult.t) (ch : Channel.t) (db : Store.t)
    (b : bool) :
  NotificationDispatcher._is_quiet_hours now (WarningInfo.severity w) db =
    (Ok b, db) ->
  NotificationDispatcher.send now senders alert_id w m ch db =
  let channel_id := default 0 (Channel.id ch) in
  if b then
    (Ok false,
     Store.with_deliveries
       (fun rows =>
          rows ++ [Route.delivery db alert_id channel_id
                     "skipped_quiet_hours" ""]) db)
  else
    let success := fst (Route.outcome senders w m ch) in
    let error_msg := snd (Route.outcome senders w m ch) in
    (Ok success,
     Store.with_deliveries
       (fun rows =>
          rows ++ [Route.delivery db alert_id channel_id
                     (if success then "sent" else "failed") error_msg]) db).
Proof.
  intros Hq. unfold NotificationDispatcher.send.
  unfold bind at 1. rewrite Hq. destruct b.
  - reflexivity.
  - unfold bind at 1. rewrite route_run.
    now destruct (Route.outcome senders w m ch) as [success error_msg].
Qed.

End WithRuntime.
End DispatchFacts.

Module DispatchProps.
Section WithRuntime.
Context `{RT : Py.Runtime}.

(** C4.  [send] answers false and logs a delivery with status
    [skipped_quiet_hours] exactly when [quiet_hours_enabled] is ["true"],
    it is not the case that [quiet_hours_override_severe] is ["true"] and
    the severity is ["Severe"] or ["Extreme"], and the local hour
    ([(utc hour + 7) mod 24]) lies in the window from the start hour to the
    end hour, end excluded, a window with start after end meaning
    [hour >= start \/ hour < end]. *)
Theorem send_quiet_hours_iff (now : Z) (senders : Senders.t) (alert_id : Z)
    (warning : WarningInfo.t) (match_ : MatchResult.t) (channel : Channel.t)
    (db : Store.t) :
  let out :=
    NotificationDispatcher.send now senders alert_id warning match_ channel db
  in
  (fst out = Ok false
   /\ exists row,
        Store.alert_deliveries (snd out) = Store.alert_deliveries db ++ [row]
        /\ AlertDelivery.status row = "skipped_quiet_hours")
  <-> QuietHours.applies db now (WarningInfo.severity warning).
Proof.
  intros out.
  destruct (DispatchFacts.is_quiet_hours_run now (WarningInfo.severity warning)
              db) as (b & Hrun & Hb).
  unfold out. rewrite (DispatchFacts.send_run _ _ _ _ _ _ _ b Hrun).
  rewrite <- Hb. destruct b; simpl.
  - split; [reflexivity|]. intros _. split; [reflexivity|].
    eexists. split; reflexivity.
  - split; [|discriminate]. intros (_ & row & Hrows & Hst). exfalso.
    apply app_inj_tail in Hrows as [_ <-]. simpl in Hst.
    now destruct (fst (Route.outcome senders warning match_ channel)).
Qed.

(** C5.  Whatever path [send] takes (quiet-hours skip, unknown channel
    type, sender success, sender failure, sender exception), it returns
    normally, appends exactly one row to the deliveries, carrying the alert
    id and the channel id of the call, and leaves every other table as it
    was. *)
Theorem send_logs_one_delivery (now : Z) (senders : Senders.t) (alert_id : Z)
    (warning : WarningInfo.t) (match_ : MatchResult.t) (channel : Channel.t)
    (db : Store.t) :
  exists success row,
    NotificationDispatcher.send now senders alert_id warning match_ channel db
    = (Ok success, Store.with_deliveries (fun rows => rows ++ [row]) db)
    /\ AlertDelivery.alert_id row = alert_id
    /\ AlertDelivery.channel_id row = default 0 (Channel.id channel)
    /\ ((AlertDelivery.status row = "skipped_quiet_hours" /\ success = false)
        \/ (AlertDelivery.status row = "sent" /\ success = true)
        \/ (AlertDelivery.status row = "failed" /\ success = false)).
Proof.
  destruct (DispatchFacts.is_quiet_hours_run now (WarningInfo.severity warning)
              db) as (b & Hrun & _).
  rewrite (DispatchFacts.send_run _ _ _ _ _ _ _ b Hrun).
  destruct b; simpl.
  - eexists _, _. split; [reflexivity|]. simpl. tauto.
  - destruct (fst (Route.outcome senders warning match_ channel));
      eexists _, _; (split; [reflexivity|]); simpl; tauto.
Qed.

(** C10.  When the hour field of [quiet_hours_start] or of
    [quiet_hours_end] is not an integer, [_is_quiet_hours] answers false
    (also when quiet hours are enabled and the severe override does not
    apply), and [send] dispatches as usual: it routes to the sender and
    logs [sent] or [failed]. *)
Theorem malformed_quiet_hours_dispatches (now : Z) (senders : Senders.t)
    (alert_id : Z) (warning : WarningInfo.t) (match_ : MatchResult.t)
    (channel : Channel.t) (db : Store.t) :
  QuietHours.hour_field
    (QuietHours.config_value db "quiet_hours_start" "22:00") = None
  \/ QuietHours.hour_field
       (QuietHours.config_value db "quiet_hours_end" "06:00") = None ->
  NotificationDispatcher._is_quiet_hours now (WarningInfo.severity warning) db
  = (Ok false, db)
  /\ let success := fst (Route.outcome senders warning match_ channel) in
     let error_msg := snd (Route.outcome senders warning match_ channel) in
     NotificationDispatcher.send now senders alert_id warning match_ channel db
     = (Ok success,
        Store.with_deliveries
          (fun rows =>
             rows ++ [Route.delivery db alert_id (default 0 (Channel.id channel))
                        (if success then "sent" else "failed") error_msg]) db).
Proof.
  intros Hbad.
  destruct (DispatchFacts.is_quiet_hours_run now (WarningInfo.severity warning)
              db) as (b & Hrun & Hb).
  assert (b = false) as ->.
  { destruct b; [|reflexivity]. exfalso.
    destruct Hb as [Hb _]. destruct (Hb eq_refl) as (_ & _ & s & e & Hs & He & _).
    destruct Hbad as [H|H]; congruence. }
  split; [exact Hrun|].
  now rewrite (DispatchFacts.send_run _ _ _ _ _ _ _ false Hrun).
Qed.

End WithRuntime.
End DispatchProps.

(** ** Rules for code in the monad *)

Module Logic.
Section Rules.
Context {S : Type}.

Implicit Types (P I : S -> Prop).

Lemma triple_bind {A B} P (m : M S A) (k : A -> M S B)
    (Q : A -> S -> Prop) (Q' : B -> S -> Prop) (E : exn -> S -> Prop) :
  triple P m Q E -> (forall a, triple (Q a) (k a) Q' E) ->
  triple P (bind m k) Q' E.
Proof.
  intros Hm Hk s Hs. unfold bind. specialize (Hm s Hs).
  destruct (m s) as [[a|e] s']; [now apply Hk | exact Hm].
Qed.

Lemma triple_weaken {A} P P' (m : M S A) Q E :
  (forall s, P' s -> P s) -> triple P m Q E -> triple P' m Q E.
Proof. intros HP Hm s Hs. apply Hm, HP, Hs. Qed.

Lemma keeps_ret {A} I (a : A) : keeps I (ret a).
Proof. intros s Hs. exact Hs. Qed.

Lemma keeps_raise {A} I (e : exn) : keeps I (@raise S A e).
Proof. intros s Hs. exact Hs. Qed.

Lemma keeps_lift_result {A} I (r : result A) : keeps I (lift_result r).
Proof. intros s Hs. unfold lift_result. now destruct r. Qed.

Lemma keeps_get I : keeps I get.
Proof. intros s Hs. exact Hs. Qed.

Lemma keeps_modify I (f : S -> S) :
  (forall s, I s -> I (f s)) -> keeps I (modify f).
Proof. intros Hf s Hs. now apply Hf. Qed.

Lemma keeps_bind {A B} I (m : M S A) (k : A -> M S B) :
  keeps I m -> (forall a, keeps I (k a)) -> keeps I (bind m k).
Proof. intros Hm Hk. eapply triple_bind; [exact Hm | exact Hk]. Qed.

Lemma keeps_try {A} I (m : M S A) (h : exn -> M S A) :
  keeps I m -> (forall e, keeps I (h e)) -> keeps I (try_except m h).
Proof.
  intros Hm Hh s Hs. unfold try_except. specialize (Hm s Hs).
  destruct (m s) as [[a|e] s']; [exact Hm | now apply Hh].
Qed.

Lemma keeps_for_ {X} I (xs : list X) (body : X -> M S unit) :
  (forall x, keeps I (body x)) -> keeps I (for_ xs body).
Proof.
  intros Hbody. induction xs as [|x xs IH]; simpl.
  - apply keeps_ret.
  - apply keeps_bind; [apply Hbody | intros _; exact IH].
Qed.

Lemma keeps_for_each {A X} I (xs : list X) (acc : A) (body : A -> X -> M S A) :
  (forall a x, keeps I (body a x)) -> keeps I (for_each xs acc body).
Proof.
  intros Hbody. revert acc. induction xs as [|x xs IH]; intros acc; simpl.
  - apply keeps_ret.
  - apply keeps_bind; [apply Hbody | intros a; apply IH].
Qed.

End Rules.

(** Code of the state manager that leaves the [alerts] table as it is keeps
    every property of that table. *)
Lemma keeps_alerts_fixed {A} (J : list Alert.t -> Prop) (m : M Store.t A) :
  alerts_fixed m -> keeps (fun db => J (Store.alerts db)) m.
Proof.
  intros Hm db Hdb. specialize (Hm db).
  destruct (m db) as [[a|e] db']; simpl in Hm; now rewrite Hm.
Qed.

(** Engine code: properties of the store carry over from the state
    manager; the summary, the poll fields and the outside do not touch the
    store. *)
Section World.
Context (Is : Store.t -> Prop).

Lemma keeps_on_store {A} (m : M Store.t A) :
  keeps Is m -> keeps (on_world Is) (on_store m).
Proof.
  intros Hm w Hw. unfold on_store. specialize (Hm (World.store w) Hw).
  destruct (m (World.store w)) as [[a|e] db']; exact Hm.
Qed.

Lemma keeps_outside {A} (answer : nat -> A) : keeps (on_world Is) (outside answer).
Proof. intros w Hw. exact Hw. Qed.

Lemma keeps_with_summary (f : Summary.t -> Summary.t) :
  keeps (on_world Is) (modify (World.with_summary f)).
Proof. apply keeps_modify. intros w Hw. exact Hw. Qed.

Lemma keeps_set_last_poll (s : string) :
  keeps (on_world Is) (modify (World.set_last_poll s)).
Proof. apply keeps_modify. intros w Hw. exact Hw. Qed.

Lemma keeps_set_last_poll_result (s : string) :
  keeps (on_world Is) (modify (World.set_last_poll_result s)).
Proof. apply keeps_modify. intros w Hw. exact Hw. Qed.

End World.
End Logic.

(** ** The poll cycle and the dedup key *)

Module DedupFacts.

Lemma count_snoc (c : string) (l : Z) (rows : list Alert.t) (row : Alert.t) :
  Dedup.count c l (rows ++ [row]) =
  (Dedup.count c l rows
   + if StateManager.same_key c l row then 1 else 0)%nat.
Proof.
  unfold Dedup.count. rewrite List.filter_app, List.length_app. simpl.
  now destruct (StateManager.same_key c l row).
Qed.

Lemma count_absent (c : string) (l : Z) (rows : list Alert.t) :
  existsb (StateManager.same_key c l) rows = false -> Dedup.count c l rows = 0%nat.
Proof.
  unfold Dedup.count. induction rows as [|a rows IH]; simpl; [reflexivity|].
  destruct (StateManager.same_key c l a); simpl; [discriminate | exact IH].
Qed.

Lemma unique_nil : Dedup.unique [].
Proof. intros c l. unfold Dedup.count. simpl. lia. Qed.

(** Appending a row whose pair is not yet stored keeps the pairs unique. *)
Lemma unique_snoc (rows : list Alert.t) (row : Alert.t) (l : Z) :
  Alert.matched_location_id row = Some l ->
  existsb (StateManager.same_key (Alert.bmkg_alert_code row) l) rows = false ->
  Dedup.unique rows -> Dedup.unique (rows ++ [row]).
Proof.
  intros Hl Hfree Hu c l'. rewrite count_snoc.
  destruct (StateManager.same_key c l' row) eqn:Hk.
  - apply StateFacts.same_key_spec in Hk as [<- Hl'].
    assert (l' = l) as -> by congruence.
    rewrite (count_absent _ _ _ Hfree). lia.
  - specialize (Hu c l'). lia.
Qed.

(** Rewriting rows without touching code and location keeps the counts. *)
Lemma count_map (c : string) (l : Z) (g : Alert.t -> Alert.t)
    (rows : list Alert.t) :
  (forall a, StateManager.same_key c l (g a) = StateManager.same_key c l a) ->
  Dedup.count c l (map g rows) = Dedup.count c l rows.
Proof.
  intros Hg. unfold Dedup.count.
  induction rows as [|a rows IH]; simpl; [reflexivity|].
  rewrite Hg. destruct (StateManager.same_key c l a); simpl; now rewrite IH.
Qed.

End DedupFacts.

Module EngineFacts.
Section WithRuntime.
Context `{RT : Py.Runtime} (schema : Schema.t) (env : Env.t).

Local Abbreviation Unique :=
  (fun db : Store.t => Dedup.unique (Store.alerts db)).
Local Abbreviation Inv := (on_world Unique).

(** *** State-manager calls that do not write to [alerts] *)

Lemma for_each_reads {A X} (xs : list X) (acc : A)
    (body : A -> X -> M Store.t A) (db : Store.t) :
  (forall a x db, snd (body a x db) = db) ->
  snd (for_each xs acc body db) = db.
Proof.
  intros Hbody. revert acc. induction xs as [|x xs IH]; intros acc; simpl.
  - reflexivity.
  - unfold bind. specialize (Hbody acc x db).
    destruct (body acc x db) as [[a|e] db']; simpl in Hbody; subst db'.
    + apply IH.
    + reflexivity.
Qed.

Lemma is_duplicate_fixed (c : string) (l : Z) :
  alerts_fixed (StateManager.is_duplicate c l).
Proof. intros db. now rewrite StateFacts.is_duplicate_run. Qed.

Lemma log_activity_fixed (event_type message details : string) :
  alerts_fixed (StateManager.log_activity event_type message details).
Proof. intros db. reflexivity. Qed.

Lemma get_enabled_locations_fixed :
  alerts_fixed StateManager.get_enabled_locations.
Proof. intros db. reflexivity. Qed.

Lemma get_enabled_channels_fixed :
  alerts_fixed StateManager.get_enabled_channels.
Proof.
  intros db. unfold StateManager.get_enabled_channels, bind at 1, get.
  rewrite for_each_reads; [reflexivity|].
  intros a x db'. now destruct (Py.json_loads (NotificationChannel.config x)).
Qed.

Lemma get_active_trials_fixed (now : string) :
  alerts_fixed (StateManager.get_active_trials now).
Proof. intros db. reflexivity. Qed.

Lemma expire_trials_fixed (now : string) :
  alerts_fixed (StateManager.expire_trials now).
Proof.
  intros db. unfold StateManager.expire_trials, bind, get, modify, ret.
  now destruct (List.filter (StateManager.is_lapsed now)
                  (Store.trial_subscriptions db)).
Qed.

Lemma send_fixed (now : Z) (senders : Senders.t) (alert_id : Z)
    (w : WarningInfo.t) (m : MatchResult.t) (ch : Channel.t) :
  alerts_fixed (NotificationDispatcher.send now senders alert_id w m ch).
Proof.
  intros db.
  destruct (DispatchFacts.is_quiet_hours_run now (WarningInfo.severity w) db)
    as (b & Hrun & _).
  rewrite (DispatchFacts.send_run _ _ _ _ _ _ _ b Hrun). now destruct b.
Qed.

(** *** State-manager calls that write to [alerts] *)

Lemma mark_expired_alerts_keeps (now : string) :
  keeps Unique (StateManager.mark_expired_alerts now).
Proof.
  intros db Hdb. rewrite SweepFacts.mark_expired_alerts_run. simpl.
  intros c l. rewrite DedupFacts.count_map; [apply Hdb|].
  intros a. now destruct (existsb _ _).
Qed.

(** [store_alert] after [is_duplicate] answered false. *)
Lemma store_alert_keeps (w : WarningInfo.t) (m : MatchResult.t) (c : string) :
  triple
    (fun db =>
       Dedup.unique (Store.alerts db)
       /\ existsb
            (StateManager.same_key c (Location.id (MatchResult.location m)))
            (Store.alerts db) = false)
    (StateManager.store_alert schema w m c)
    (fun _ => Unique) (fun _ => Unique).
Proof.
  intros db [Hu Hfree].
  destruct (StateFacts.store_alert_inserts schema w m c db)
    as (alert_id & row & -> & Hc & Hl & _).
  { rewrite Hfree. apply andb_false_r. }
  simpl. apply (DedupFacts.unique_snoc _ _ _ Hl); [now rewrite Hc | exact Hu].
Qed.

(** Under the unique constraint the insert is safe on its own: the
    constraint, not the check, is the last gate. *)
Lemma store_alert_constraint_keeps (w : WarningInfo.t) (m : MatchResult.t)
    (c : string) :
  keeps Unique (StateManager.store_alert Schema.spec w m c).
Proof.
  intros db Hu.
  destruct (existsb
              (StateManager.same_key c (Location.id (MatchResult.location m)))
              (Store.alerts db)) eqn:Hdup.
  - now rewrite StateFacts.store_alert_rejects by (simpl; exact Hdup).
  - destruct (StateFacts.store_alert_inserts Schema.spec w m c db)
      as (alert_id & row & -> & Hc & Hl & _).
    { simpl. exact Hdup. }
    simpl. apply (DedupFacts.unique_snoc _ _ _ Hl); [now rewrite Hc | exact Hu].
Qed.

(** *** The loops of the cycle *)

Ltac keeps_step :=
  lazymatch goal with
  | |- keeps _ (bind _ _) => apply Logic.keeps_bind; [|intros ?]
  | |- keeps _ (try_except _ _) => apply Logic.keeps_try; [|intros ?]
  | |- keeps _ (for_ _ _) => apply Logic.keeps_for_; intros ?
  | |- keeps _ (for_each _ _ _) => apply Logic.keeps_for_each; intros ? ?
  | |- keeps _ (ret _) => apply Logic.keeps_ret
  | |- keeps _ (raise _) => apply Logic.keeps_raise
  | |- keeps _ get => apply Logic.keeps_get
  | |- keeps _ (lift_result _) => apply Logic.keeps_lift_result
  | |- keeps _ (outside _) => apply (Logic.keeps_outside Unique)
  | |- keeps _ (AlertEngine.update_summary _) =>
      apply (Logic.keeps_with_summary Unique)
  | |- keeps _ (modify (World.with_summary _)) =>
      apply (Logic.keeps_with_summary Unique)
  | |- keeps _ (modify (World.set_last_poll _)) =>
      apply (Logic.keeps_set_last_poll Unique)
  | |- keeps _ (modify (World.set_last_poll_result _)) =>
      apply (Logic.keeps_set_last_poll_result Unique)
  | |- keeps _ (on_store _) =>
      apply (Logic.keeps_on_store Unique);
      first [ apply mark_expired_alerts_keeps
            | apply (Logic.keeps_alerts_fixed Dedup.unique) ]
  | |- keeps _ (if ?b then _ else _) => destruct b
  | |- keeps _ (match ?x with _ => _ end) => destruct x
  end.

Ltac keeps_auto :=
  repeat keeps_step;
  auto using is_duplicate_fixed, log_activity_fixed,
    get_enabled_locations_fixed, get_enabled_channels_fixed,
    get_active_trials_fixed, expire_trials_fixed, send_fixed.

Lemma notify_channel_keeps (alert_id : Z) (w : WarningInfo.t)
    (m : MatchResult.t) (ch : Channel.t) :
  keeps Inv (AlertEngine.notify_channel env alert_id w m ch).
Proof. unfold AlertEngine.notify_channel. keeps_auto. Qed.

(** The dedup check makes the insert safe whatever the schema says. *)
Lemma handle_match_keeps (channels : list Channel.t)
    (item : NowcastListItem.t) (w : WarningInfo.t) (m : MatchResult.t) :
  keeps Inv (AlertEngine.handle_match schema env channels item w m).
Proof.
  intros world Hworld. unfold AlertEngine.handle_match.
  unfold bind at 1. unfold on_store at 1.
  rewrite StateFacts.is_duplicate_run.
  destruct (existsb _ (Store.alerts (World.store world))) eqn:Hdup.
  - exact Hworld.
  - eapply (Logic.triple_bind
              (fun w' =>
                 Inv w'
                 /\ existsb
                      (StateManager.same_key (NowcastListItem.code item)
                         (Location.id (MatchResult.location m)))
                      (Store.alerts (World.store w')) = false)
              _ _ (fun _ => Inv) (fun _ => Inv) (fun _ => Inv)).
    + intros w' Hw'. unfold on_store.
      pose proof (store_alert_keeps w m (NowcastListItem.code item)
                    (World.store w') Hw') as H.
      destruct (StateManager.store_alert schema w m (NowcastListItem.code item)
                  (World.store w')) as [[a|e] db']; exact H.
    + intros alert_id.
      match goal with |- triple _ ?code _ _ => change (keeps Inv code) end.
      keeps_auto; apply notify_channel_keeps.
    + split; [exact Hworld | exact Hdup].
Qed.

Lemma handle_item_keeps (locations : list Location.t)
    (channels : list Channel.t) (item : NowcastListItem.t) :
  keeps Inv (AlertEngine.handle_item schema env locations channels item).
Proof.
  unfold AlertEngine.handle_item, AlertEngine.handle_warning.
  keeps_auto. apply handle_match_keeps.
Qed.

Lemma process_trials_keeps (nowcast : list NowcastListItem.t) :
  keeps Inv (AlertEngine._process_trials env nowcast).
Proof. unfold AlertEngine._process_trials. keeps_auto. Qed.

Lemma expire_trials_keeps : keeps Inv (AlertEngine._expire_trials env).
Proof. unfold AlertEngine._expire_trials. keeps_auto. Qed.

(** One poll cycle keeps the pairs unique, however it ends. *)
Lemma run_poll_cycle_keeps :
  keeps Inv (AlertEngine._run_poll_cycle schema env).
Proof.
  unfold AlertEngine._run_poll_cycle, AlertEngine.poll_body.
  keeps_auto;
    first [ apply handle_item_keeps
          | apply process_trials_keeps
          | apply expire_trials_keeps ].
Qed.

End WithRuntime.
End EngineFacts.

Module ReachFacts.

(** The store a cycle ends in is reachable when the one it started from
    is. *)
Lemma cycle_reachable `{RT : Py.Runtime} (schema : Schema.t) (env : Env.t)
    (w : World.t) :
  Reach.reachable schema (World.store w) ->
  Reach.reachable schema
    (World.store (snd (AlertEngine._run_poll_cycle schema env w))).
Proof.
  intros Hw.
  destruct (AlertEngine._run_poll_cycle schema env w) as [r w'] eqn:Hrun.
  exact (Reach.reach_cycle schema env w r w' Hw Hrun).
Qed.

End ReachFacts.

Module EngineProps.
Section WithRuntime.
Context `{RT : Py.Runtime}.

(** C1.  In every store the engine can reach by running poll cycles, from
    an empty [alerts] table, against any outside world and under either
    schema, the [alerts] table has at most one row for every pair of
    [bmkg_alert_code] and [matched_location_id]. *)
Theorem dedup_invariant (schema : Schema.t) (db : Store.t) (c : string)
    (l : Z) :
  Reach.reachable schema db ->
  (Dedup.count c l (Store.alerts db) <= 1)%nat.
Proof.
  intros Hreach. revert c l.
  change (Dedup.unique (Store.alerts db)).
  induction Hreach as [db Hfresh | env w r w' _ IH Hrun | db db' _ IH Hsame].
  - rewrite Hfresh. apply DedupFacts.unique_nil.
  - pose proof (EngineFacts.run_poll_cycle_keeps schema env w IH) as H.
    rewrite Hrun in H. now destruct r.
  - now rewrite Hsame.
Qed.

End WithRuntime.
End EngineProps.

(** ** The seed scenarios, run on the model *)

Module Scenarios.

Local Existing Instance AsciiRuntime.runtime.

(** S1: one new kecamatan alert. *)
Example s1_happy_path :
  let '(r, w) := Sample.cycle (World.initial (Sample.db [] [] [])) in
  (match r with
   | Ok s =>
       (Summary.warnings_fetched s, Summary.matches_found s,
        Summary.new_alerts s, Summary.duplicates_skipped s)
   | Raise _ => (0, 0, 0, 0)
   end,
   map (fun a => (Alert.bmkg_alert_code a, Alert.matched_location_id a,
                  Alert.match_type a, Alert.matched_text a, Alert.status a))
       (Store.alerts (World.store w)),
   map AlertDelivery.status (Store.alert_deliveries (World.store w)))
  = ((1, 1, 1, 0), [("CBT1", Some 1, "kecamatan", "Alian", "active")], ["sent"]).
Proof. vm_compute. reflexivity. Qed.

(** S2: the same inputs again are skipped as duplicates. *)
Example s2_dedup :
  let '(r, w) := Sample.cycle Sample.after_one in
  (match r with
   | Ok s => (Summary.new_alerts s, Summary.duplicates_skipped s)
   | Raise _ => (0, 0)
   end,
   length (Store.alerts (World.store w)),
   World._last_poll_result w)
  = ((0, 1), 1%nat, Some "OK: 0 new, 1 dupes, 0 expired").
Proof. vm_compute. reflexivity. Qed.

(** S3: the kabupaten fallback. *)
Example s3_kabupaten_fallback :
  map (fun m => (MatchResult.match_type m, MatchResult.matched_text m))
      (Matcher.match_locations
         (Sample.warning "Moderate" "Hujan di wilayah lain" "" ["Kebumen"])
         [Sample.location 1 "Somewhere" "Kebumen" true])
  = [("kabupaten", "Kebumen")].
Proof. vm_compute. reflexivity. Qed.

(** Kecamatan wins over kabupaten; case is ignored; disabled locations and
    empty names give nothing. *)
Example matcher_priority :
  map (fun m => (Location.id (MatchResult.location m), MatchResult.match_type m))
      (Matcher.match_locations
         (Sample.warning "Moderate" "hujan di ALIAN" "" ["Kab. Kebumen"])
         [ Sample.location 1 "Alian" "Kebumen" true;
           Sample.location 2 "Bruno" "kebumen" true;
           Sample.location 3 "Alian" "Kebumen" false;
           Sample.location 4 "" "" true;
           Sample.location 5 "" "Kebumen" true;
           Sample.location 6 "Alian" "" true ])
  = [(1, "kecamatan"); (2, "kabupaten"); (5, "kabupaten"); (6, "kecamatan")].
Proof. vm_compute. reflexivity. Qed.

(** S4: the expiry sweep, twice. *)
Example s4_expiry_sweep :
  let now := "2026-02-17T16:00:00+00:00" in
  let '(r1, db1) :=
    StateManager.mark_expired_alerts now (Sample.db [] Sample.old_alerts []) in
  let '(r2, db2) := StateManager.mark_expired_alerts now db1 in
  (match r1 with Ok rows => map Alert.id rows | Raise _ => [] end,
   map Alert.status (Store.alerts db1),
   match r2 with Ok rows => map Alert.id rows | Raise _ => [] end,
   map Alert.status (Store.alerts db2))
  = ([1], ["expired"; "active"; "active"; "cancelled"],
     [], ["expired"; "active"; "active"; "cancelled"]).
Proof. vm_compute. reflexivity. Qed.

(** S5: the upstream list fails; nothing is stored. *)
Example s5_upstream_failure :
  let env :=
    {| Env.get_nowcast_list := fun _ => Raise (Exception "API timeout");
       Env.get_nowcast_detail := Env.get_nowcast_detail Sample.env;
       Env.senders := Env.senders Sample.env;
       Env.send_raw := Env.send_raw Sample.env;
       Env.utc_hour := Env.utc_hour Sample.env;
       Env.utc_isoformat := Env.utc_isoformat Sample.env;
       Env.current_timestamp := Env.current_timestamp Sample.env;
       Env.telegram_bot_token := None |} in
  let '(r, w) :=
    AlertEngine._run_poll_cycle Schema.spec env
      (World.initial (Sample.db [] [] [])) in
  (match r with Ok s => Summary.new_alerts s | Raise _ => 1 end,
   Store.alerts (World.store w),
   World._last_poll_result w,
   map ActivityLogEntry.event_type (Store.activity_log (World.store w)))
  = (0, [], Some "error: API timeout", ["poll_error"]).
Proof. vm_compute. reflexivity. Qed.

(** S6: at 23h local time in a 22:00-06:00 window a Severe warning goes
    out and a Moderate one is skipped. *)
Example s6_quiet_hours_override :
  let db := Sample.db Sample.quiet_config [] [] in
  let send severity :=
    NotificationDispatcher.send 16 (Sample.senders Sample.delivering) 1
      (Sample.warning severity "Hujan di Alian" "" []) Sample.alian_match
      Sample.telegram db in
  (fst (send "Severe"),
   map AlertDelivery.status (Store.alert_deliveries (snd (send "Severe"))),
   fst (send "Moderate"),
   map AlertDelivery.status (Store.alert_deliveries (snd (send "Moderate"))))
  = (Ok true, ["sent"], Ok false, ["skipped_quiet_hours"]).
Proof. vm_compute. reflexivity. Qed.

(** The five ways [send] can end each log one row. *)
Example send_paths :
  let db := Sample.db [] [] [] in
  let run now config sender channel :=
    let '(r, db') :=
      NotificationDispatcher.send now (Sample.senders sender) 1 Sample.hujan
        Sample.alian_match channel (Sample.db config [] []) in
    (r, map (fun d => (AlertDelivery.channel_id d, AlertDelivery.status d,
                       AlertDelivery.error_message d))
            (Store.alert_deliveries db')) in
  [ run 16 Sample.quiet_config Sample.delivering Sample.telegram;
    run 16 [] Sample.delivering Sample.fax;
    run 16 [] Sample.delivering Sample.telegram;
    run 16 [] Sample.refusing Sample.telegram;
    run 16 [] Sample.crashing Sample.telegram;
    run 16 Sample.broken_config Sample.delivering Sample.telegram ]
  = [ (Ok false, [(7, "skipped_quiet_hours", "")]);
      (Ok false, [(8, "failed", "Unsupported channel type: fax")]);
      (Ok true, [(7, "sent", "")]);
      (Ok false, [(7, "failed", "")]);
      (Ok false, [(7, "failed", "timeout")]);
      (Ok true, [(7, "sent", "")]) ].
Proof. vm_compute. reflexivity. Qed.

(** Trials are handed back once. *)
Example trials_once :
  let db := Sample.db [] [] Sample.trials in
  map (map Trial.id)
      (Trials.returned
         [ "2026-02-17 16:00:00"; "2026-02-17 16:00:00";
           "2026-02-20 00:00:00"; "2026-02-21 00:00:00" ] db)
  = [[1]; []; [2]; []].
Proof. vm_compute. reflexivity. Qed.

(** Without the unique constraint the insert goes through; with it the
    statement raises. *)
Example store_alert_schema :
  let db := Sample.db [] Sample.old_alerts [] in
  let run schema :=
    let '(r, db') :=
      StateManager.store_alert schema Sample.hujan Sample.alian_match "CBT1" db
    in (r, length (Store.alerts db')) in
  (run Schema.spec, run {| Schema.dedup_unique := false |})
  = ((Raise (DuplicateKey "alerts.bmkg_alert_code, alerts.matched_location_id"),
      4%nat),
     (Ok 5, 5%nat)).
Proof. vm_compute. reflexivity. Qed.

End Scenarios.

(** ** The theorems with hypotheses, at the sample data *)

Module Witnesses.

Local Existing Instance AsciiRuntime.runtime.

Local Abbreviation run :=
  (AlertEngine._run_poll_cycle (RT := AsciiRuntime.runtime) Schema.spec
     Sample.env).
Local Abbreviation fresh := (World.initial (Sample.db [] [] [])).

Lemma dedup_invariant_witness :
  Reach.reachable Schema.spec (World.store (snd (run (snd (run fresh)))))
  /\ (Dedup.count "CBT1" 1
        (Store.alerts (World.store (snd (run (snd (run fresh))))))
      <= 1)%nat.
Proof.
  assert (H : Reach.reachable Schema.spec
                (World.store (snd (run (snd (run fresh)))))).
  { apply ReachFacts.cycle_reachable, ReachFacts.cycle_reachable.
    apply Reach.reach_fresh. reflexivity. }
  split; [exact H|].
  exact (EngineProps.dedup_invariant Schema.spec _ "CBT1" 1 H).
Defined.

Lemma store_alert_duplicate_key_witness :
  (exists a, In a Sample.old_alerts
     /\ Alert.bmkg_alert_code a = "CBT1"
     /\ Alert.matched_location_id a = Some 1)
  /\ exists constraint,
       StateManager.store_alert Schema.spec Sample.hujan Sample.alian_match
         "CBT1" (Sample.db [] Sample.old_alerts [])
       = (Raise (DuplicateKey constraint), Sample.db [] Sample.old_alerts []).
Proof.
  assert (H : exists a, In a Sample.old_alerts
                /\ Alert.bmkg_alert_code a = "CBT1"
                /\ Alert.matched_location_id a = Some 1).
  { exists (Sample.alert 1 "CBT1" 1 "active" "2000-01-01T00:00:00+00:00").
    simpl. auto. }
  split; [exact H|].
  apply (StateProps.store_alert_duplicate_key Sample.hujan Sample.alian_match
           "CBT1" (Sample.db [] Sample.old_alerts []) H).
Defined.

Lemma mark_expired_alerts_idempotent_witness :
  let now := "2026-02-17T16:00:00+00:00" in
  let db := Sample.db [] Sample.old_alerts [] in
  let db' :=
    Store.with_alerts
      (map (fun a =>
              if StateManager.is_overdue now a
              then Alert.set_status "expired" a else a)) db in
  NoDup (map Alert.id (Store.alerts db))
  /\ StateManager.mark_expired_alerts now db =
       (Ok (List.filter (StateManager.is_overdue now) (Store.alerts db)), db')
  /\ StateManager.mark_expired_alerts now db' = (Ok [], db').
Proof.
  intros now db db'.
  assert (H : NoDup (map Alert.id (Store.alerts db))).
  { apply (bool_decide_unpack _). vm_compute. exact I. }
  split; [exact H|].
  destruct (SweepProps.mark_expired_alerts_idempotent now db H)
    as (H1 & _ & H3 & _).
  split; [exact H1 | exact H3].
Defined.

Lemma expire_trials_once_witness :
  let now := "2026-02-17 16:00:00" in
  let db := Sample.db [] [] Sample.trials in
  NoDup (map Trial.id (Store.trial_subscriptions db))
  /\ StateManager.expire_trials now db =
       (Ok (List.filter (StateManager.is_lapsed now)
              (Store.trial_subscriptions db)),
        Store.with_trials
          (map (fun r =>
                  if StateManager.is_lapsed now r
                  then Trial.set_notified r else r)) db)
  /\ Trials.times_returned 1
       (Trials.returned [now; now; "2026-02-20 00:00:00"] db) = 1%nat.
Proof.
  intros now db.
  assert (H : NoDup (map Trial.id (Store.trial_subscriptions db))).
  { apply (bool_decide_unpack _). vm_compute. exact I. }
  split; [exact H|].
  destruct (SweepProps.expire_trials_once now db H) as (H1 & _ & _ & H4).
  split; [exact H1|].
  apply (H4 [now; now; "2026-02-20 00:00:00"]
            (Sample.trial 1 "2026-02-17 12:00:00" 0)).
  simpl. auto.
Defined.

Lemma malformed_quiet_hours_dispatches_witness :
  let db := Sample.db Sample.broken_config [] [] in
  (QuietHours.hour_field
     (QuietHours.config_value db "quiet_hours_start" "22:00") = None
   \/ QuietHours.hour_field
        (QuietHours.config_value db "quiet_hours_end" "06:00") = None)
  /\ NotificationDispatcher._is_quiet_hours 16
       (WarningInfo.severity Sample.hujan) db = (Ok false, db).
Proof.
  intros db.
  assert (H : QuietHours.hour_field
                (QuietHours.config_value db "quiet_hours_start" "22:00") = None
              \/ QuietHours.hour_field
                   (QuietHours.config_value db "quiet_hours_end" "06:00")
                 = None).
  { left. vm_compute. reflexivity. }
  split; [exact H|].
  apply (DispatchProps.malformed_quiet_hours_dispatches 16
           (Sample.senders Sample.delivering) 1 Sample.hujan Sample.alian_match
           Sample.telegram db H).
Defined.

End Witnesses.

(** * Further properties *)

(** ** The matcher as a filter *)

Module MatcherMore.
Section WithRuntime.
Context `{RT : Py.Runtime}.

Lemma match_step_hit (w : WarningInfo.t) (loc : Location.t) :
  Matcher.match_step (Py.lower (WarningInfo.description w))
    (Matcher.area_names w) [] loc =
  if Location.enabled loc && (Hits.kecamatan w loc || Hits.kabupaten w loc)
  then [Hits.result w loc] else [].
Proof.
  unfold Matcher.match_step, Matcher._word_boundary_match, Hits.result,
    Hits.kecamatan, Hits.kabupaten.
  destruct (Location.enabled loc); simpl; [|reflexivity].
  destruct (Py.truthy (Py.lower (Location.subdistrict_name loc))
            && Py.str_in (Py.lower (Location.subdistrict_name loc))
                 (Py.lower (WarningInfo.description w))); simpl;
    [reflexivity|].
  now destruct (Py.truthy (Py.lower (Location.district_name loc))
                && Matcher.any_area (Py.lower (Location.district_name loc))
                     (Matcher.area_names w)).
Qed.

(** X1.  [match_locations] returns, in the order of the input, one match
    for exactly the locations that are enabled and pass the kecamatan or
    the kabupaten test; the match is the kecamatan one whenever that test
    passes, and [matched_text] is the name as stored, not lower-cased. *)
Theorem match_locations_filter (w : WarningInfo.t)
    (locations : list Location.t) :
  Matcher.match_locations w locations =
  map (Hits.result w)
    (List.filter
       (fun loc =>
          Location.enabled loc
          && (Hits.kecamatan w loc || Hits.kabupaten w loc))
       locations).
Proof.
  rewrite MatcherFacts.match_locations_flat_map.
  induction locations as [|loc locations IH]; simpl; [reflexivity|].
  rewrite IH, match_step_hit.
  now destruct (Location.enabled loc
                && (Hits.kecamatan w loc || Hits.kabupaten w loc)).
Qed.

(** X2.  [_word_boundary_match] is plain containment: it holds exactly
    when the haystack is some text, the needle, and some text, whatever
    stands next to the needle; no word boundary is looked for. *)
Theorem word_boundary_match_is_containment (needle haystack : string) :
  (Matcher._word_boundary_match needle haystack = true <->
   exists pre post, haystack = pre +:+ needle +:+ post)
  /\ (forall pre post,
        Matcher._word_boundary_match needle (pre +:+ needle +:+ post) = true).
Proof.
  split.
  - apply PyFacts.str_in_spec.
  - intros pre post. apply PyFacts.str_in_spec. now exists pre, post.
Qed.

End WithRuntime.
End MatcherMore.

(** ** Insert and lookup, counts, and the two views of a trial *)

Module StateMore.

Lemma existsb_snoc {X} (p : X -> bool) (xs : list X) (x : X) :
  existsb p (xs ++ [x]) = existsb p xs || p x.
Proof. rewrite existsb_app. simpl. now rewrite orb_false_r. Qed.

(** What a successful [store_alert] did. *)
Lemma store_alert_ok `{RT : Py.Runtime} (schema : Schema.t)
    (w : WarningInfo.t) (m : MatchResult.t) (c : string) (db db' : Store.t)
    (alert_id : Z) :
  StateManager.store_alert schema w m c db = (Ok alert_id, db') ->
  exists row,
    db' = Store.with_alerts (fun rows => rows ++ [row]) db
    /\ Alert.bmkg_alert_code row = c
    /\ Alert.matched_location_id row =
         Some (Location.id (MatchResult.location m))
    /\ Alert.status row = "active"
    /\ Alert.id row = alert_id
    /\ alert_id = Store.next_id (map Alert.id (Store.alerts db)).
Proof.
  intros Hrun.
  destruct (Schema.dedup_unique schema
            && existsb
                 (StateManager.same_key c
                    (Location.id (MatchResult.location m)))
                 (Store.alerts db)) eqn:Hclash.
  - rewrite (StateFacts.store_alert_rejects schema w m c db Hclash) in Hrun.
    discriminate.
  - revert Hrun.
    unfold StateManager.store_alert, StateManager.insert_alert, bind, get, ret,
      modify, raise.
    cbn [Alert.matched_location_id Alert.bmkg_alert_code].
    rewrite Hclash. cbn.
    pose proof (StateFacts.next_id_pos (map Alert.id (Store.alerts db))) as Hpos.
    destruct (Store.next_id (map Alert.id (Store.alerts db)) =? 0) eqn:Hz;
      [apply Z.eqb_eq in Hz; lia|].
    intros Hrun. injection Hrun as <- <-.
    eexists. split; [reflexivity|]. cbn. auto.
Qed.

(** X3.  After a successful [store_alert] for a code and a location,
    [is_duplicate] answers true for that pair, and answers as before for
    every other pair. *)
Theorem store_then_is_duplicate `{RT : Py.Runtime} (schema : Schema.t)
    (warning : WarningInfo.t) (match_ : MatchResult.t) (alert_code : string)
    (db db' : Store.t) (alert_id : Z) :
  StateManager.store_alert schema warning match_ alert_code db
  = (Ok alert_id, db') ->
  StateManager.is_duplicate alert_code
    (Location.id (MatchResult.location match_)) db' = (Ok true, db')
  /\ forall code location_id,
       code <> alert_code
       \/ location_id <> Location.id (MatchResult.location match_) ->
       fst (StateManager.is_duplicate code location_id db') =
       fst (StateManager.is_duplicate code location_id db).
Proof.
  intros Hrun.
  destruct (store_alert_ok schema warning match_ alert_code db db' alert_id Hrun)
    as (row & -> & Hc & Hl & _).
  split.
  - rewrite StateFacts.is_duplicate_run. simpl. rewrite existsb_snoc.
    assert (StateManager.same_key alert_code
              (Location.id (MatchResult.location match_)) row = true) as ->
      by now apply StateFacts.same_key_spec.
    now rewrite orb_true_r.
  - intros code location_id Hother.
    rewrite !StateFacts.is_duplicate_run. simpl. rewrite existsb_snoc.
    assert (StateManager.same_key code location_id row = false) as ->.
    { apply not_true_iff_false. intros Hk.
      apply StateFacts.same_key_spec in Hk as [Hc' Hl'].
      destruct Hother as [H|H]; [congruence|]. apply H. congruence. }
    now rewrite orb_false_r.
Qed.

(** The rows after a sweep, row by row, for a table with distinct ids. *)
Lemma sweep_rows (now : string) (db : Store.t) :
  NoDup (map Alert.id (Store.alerts db)) ->
  Store.alerts (snd (StateManager.mark_expired_alerts now db)) =
  map (fun a =>
         if StateManager.is_overdue now a
         then Alert.set_status "expired" a else a) (Store.alerts db).
Proof.
  intros Hnd. rewrite SweepFacts.mark_expired_alerts_run. simpl.
  apply map_ext_in. intros a Ha.
  now rewrite (SweepFacts.selected_by_key Alert.id).
Qed.

Lemma advanced_by_sweep (now : string) (rows : list Alert.t) :
  Forall2 Rows.advanced rows
    (map (fun a =>
            if StateManager.is_overdue now a
            then Alert.set_status "expired" a else a) rows).
Proof.
  induction rows as [|a rows IH]; simpl; constructor; [|exact IH].
  destruct (StateManager.is_overdue now a) eqn:Hp; [right | now left].
  apply SweepFacts.is_overdue_spec in Hp as [Hs _]. auto.
Qed.

(** X4.  On a table with distinct ids, [mark_expired_alerts] keeps every
    row in place and changes nothing but the status, and that only from
    [active] to [expired]: rows that are expired or cancelled, or not yet
    due, are left exactly as they were, and the rows it returns all had
    status [active]. *)
Theorem mark_expired_alerts_only_advances (now_utc : string) (db : Store.t) :
  NoDup (map Alert.id (Store.alerts db)) ->
  Forall2 Rows.advanced (Store.alerts db)
    (Store.alerts (snd (StateManager.mark_expired_alerts now_utc db)))
  /\ (forall a,
        In a (Store.alerts db) -> Alert.status a <> "active" ->
        In a (Store.alerts (snd (StateManager.mark_expired_alerts now_utc db))))
  /\ (forall rows,
        fst (StateManager.mark_expired_alerts now_utc db) = Ok rows ->
        Forall (fun a => Alert.status a = "active") rows).
Proof.
  intros Hnd. rewrite (sweep_rows now_utc db Hnd). repeat split.
  - apply advanced_by_sweep.
  - intros a Ha Hs. apply in_map_iff. exists a. split; [|exact Ha].
    destruct (StateManager.is_overdue now_utc a) eqn:Hp; [|reflexivity].
    apply SweepFacts.is_overdue_spec in Hp as [Hact _]. contradiction.
  - intros rows Hrows. rewrite SweepFacts.mark_expired_alerts_run in Hrows.
    injection Hrows as <-. apply Forall_forall. intros a Ha.
    apply list_elem_of_In, filter_In in Ha as [_ Hp].
    now apply SweepFacts.is_overdue_spec in Hp as [Hact _].
Qed.

Lemma active_after_sweep (now : string) (rows : list Alert.t) :
  (length
     (List.filter (fun a => String.eqb (Alert.status a) "active")
        (map (fun a =>
                if StateManager.is_overdue now a
                then Alert.set_status "expired" a else a) rows))
   + length (List.filter (StateManager.is_overdue now) rows))%nat =
  length (List.filter (fun a => String.eqb (Alert.status a) "active") rows).
Proof.
  induction rows as [|a rows IH]; simpl; [reflexivity|].
  destruct (StateManager.is_overdue now a) eqn:Hp.
  - apply SweepFacts.is_overdue_spec in Hp as [Hact _].
    apply String.eqb_eq in Hact. rewrite Hact. simpl. lia.
  - destruct (String.eqb (Alert.status a) "active"); simpl; lia.
Qed.

(** X5.  On a table with distinct ids, the number of active alerts that
    [get_alert_count] reports after [mark_expired_alerts] is the number it
    reported before, less the number of rows the sweep returned. *)
Theorem get_alert_count_after_sweep (now_utc : string) (db : Store.t) :
  NoDup (map Alert.id (Store.alerts db)) ->
  exists before after returned,
    StateQueries.get_alert_count db = (Ok before, db)
    /\ StateManager.mark_expired_alerts now_utc db
       = (Ok returned, snd (StateManager.mark_expired_alerts now_utc db))
    /\ fst (StateQueries.get_alert_count
              (snd (StateManager.mark_expired_alerts now_utc db))) = Ok after
    /\ after = before - Z.of_nat (length returned).
Proof.
  intros Hnd. eexists _, _, _. split; [reflexivity|]. split.
  { rewrite SweepFacts.mark_expired_alerts_run. reflexivity. }
  split; [reflexivity|].
  rewrite (sweep_rows now_utc db Hnd).
  pose proof (active_after_sweep now_utc (Store.alerts db)). lia.
Qed.

Lemma leb_ltb (a b : string) : String.leb a b = negb (String.ltb b a).
Proof.
  unfold String.leb, String.ltb. rewrite (String.compare_antisym a b).
  now destruct (String.compare b a).
Qed.

(** X6.  At one reading of the store's clock a trial is either still
    active or lapsed, never both.  On a table with distinct ids:
    [get_active_trials] returns the rows with [expires_at] after the
    reading; [expire_trials] returns none of those and leaves them exactly
    as they were; and every row not yet notified is in one of the two
    results. *)
Theorem trials_active_or_lapsed (current_timestamp : string) (db : Store.t) :
  NoDup (map Trial.id (Store.trial_subscriptions db)) ->
  exists active lapsed db',
    StateManager.get_active_trials current_timestamp db = (Ok active, db)
    /\ StateManager.expire_trials current_timestamp db = (Ok lapsed, db')
    /\ (forall r, In r active <->
          In r (Store.trial_subscriptions db)
          /\ String.ltb current_timestamp (Trial.expires_at r) = true)
    /\ (forall r, In r active ->
          ~ In r lapsed /\ In r (Store.trial_subscriptions db'))
    /\ (forall r, In r (Store.trial_subscriptions db) ->
          Trial.expired_notified r = 0 -> In r active \/ In r lapsed).
Proof.
  intros Hnd. eexists _, _, _.
  split; [reflexivity|]. split; [now apply TrialFacts.expire_trials_run|].
  assert (Hsplit : forall r,
            StateManager.is_lapsed current_timestamp r = true ->
            String.ltb current_timestamp (Trial.expires_at r) = false).
  { intros r Hr. unfold StateManager.is_lapsed in Hr.
    apply andb_true_iff in Hr as [Hr _]. rewrite leb_ltb in Hr.
    now apply negb_true_iff in Hr. }
  split; [|split].
  - intros r. apply filter_In.
  - intros r Hr. apply filter_In in Hr as [Hr Hexp]. split.
    + intros Hin. apply filter_In in Hin as [_ Hin].
      rewrite (Hsplit r Hin) in Hexp. discriminate.
    + simpl. apply in_map_iff. exists r. split; [|exact Hr].
      destruct (StateManager.is_lapsed current_timestamp r) eqn:Hlap;
        [|reflexivity].
      rewrite (Hsplit r Hlap) in Hexp. discriminate.
  - intros r Hr Hz.
    destruct (String.ltb current_timestamp (Trial.expires_at r)) eqn:Hlt.
    + left. apply filter_In. auto.
    + right. apply filter_In. split; [exact Hr|].
      unfold StateManager.is_lapsed. rewrite leb_ltb, Hlt. simpl.
      now apply Z.eqb_eq.
Qed.

End StateMore.

(** ** Code that lets no exception out *)

Module Safe.
Section Rules.
Context {S : Type}.

Implicit Types (P I : S -> Prop).

Lemma safe_keeps {A} I (m : M S A) : safe I m -> keeps I m.
Proof.
  intros Hm s Hs. specialize (Hm s Hs).
  destruct (m s) as [[a|e] s']; [exact Hm | contradiction].
Qed.

Lemma triple_try {A} P (m : M S A) (h : exn -> M S A)
    (Q : A -> S -> Prop) (E' E : exn -> S -> Prop) :
  triple P m Q E' -> (forall e, triple (E' e) (h e) Q E) ->
  triple P (try_except m h) Q E.
Proof.
  intros Hm Hh s Hs. unfold try_except. specialize (Hm s Hs).
  destruct (m s) as [[a|e] s']; [exact Hm | now apply Hh].
Qed.

Lemma triple_post {A} P (m : M S A) (Q Q' : A -> S -> Prop)
    (E E' : exn -> S -> Prop) :
  (forall a s, Q a s -> Q' a s) -> (forall e s, E e s -> E' e s) ->
  triple P m Q E -> triple P m Q' E'.
Proof.
  intros HQ HE Hm s Hs. specialize (Hm s Hs).
  destruct (m s) as [[a|e] s']; [now apply HQ | now apply HE].
Qed.

Lemma safe_ret {A} I (a : A) : safe I (ret a).
Proof. intros s Hs. exact Hs. Qed.

Lemma safe_get I : safe I get.
Proof. intros s Hs. exact Hs. Qed.

Lemma safe_modify I (f : S -> S) :
  (forall s, I s -> I (f s)) -> safe I (modify f).
Proof. intros Hf s Hs. now apply Hf. Qed.

Lemma safe_bind {A B} I (m : M S A) (k : A -> M S B) :
  safe I m -> (forall a, safe I (k a)) -> safe I (bind m k).
Proof. intros Hm Hk. eapply Logic.triple_bind; [exact Hm | exact Hk]. Qed.

(** A handler that lets nothing out makes the whole statement safe. *)
Lemma safe_try {A} I (m : M S A) (h : exn -> M S A) :
  keeps I m -> (forall e, safe I (h e)) -> safe I (try_except m h).
Proof. intros Hm Hh. eapply triple_try; [exact Hm | exact Hh]. Qed.

Lemma safe_for_ {X} I (xs : list X) (body : X -> M S unit) :
  (forall x, safe I (body x)) -> safe I (for_ xs body).
Proof.
  intros Hbody. induction xs as [|x xs IH]; simpl.
  - apply safe_ret.
  - apply safe_bind; [apply Hbody | intros _; exact IH].
Qed.

Lemma safe_for_each {A X} I (xs : list X) (acc : A)
    (body : A -> X -> M S A) :
  (forall a x, safe I (body a x)) -> safe I (for_each xs acc body).
Proof.
  intros Hbody. revert acc. induction xs as [|x xs IH]; intros acc; simpl.
  - apply safe_ret.
  - apply safe_bind; [apply Hbody | intros a; apply IH].
Qed.

End Rules.
End Safe.

(** ** The books of a poll cycle *)

Module LedgerFacts.

(** *** State-manager calls that leave the books alone *)

Lemma is_duplicate_booked (c : string) (l : Z) :
  Ledger.fixed (StateManager.is_duplicate c l).
Proof. intros db. now rewrite StateFacts.is_duplicate_run. Qed.

Lemma log_activity_booked (event_type message details : string) :
  Ledger.fixed (StateManager.log_activity event_type message details).
Proof. intros db. now repeat split. Qed.

Lemma get_enabled_locations_booked :
  Ledger.fixed StateManager.get_enabled_locations.
Proof. intros db. now repeat split. Qed.

Lemma get_active_trials_booked (now : string) :
  Ledger.fixed (StateManager.get_active_trials now).
Proof. intros db. now repeat split. Qed.

Lemma get_enabled_channels_reads `{RT : Py.Runtime} (db : Store.t) :
  snd (StateManager.get_enabled_channels db) = db.
Proof.
  unfold StateManager.get_enabled_channels, bind at 1, get.
  apply EngineFacts.for_each_reads.
  intros a x db'. now destruct (Py.json_loads (NotificationChannel.config x)).
Qed.

Lemma get_enabled_channels_booked `{RT : Py.Runtime} :
  Ledger.fixed StateManager.get_enabled_channels.
Proof. intros db. now rewrite get_enabled_channels_reads. Qed.

Lemma expire_trials_booked (now : string) :
  Ledger.fixed (StateManager.expire_trials now).
Proof.
  intros db. unfold StateManager.expire_trials, bind, get, modify, ret.
  now destruct (List.filter (StateManager.is_lapsed now)
                  (Store.trial_subscriptions db)).
Qed.

Lemma mark_expired_alerts_booked (now : string) :
  Ledger.fixed (StateManager.mark_expired_alerts now).
Proof.
  intros db. rewrite SweepFacts.mark_expired_alerts_run. simpl.
  now rewrite length_map.
Qed.

(** *** Steps of the engine *)

Section Books.
Context `{RT : Py.Runtime} (schema : Schema.t) (env : Env.t).
Context (alerts0 deliveries0 : Z) (channels0 : list NotificationChannel.t).

Local Abbreviation Bal := (Ledger.balanced alerts0 deliveries0 channels0).
Local Abbreviation K := (Ledger.enabled_channels channels0).

Lemma tick_safe {A} (p q r : Z) (answer : nat -> A) :
  safe (Bal p q r) (outside answer).
Proof. intros w Hw. exact Hw. Qed.

Lemma last_poll_safe (p q r : Z) (s : string) :
  safe (Bal p q r) (modify (World.set_last_poll s)).
Proof. intros w Hw. exact Hw. Qed.

Lemma last_poll_result_safe (p q r : Z) (s : string) :
  safe (Bal p q r) (modify (World.set_last_poll_result s)).
Proof. intros w Hw. exact Hw. Qed.

(** Updates of the summary that leave the four booked counters alone. *)
Lemma summary_safe (p q r : Z) (f : Summary.t -> Summary.t) :
  (forall s,
     Summary.new_alerts (f s) = Summary.new_alerts s
     /\ Summary.duplicates_skipped (f s) = Summary.duplicates_skipped s
     /\ Summary.matches_found (f s) = Summary.matches_found s
     /\ Summary.notifications_sent (f s) = Summary.notifications_sent s) ->
  safe (Bal p q r) (AlertEngine.update_summary f).
Proof.
  intros Hf w Hw. unfold Ledger.balanced in *. simpl.
  destruct (Hf (World.summary w)) as (-> & -> & -> & ->). exact Hw.
Qed.

Lemma on_store_keeps {A} (p q r : Z) (m : M Store.t A) :
  Ledger.fixed m -> keeps (Bal p q r) (on_store m).
Proof.
  intros Hm w Hw. unfold on_store. specialize (Hm (World.store w)).
  destruct (m (World.store w)) as [[a|e] db']; simpl in *;
    unfold Ledger.balanced in *; simpl;
    destruct Hm as (-> & -> & ->); exact Hw.
Qed.

Lemma on_store_safe {A} (p q r : Z) (m : M Store.t A) :
  Ledger.fixed m -> (forall db, exists a, fst (m db) = Ok a) ->
  safe (Bal p q r) (on_store m).
Proof.
  intros Hm Hok w Hw. pose proof (on_store_keeps p q r m Hm w Hw) as H.
  unfold on_store in *. destruct (Hok (World.store w)) as [a Ha].
  destruct (m (World.store w)) as [[a'|e] db']; [exact H | discriminate].
Qed.

(** One channel: one more delivery, at most one more notification. *)
Lemma notify_channel_books (p q : Z) (alert_id : Z) (w : WarningInfo.t)
    (m : MatchResult.t) (ch : Channel.t) :
  triple (Bal p (q + 1) 0)
    (AlertEngine.notify_channel env alert_id w m ch)
    (fun _ => Bal p q 0) (fun _ _ => False).
Proof.
  intros world Hw.
  unfold AlertEngine.notify_channel, try_except.
  unfold bind at 1. unfold outside at 1.
  unfold bind at 1. unfold outside at 1.
  unfold bind at 1. unfold on_store.
  cbn [World.store World.tick World.calls].
  destruct (DispatchFacts.is_quiet_hours_run
              (Env.utc_hour env (World.calls world))
              (WarningInfo.severity w) (World.store world))
    as (b & Hrun & _).
  rewrite (DispatchFacts.send_run _ _ _ _ _ _ _ b Hrun).
  unfold Ledger.balanced in *.
  destruct Hw as (Ha & Hd & Hm & Hs & Hc).
  destruct b; [|destruct (fst (Route.outcome _ w m ch))]; cbn;
    rewrite List.length_app; cbn; repeat split; try assumption; lia.
Qed.

Lemma notify_loop_books (p : Z) (alert_id : Z) (w : WarningInfo.t)
    (m : MatchResult.t) (channels : list Channel.t) :
  forall q,
    triple (Bal p (q + Z.of_nat (length channels)) 0)
      (for_ channels (AlertEngine.notify_channel env alert_id w m))
      (fun _ => Bal p q 0) (fun _ _ => False).
Proof.
  induction channels as [|ch channels IH]; intros q; simpl for_.
  - intros world Hw. simpl in Hw. now rewrite Z.add_0_r in Hw.
  - eapply (Logic.triple_bind _ _ _
              (fun _ => Bal p (q + Z.of_nat (length channels)) 0)).
    + eapply Logic.triple_weaken; [|apply (notify_channel_books p
          (q + Z.of_nat (length channels)))].
      intros world Hw. simpl length in Hw.
      now replace (q + Z.of_nat (length channels) + 1)
        with (q + Z.of_nat (S (length channels))) by lia.
    + intros _. apply IH.
Qed.

(** One match: it is a duplicate, or it becomes an alert that goes to
    every channel. *)
Lemma handle_match_books (p : Z) (channels : list Channel.t)
    (item : NowcastListItem.t) (w : WarningInfo.t) (m : MatchResult.t) :
  Z.of_nat (length channels) = K ->
  triple (Bal (p + 1) 0 0)
    (AlertEngine.handle_match schema env channels item w m)
    (fun _ => Bal p 0 0) (fun _ _ => False).
Proof.
  intros Hk world Hw. unfold AlertEngine.handle_match.
  unfold bind at 1. unfold on_store at 1.
  rewrite StateFacts.is_duplicate_run.
  destruct (existsb _ (Store.alerts (World.store world))) eqn:Hdup.
  - unfold Ledger.balanced in *. cbn.
    destruct Hw as (Ha & Hd & Hm & Hs & Hc). repeat split; try assumption; lia.
  - unfold bind at 1. unfold on_store at 1.
    cbn [World.store World.with_store].
    destruct (StateFacts.store_alert_inserts schema w m
                (NowcastListItem.code item) (World.store world))
      as (alert_id & row & -> & _).
    { rewrite Hdup. apply andb_false_r. }
    eapply (Logic.triple_bind (Bal (p + 1) 0 1) _ _ (fun _ => Bal p K 0)).
    + intros w' Hw'. unfold Ledger.balanced in *. cbn.
      destruct Hw' as (Ha & Hd & Hm & Hs & Hc).
      repeat split; try assumption; lia.
    + intros _. destruct channels as [|ch channels].
      * intros w' Hw'. simpl in Hk. unfold Ledger.balanced in *.
        rewrite <- Hk in Hw'. cbn. rewrite <- Hk.
        destruct Hw' as (Ha & Hd & Hm & Hs & Hc).
        repeat split; try assumption; lia.
      * eapply Logic.triple_weaken;
          [|apply (notify_loop_books p alert_id w m (ch :: channels) 0)].
        intros w' Hw'. now rewrite Hk.
    + unfold Ledger.balanced in *. cbn. rewrite List.length_app. cbn.
      destruct Hw as (Ha & Hd & Hm & Hs & Hc).
      repeat split; try assumption; lia.
Qed.

Lemma match_loop_books (channels : list Channel.t)
    (item : NowcastListItem.t) (w : WarningInfo.t)
    (matches : list MatchResult.t) :
  Z.of_nat (length channels) = K ->
  forall p,
    triple (Bal (p + Z.of_nat (length matches)) 0 0)
      (for_ matches (AlertEngine.handle_match schema env channels item w))
      (fun _ => Bal p 0 0) (fun _ _ => False).
Proof.
  intros Hk. induction matches as [|m matches IH]; intros p; simpl for_.
  - intros world Hw. simpl in Hw. now rewrite Z.add_0_r in Hw.
  - eapply (Logic.triple_bind _ _ _
              (fun _ => Bal (p + Z.of_nat (length matches)) 0 0)).
    + eapply Logic.triple_weaken;
        [|apply (handle_match_books (p + Z.of_nat (length matches))
                   channels item w m Hk)].
      intros world Hw. simpl length in Hw.
      now replace (p + Z.of_nat (length matches) + 1)
        with (p + Z.of_nat (S (length matches))) by lia.
    + intros _. apply IH.
Qed.

Lemma handle_warning_safe (locations : list Location.t)
    (channels : list Channel.t) (item : NowcastListItem.t)
    (w : WarningInfo.t) :
  Z.of_nat (length channels) = K ->
  safe (Bal 0 0 0)
    (AlertEngine.handle_warning schema env locations channels item w).
Proof.
  intros Hk. unfold AlertEngine.handle_warning.
  destruct (WarningInfo.is_expired w); [apply Safe.safe_ret|].
  eapply (Logic.triple_bind _ _ _
            (fun _ => Bal (0 + AlertEngine.len
                                 (Matcher.match_locations w locations)) 0 0)).
  - intros world Hw. unfold Ledger.balanced in *. cbn.
    destruct Hw as (Ha & Hd & Hm & Hs & Hc).
    repeat split; try assumption; lia.
  - intros _. apply (match_loop_books channels item w _ Hk 0).
Qed.

(** *** The loops and the cycle *)

Lemma returns_is_duplicate (c : string) (l : Z) (db : Store.t) :
  exists a, fst (StateManager.is_duplicate c l db) = Ok a.
Proof. rewrite StateFacts.is_duplicate_run. now eexists. Qed.

Lemma returns_mark_expired_alerts (now : string) (db : Store.t) :
  exists a, fst (StateManager.mark_expired_alerts now db) = Ok a.
Proof. rewrite SweepFacts.mark_expired_alerts_run. now eexists. Qed.

Lemma returns_expire_trials (now : string) (db : Store.t) :
  exists a, fst (StateManager.expire_trials now db) = Ok a.
Proof.
  unfold StateManager.expire_trials, bind, get, modify, ret.
  destruct (List.filter _ _); now eexists.
Qed.

Ltac books_step :=
  lazymatch goal with
  | |- safe _ (bind _ _) => apply Safe.safe_bind; [|intros ?]
  | |- safe _ (try_except _ _) => apply Safe.safe_try; [|intros ?]
  | |- safe _ (for_ _ _) => apply Safe.safe_for_; intros ?
  | |- safe _ (for_each _ _ _) => apply Safe.safe_for_each; intros ? ?
  | |- safe _ (ret _) => apply Safe.safe_ret
  | |- safe _ get => apply Safe.safe_get
  | |- safe _ (outside _) => apply tick_safe
  | |- safe _ (AlertEngine.update_summary _) =>
      apply summary_safe; intros ?; repeat split; reflexivity
  | |- safe _ (modify (World.set_last_poll _)) => apply last_poll_safe
  | |- safe _ (modify (World.set_last_poll_result _)) =>
      apply last_poll_result_safe
  | |- safe _ (on_store (StateManager.log_activity _ _ _)) =>
      apply on_store_safe;
      [apply log_activity_booked | intros ?; now eexists]
  | |- safe _ (on_store StateManager.get_enabled_locations) =>
      apply on_store_safe;
      [apply get_enabled_locations_booked | intros ?; now eexists]
  | |- safe _ (on_store (StateManager.get_active_trials _)) =>
      apply on_store_safe;
      [apply get_active_trials_booked | intros ?; now eexists]
  | |- safe _ (on_store (StateManager.expire_trials _)) =>
      apply on_store_safe;
      [apply expire_trials_booked | apply returns_expire_trials]
  | |- safe _ (on_store (StateManager.mark_expired_alerts _)) =>
      apply on_store_safe;
      [apply mark_expired_alerts_booked | apply returns_mark_expired_alerts]
  | |- safe _ (if ?b then _ else _) => destruct b
  | |- safe _ (match ?x with _ => _ end) => destruct x
  | |- keeps _ (bind _ _) => apply Logic.keeps_bind; [|intros ?]
  | |- keeps _ (lift_result _) => apply Logic.keeps_lift_result
  | |- keeps _ (on_store StateManager.get_enabled_channels) =>
      apply on_store_keeps, get_enabled_channels_booked
  | |- keeps _ (if ?b then _ else _) => destruct b
  | |- keeps _ (match ?x with _ => _ end) => destruct x
  | |- keeps _ (ret _) => apply Safe.safe_keeps
  | |- keeps _ get => apply Safe.safe_keeps
  | |- keeps _ (outside _) => apply Safe.safe_keeps
  | |- keeps _ (modify _) => apply Safe.safe_keeps
  | |- keeps _ (AlertEngine.update_summary _) => apply Safe.safe_keeps
  | |- keeps _ (on_store _) => apply Safe.safe_keeps
  | |- keeps _ (for_ _ _) => apply Safe.safe_keeps
  | |- keeps _ (for_each _ _ _) => apply Safe.safe_keeps
  | |- keeps _ (try_except _ _) => apply Safe.safe_keeps
  end.

Lemma handle_item_safe (locations : list Location.t)
    (channels : list Channel.t) (item : NowcastListItem.t) :
  Z.of_nat (length channels) = K ->
  safe (Bal 0 0 0)
    (AlertEngine.handle_item schema env locations channels item).
Proof.
  intros Hk. unfold AlertEngine.handle_item.
  repeat books_step. now apply handle_warning_safe.
Qed.

Lemma process_trials_safe (nowcast : list NowcastListItem.t) :
  safe (Bal 0 0 0) (AlertEngine._process_trials env nowcast).
Proof. unfold AlertEngine._process_trials. repeat books_step. Qed.

Lemma expire_trials_safe : safe (Bal 0 0 0) (AlertEngine._expire_trials env).
Proof. unfold AlertEngine._expire_trials. repeat books_step. Qed.

Lemma channels_length (rows : list NotificationChannel.t)
    (acc : list Channel.t) (db : Store.t) :
  match
    fst (for_each rows acc
           (fun result row =>
              match Py.json_loads (NotificationChannel.config row) with
              | Some cfg =>
                  ret (result ++
                         [ {| Channel.id := Some (NotificationChannel.id row);
                              Channel.channel_type :=
                                Some (NotificationChannel.channel_type row);
                              Channel.config := Some cfg |} ])
              | None => raise (Exception "JSONDecodeError")
              end) db)
  with
  | Ok channels => length channels = (length acc + length rows)%nat
  | Raise _ => True
  end.
Proof.
  revert acc. induction rows as [|row rows IH]; intros acc.
  - simpl. lia.
  - simpl for_each. unfold bind at 1.
    destruct (Py.json_loads (NotificationChannel.config row)).
    + unfold ret at 1. specialize (IH (acc ++
        [ {| Channel.id := Some (NotificationChannel.id row);
             Channel.channel_type :=
               Some (NotificationChannel.channel_type row);
             Channel.config := Some j |} ])).
      destruct (fst (for_each rows _ _ db)); [|exact I].
      rewrite IH, List.length_app. simpl. lia.
    + exact I.
Qed.

(** The channels the cycle sends to are the enabled rows, one each. *)
Lemma channels_counted :
  triple (Bal 0 0 0) (on_store StateManager.get_enabled_channels)
    (fun channels w' => Bal 0 0 0 w' /\ Z.of_nat (length channels) = K)
    (fun _ => Bal 0 0 0).
Proof.
  intros world Hw. unfold on_store.
  pose proof (get_enabled_channels_reads (World.store world)) as Hread.
  pose proof (channels_length
                (List.filter NotificationChannel.enabled
                   (Store.notification_channels (World.store world)))
                [] (World.store world)) as Hlen.
  unfold StateManager.get_enabled_channels in *.
  unfold bind at 1 in Hread. unfold bind at 1. unfold get in *.
  destruct (for_each _ [] _ (World.store world)) as [r db'].
  simpl in Hread, Hlen. subst db'.
  assert (Hsame : Bal 0 0 0
            (World.with_store (fun _ => World.store world) world))
    by exact Hw.
  destruct r as [channels|e]; [|exact Hsame].
  split; [exact Hsame|].
  destruct Hw as (_ & _ & _ & _ & Hc). unfold Ledger.enabled_channels.
  now rewrite <- Hc, Hlen.
Qed.

Lemma triple_assume {A} (fact : Prop) (P : World.t -> Prop)
    (m : M World.t A) (Q : A -> World.t -> Prop)
    (E : exn -> World.t -> Prop) :
  (fact -> triple P m Q E) -> triple (fun w => P w /\ fact) m Q E.
Proof. intros H w [Hw Hf]. now apply H. Qed.

Lemma poll_body_keeps (nowcast : list NowcastListItem.t)
    (locations : list Location.t) :
  keeps (Bal 0 0 0) (AlertEngine.poll_body schema env nowcast locations).
Proof.
  unfold AlertEngine.poll_body.
  eapply Logic.triple_bind; [apply channels_counted|].
  intros channels. apply triple_assume. intros Hk. cbv beta.
  match goal with |- triple _ ?code _ _ => change (keeps (Bal 0 0 0) code) end.
  apply Safe.safe_keeps.
  repeat books_step;
    first [ now apply handle_item_safe
          | apply process_trials_safe
          | apply expire_trials_safe ].
Qed.

(** The whole cycle: it returns, with the books balanced. *)
Lemma cycle_balanced (w : World.t) :
  alerts0 = Z.of_nat (length (Store.alerts (World.store w))) ->
  deliveries0 = Z.of_nat (length (Store.alert_deliveries (World.store w))) ->
  channels0 = Store.notification_channels (World.store w) ->
  match AlertEngine._run_poll_cycle schema env w with
  | (Ok summary, w') => summary = World.summary w' /\ Bal 0 0 0 w'
  | (Raise _, _) => False
  end.
Proof.
  intros Ha Hd Hc. unfold AlertEngine._run_poll_cycle.
  unfold bind at 1. unfold outside at 1.
  unfold bind at 1. unfold modify at 1.
  unfold bind at 1. unfold modify at 1.
  unfold bind at 1.
  match goal with
  | |- match (let (_, _) := try_except ?body ?handler ?start in _) with
       | _ => _ end =>
      assert (Hsafe : safe (Bal 0 0 0) (try_except body handler));
      [|assert (Hstart : Bal 0 0 0 start);
        [|specialize (Hsafe start Hstart);
          destruct (try_except body handler start) as [[[]|e] w']]]
  end.
  - apply Safe.safe_try.
    + repeat books_step. apply poll_body_keeps.
    + intros exc. repeat books_step.
  - unfold Ledger.balanced. cbn. rewrite Ha, Hd, Hc.
    repeat split; lia.
  - cbn. split; [reflexivity | exact Hsafe].
  - contradiction.
Qed.

End Books.
End LedgerFacts.

(** ** What a poll cycle does to the alerts table *)

Module CycleFacts.
Section Generic.
Context `{RT : Py.Runtime} (schema : Schema.t) (env : Env.t).
Context (J : list Alert.t -> Prop).

(** [J] survives the insert of a fresh active row and the expiry sweep. *)
Hypothesis J_insert :
  forall rows row l,
    J rows ->
    Alert.matched_location_id row = Some l ->
    existsb (StateManager.same_key (Alert.bmkg_alert_code row) l) rows = false ->
    Alert.status row = "active" ->
    Alert.id row = Store.next_id (map Alert.id rows) ->
    J (rows ++ [row]).

Hypothesis J_sweep :
  forall now db,
    J (Store.alerts db) ->
    J (Store.alerts (snd (StateManager.mark_expired_alerts now db))).

Local Abbreviation Js := (fun db : Store.t => J (Store.alerts db)).
Local Abbreviation Jw := (on_world Js).

Lemma sweep_keeps (now : string) :
  keeps Js (StateManager.mark_expired_alerts now).
Proof.
  intros db Hdb. pose proof (J_sweep now db Hdb) as H.
  now destruct (StateManager.mark_expired_alerts now db) as [[a|e] db'].
Qed.

Lemma store_keeps (w : WarningInfo.t) (m : MatchResult.t) (c : string) :
  triple
    (fun db =>
       J (Store.alerts db)
       /\ existsb
            (StateManager.same_key c (Location.id (MatchResult.location m)))
            (Store.alerts db) = false)
    (StateManager.store_alert schema w m c)
    (fun _ => Js) (fun _ => Js).
Proof.
  intros db [Hj Hfree].
  destruct (StateManager.store_alert schema w m c db) as [[alert_id|e] db']
    eqn:Hrun.
  - destruct (StateMore.store_alert_ok schema w m c db db' alert_id Hrun)
      as (row & -> & Hc & Hl & Hs & Hid & Hnext).
    simpl. apply (J_insert _ _ _ Hj Hl); [now rewrite Hc | exact Hs | congruence].
  - revert Hrun. rewrite (surjective_pairing (StateManager.store_alert _ _ _ _ _)).
    destruct (StateFacts.store_alert_inserts schema w m c db)
      as (alert_id & row & -> & _).
    { rewrite Hfree. apply andb_false_r. }
    discriminate.
Qed.

Ltac cycle_step :=
  lazymatch goal with
  | |- keeps _ (bind _ _) => apply Logic.keeps_bind; [|intros ?]
  | |- keeps _ (try_except _ _) => apply Logic.keeps_try; [|intros ?]
  | |- keeps _ (for_ _ _) => apply Logic.keeps_for_; intros ?
  | |- keeps _ (for_each _ _ _) => apply Logic.keeps_for_each; intros ? ?
  | |- keeps _ (ret _) => apply Logic.keeps_ret
  | |- keeps _ (raise _) => apply Logic.keeps_raise
  | |- keeps _ get => apply Logic.keeps_get
  | |- keeps _ (lift_result _) => apply Logic.keeps_lift_result
  | |- keeps _ (outside _) => apply (Logic.keeps_outside Js)
  | |- keeps _ (AlertEngine.update_summary _) =>
      apply (Logic.keeps_with_summary Js)
  | |- keeps _ (modify (World.with_summary _)) =>
      apply (Logic.keeps_with_summary Js)
  | |- keeps _ (modify (World.set_last_poll _)) =>
      apply (Logic.keeps_set_last_poll Js)
  | |- keeps _ (modify (World.set_last_poll_result _)) =>
      apply (Logic.keeps_set_last_poll_result Js)
  | |- keeps _ (on_store _) =>
      apply (Logic.keeps_on_store Js);
      first [ apply sweep_keeps | apply (Logic.keeps_alerts_fixed J) ]
  | |- keeps _ (if ?b then _ else _) => destruct b
  | |- keeps _ (match ?x with _ => _ end) => destruct x
  end.

Ltac cycle_auto :=
  repeat cycle_step;
  auto using EngineFacts.is_duplicate_fixed, EngineFacts.log_activity_fixed,
    EngineFacts.get_enabled_locations_fixed,
    EngineFacts.get_enabled_channels_fixed,
    EngineFacts.get_active_trials_fixed, EngineFacts.expire_trials_fixed,
    EngineFacts.send_fixed.

Lemma handle_match_carries (channels : list Channel.t)
    (item : NowcastListItem.t) (w : WarningInfo.t) (m : MatchResult.t) :
  keeps Jw (AlertEngine.handle_match schema env channels item w m).
Proof.
  intros world Hworld. unfold AlertEngine.handle_match.
  unfold bind at 1. unfold on_store at 1.
  rewrite StateFacts.is_duplicate_run.
  destruct (existsb _ (Store.alerts (World.store world))) eqn:Hdup.
  - exact Hworld.
  - eapply (Logic.triple_bind
              (fun w' =>
                 Jw w'
                 /\ existsb
                      (StateManager.same_key (NowcastListItem.code item)
                         (Location.id (MatchResult.location m)))
                      (Store.alerts (World.store w')) = false)
              _ _ (fun _ => Jw) (fun _ => Jw) (fun _ => Jw)).
    + intros w' Hw'. unfold on_store.
      pose proof (store_keeps w m (NowcastListItem.code item)
                    (World.store w') Hw') as H.
      destruct (StateManager.store_alert schema w m (NowcastListItem.code item)
                  (World.store w')) as [[a|e] db']; exact H.
    + intros alert_id.
      match goal with |- triple _ ?code _ _ => change (keeps Jw code) end.
      unfold AlertEngine.notify_channel. cycle_auto.
    + split; [exact Hworld | exact Hdup].
Qed.

(** A property of the alerts table that survives insert and sweep
    survives the whole cycle, however it ends. *)
Lemma cycle_carries :
  keeps Jw (AlertEngine._run_poll_cycle schema env).
Proof.
  unfold AlertEngine._run_poll_cycle, AlertEngine.poll_body,
    AlertEngine.handle_item, AlertEngine.handle_warning,
    AlertEngine._process_trials, AlertEngine._expire_trials.
  cycle_auto. apply handle_match_carries.
Qed.

End Generic.

(** *** Distinct ids *)

Lemma ids_insert (rows : list Alert.t) (row : Alert.t) :
  NoDup (map Alert.id rows) ->
  Alert.id row = Store.next_id (map Alert.id rows) ->
  NoDup (map Alert.id (rows ++ [row])).
Proof.
  intros Hnd Hid. rewrite map_app. simpl.
  apply NoDup_app. split; [exact Hnd|]. split.
  - intros i Hi Hin. apply list_elem_of_In in Hi, Hin.
    destruct Hin as [<-|[]].
    pose proof (StateFacts.next_id_above _ _ Hi). lia.
  - apply NoDup_singleton.
Qed.

Lemma ids_sweep (now : string) (db : Store.t) :
  map Alert.id (Store.alerts (snd (StateManager.mark_expired_alerts now db))) =
  map Alert.id (Store.alerts db).
Proof.
  rewrite SweepFacts.mark_expired_alerts_run. simpl. rewrite map_map.
  apply map_ext. intros a. now destruct (existsb _ _).
Qed.

(** *** Statuses and locations *)

Lemma wellformed_sweep (now : string) (db : Store.t) (P : Alert.t -> Prop) :
  (forall a, P a -> P (Alert.set_status "expired" a)) ->
  Forall P (Store.alerts db) ->
  Forall P (Store.alerts (snd (StateManager.mark_expired_alerts now db))).
Proof.
  intros HP Hall. rewrite SweepFacts.mark_expired_alerts_run. simpl.
  apply Forall_forall. intros a' Ha'.
  apply list_elem_of_In, in_map_iff in Ha' as (a & <- & Ha).
  rewrite Forall_forall in Hall.
  specialize (Hall a (proj2 (list_elem_of_In _ _) Ha)).
  destruct (existsb _ _); auto.
Qed.

(** *** Growth *)

Lemma advanced_trans_sweep (now : string) (a0 a : Alert.t) :
  Rows.advanced a0 a ->
  Rows.advanced a0
    (if StateManager.is_overdue now a then Alert.set_status "expired" a else a).
Proof.
  intros [->|[Hact ->]].
  - destruct (StateManager.is_overdue now a0) eqn:Hp; [right | now left].
    apply SweepFacts.is_overdue_spec in Hp as [Hs _]. auto.
  - rewrite SweepFacts.is_overdue_expired. right. auto.
Qed.

Lemma grown_refl (rows : list Alert.t) : Rows.grown rows rows.
Proof.
  exists rows, []. split; [now rewrite app_nil_r|].
  induction rows; constructor; [now left | assumption].
Qed.

Lemma grown_insert (rows0 rows : list Alert.t) (row : Alert.t) :
  Rows.grown rows0 rows -> Rows.grown rows0 (rows ++ [row]).
Proof.
  intros (old & new & -> & Hadv). exists old, (new ++ [row]).
  split; [now rewrite app_assoc | exact Hadv].
Qed.

Lemma grown_sweep (now : string) (rows0 : list Alert.t) (db : Store.t) :
  NoDup (map Alert.id (Store.alerts db)) ->
  Rows.grown rows0 (Store.alerts db) ->
  Rows.grown rows0
    (Store.alerts (snd (StateManager.mark_expired_alerts now db))).
Proof.
  intros Hnd (old & new & Hrows & Hadv).
  rewrite (StateMore.sweep_rows now db Hnd), Hrows, map_app.
  eexists _, _. split; [reflexivity|].
  clear Hrows. induction Hadv as [|a0 a rows0 old Ha _ IH]; simpl;
    constructor; [now apply advanced_trans_sweep | exact IH].
Qed.

End CycleFacts.

(** ** The poll cycle as a whole *)

Module EngineMore.
Section WithRuntime.
Context `{RT : Py.Runtime}.

(** X7.  [_run_poll_cycle] lets no exception out: whatever the upstream,
    the senders and the clocks answer, and whatever the tables hold, it
    returns, and what it returns is the summary of that cycle. *)
Theorem run_poll_cycle_returns (schema : Schema.t) (env : Env.t)
    (w : World.t) :
  exists summary w',
    AlertEngine._run_poll_cycle schema env w = (Ok summary, w')
    /\ summary = World.summary w'.
Proof.
  pose proof (LedgerFacts.cycle_balanced schema env _ _ _ w
                eq_refl eq_refl eq_refl) as H.
  destruct (AlertEngine._run_poll_cycle schema env w) as [[summary|e] w'];
    [|contradiction].
  exists summary, w'. split; [reflexivity | apply H].
Qed.

(** X8.  The counters of the summary agree with the tables.  After a poll
    cycle the alerts table is longer by exactly [new_alerts]; the
    deliveries table is longer by exactly [new_alerts] times the number of
    enabled channels (one row per new alert and channel); every match was
    either stored or skipped as a duplicate
    ([matches_found = new_alerts + duplicates_skipped]); and
    [notifications_sent] is at most the number of those deliveries. *)
Theorem run_poll_cycle_books (schema : Schema.t) (env : Env.t)
    (w : World.t) :
  let summary := World.summary (snd (AlertEngine._run_poll_cycle schema env w)) in
  let db := World.store w in
  let db' := World.store (snd (AlertEngine._run_poll_cycle schema env w)) in
  let channels :=
    Z.of_nat
      (length (List.filter NotificationChannel.enabled
                 (Store.notification_channels db))) in
  Z.of_nat (length (Store.alerts db'))
    = Z.of_nat (length (Store.alerts db)) + Summary.new_alerts summary
  /\ Z.of_nat (length (Store.alert_deliveries db'))
     = Z.of_nat (length (Store.alert_deliveries db))
       + Summary.new_alerts summary * channels
  /\ Summary.matches_found summary
     = Summary.new_alerts summary + Summary.duplicates_skipped summary
  /\ 0 <= Summary.notifications_sent summary
       <= Summary.new_alerts summary * channels.
Proof.
  pose proof (LedgerFacts.cycle_balanced schema env _ _ _ w
                eq_refl eq_refl eq_refl) as H.
  destruct (AlertEngine._run_poll_cycle schema env w) as [[summary|e] w'];
    [|contradiction].
  destruct H as (_ & Ha & Hd & Hm & Hs & _). cbn.
  unfold Ledger.enabled_channels in *. repeat split; lia.
Qed.

(** X9.  In every store the engine can reach, the alerts have distinct
    ids, each has a location id, and each has status [active] or
    [expired]: the engine never writes [cancelled] and never stores an
    alert without a location. *)
Theorem reachable_rows (schema : Schema.t) (db : Store.t) :
  Reach.reachable schema db ->
  NoDup (map Alert.id (Store.alerts db))
  /\ Forall
       (fun a => Rows.engine_status a /\ Alert.matched_location_id a <> None)
       (Store.alerts db).
Proof.
  intros Hreach.
  induction Hreach as [db Hfresh | env w r w' _ IH Hrun | db db' _ IH Hsame].
  - rewrite Hfresh. split; [apply NoDup_nil_2 | constructor].
  - pose proof (CycleFacts.cycle_carries schema env
                  (fun rows =>
                     NoDup (map Alert.id rows)
                     /\ Forall
                          (fun a => Rows.engine_status a
                                    /\ Alert.matched_location_id a <> None)
                          rows)) as Hkeeps.
    assert (H : keeps
              (on_world (fun db =>
                 NoDup (map Alert.id (Store.alerts db))
                 /\ Forall
                      (fun a => Rows.engine_status a
                                /\ Alert.matched_location_id a <> None)
                      (Store.alerts db)))
              (AlertEngine._run_poll_cycle schema env)).
    { apply Hkeeps.
      - intros rows row l [Hnd Hall] Hl _ Hs Hid. split.
        + now apply CycleFacts.ids_insert.
        + apply Forall_app. split; [exact Hall|].
          constructor; [|constructor]. split; [now left | congruence].
      - intros now db0 [Hnd Hall]. split.
        + now rewrite CycleFacts.ids_sweep.
        + apply CycleFacts.wellformed_sweep; [|exact Hall].
          intros a [_ Hl]. split; [now right | exact Hl]. }
    specialize (H w IH). rewrite Hrun in H. now destruct r.
  - now rewrite Hsame.
Qed.

(** X10.  A poll cycle never deletes, reorders or rewrites an alert: on a
    table with distinct ids, the rows from before the cycle are all still
    there afterwards, in the same places, each one unchanged or moved from
    [active] to [expired]; whatever else the table holds afterwards was
    appended; and the ids are still distinct. *)
Theorem run_poll_cycle_grows (schema : Schema.t) (env : Env.t) (w : World.t) :
  NoDup (map Alert.id (Store.alerts (World.store w))) ->
  let rows := Store.alerts (World.store w) in
  let rows' :=
    Store.alerts (World.store (snd (AlertEngine._run_poll_cycle schema env w)))
  in
  NoDup (map Alert.id rows')
  /\ exists old new,
       rows' = old ++ new
       /\ Forall2
            (fun a a' =>
               a' = a
               \/ (Alert.status a = "active"
                   /\ a' = Alert.set_status "expired" a))
            rows old.
Proof.
  intros Hnd rows rows'.
  assert (H : keeps
            (on_world (fun db =>
               NoDup (map Alert.id (Store.alerts db))
               /\ Rows.grown rows (Store.alerts db)))
            (AlertEngine._run_poll_cycle schema env)).
  { apply (CycleFacts.cycle_carries schema env
             (fun rows1 =>
                NoDup (map Alert.id rows1) /\ Rows.grown rows rows1)).
    - intros rows1 row l [Hnd1 Hg] _ _ _ Hid. split.
      + now apply CycleFacts.ids_insert.
      + now apply CycleFacts.grown_insert.
    - intros now db0 [Hnd1 Hg]. split.
      + now rewrite CycleFacts.ids_sweep.
      + now apply CycleFacts.grown_sweep. }
  specialize (H w (conj Hnd (CycleFacts.grown_refl rows))).
  unfold rows'.
  destruct (AlertEngine._run_poll_cycle schema env w) as [[s|e] w'];
    exact H.
Qed.

End WithRuntime.
End EngineMore.

(** ** Cycles that end early *)

Module EarlyExit.
Section WithRuntime.
Context `{RT : Py.Runtime}.


(** X11.  When the upstream list is empty the cycle stops there: it sets
    the result to ["no warnings"], logs one [poll_completed] entry and
    touches nothing else.  The expiry sweep and the trial expiry do not
    run, so overdue alerts stay [active] and lapsed trials stay
    unnotified. *)
Theorem no_warnings_stops (schema : Schema.t) (env : Env.t) (w : World.t) :
  Env.get_nowcast_list env (S (World.calls w)) = Ok [] ->
  let w' := snd (AlertEngine._run_poll_cycle schema env w) in
  fst (AlertEngine._run_poll_cycle schema env w)
  = Ok (Summary.set_warnings_fetched 0 Summary.zero)
  /\ World._last_poll_result w' = Some "no warnings"
  /\ World.store w'
     = Store.with_activity
         (fun rows =>
            rows ++
              [ {| ActivityLogEntry.id :=
                     Store.next_id (map ActivityLogEntry.id rows);
                   ActivityLogEntry.event_type := "poll_completed";
                   ActivityLogEntry.message := "No active warnings found";
                   ActivityLogEntry.details := "" |} ])
         (World.store w)
  /\ Store.alerts (World.store w') = Store.alerts (World.store w)
  /\ Store.trial_subscriptions (World.store w')
     = Store.trial_subscriptions (World.store w).
Proof.
  intros Hlist.
  unfold AlertEngine._run_poll_cycle, bind, outside, modify, try_except,
    lift_result, AlertEngine.update_summary, on_store, get, ret. cbn.
  rewrite Hlist. cbn. repeat split.
Qed.

(** X12.  When no location is enabled the cycle stops after reading the
    list: it sets the result to ["no locations configured"] and leaves the
    store exactly as it was, without so much as an activity entry; the
    expiry sweep and the trial pipeline do not run. *)
Theorem no_locations_stops (schema : Schema.t) (env : Env.t) (w : World.t)
    (item : NowcastListItem.t) (items : list NowcastListItem.t) :
  Env.get_nowcast_list env (S (World.calls w)) = Ok (item :: items) ->
  List.filter Location.enabled (Store.locations (World.store w)) = [] ->
  let w' := snd (AlertEngine._run_poll_cycle schema env w) in
  fst (AlertEngine._run_poll_cycle schema env w)
  = Ok (Summary.set_warnings_fetched (AlertEngine.len (item :: items))
          Summary.zero)
  /\ World._last_poll_result w' = Some "no locations configured"
  /\ World.store w' = World.store w.
Proof.
  intros Hlist Hnone.
  unfold AlertEngine._run_poll_cycle, bind, outside, modify, try_except,
    lift_result, AlertEngine.update_summary, on_store, get, ret,
    StateManager.get_enabled_locations. cbn.
  rewrite Hlist. cbn. unfold bind, get, ret. cbn. rewrite Hnone. cbn.
  repeat split.
Qed.

(** X13.  When the upstream list call fails the cycle records the error
    and nothing else: the result is ["error: "] and the message, one
    [poll_error] entry is logged, every counter of the summary is zero and
    no other table changes. *)
Theorem list_failure_is_contained (schema : Schema.t) (env : Env.t)
    (w : World.t) (exc : exn) :
  Env.get_nowcast_list env (S (World.calls w)) = Raise exc ->
  let w' := snd (AlertEngine._run_poll_cycle schema env w) in
  fst (AlertEngine._run_poll_cycle schema env w) = Ok Summary.zero
  /\ World._last_poll_result w' = Some ("error: " +:+ exn_str exc)
  /\ World.store w'
     = Store.with_activity
         (fun rows =>
            rows ++
              [ {| ActivityLogEntry.id :=
                     Store.next_id (map ActivityLogEntry.id rows);
                   ActivityLogEntry.event_type := "poll_error";
                   ActivityLogEntry.message :=
                     "Poll cycle failed: " +:+ exn_str exc;
                   ActivityLogEntry.details := "" |} ])
         (World.store w).
Proof.
  intros Hlist.
  unfold AlertEngine._run_poll_cycle, bind, outside, modify, try_except,
    lift_result, AlertEngine.update_summary, on_store, get, ret. cbn.
  rewrite Hlist. cbn. repeat split.
Qed.



End WithRuntime.
End EarlyExit.

(** ** The trial pipeline *)

Module TrialPipeline.
Section WithRuntime.
Context `{RT : Py.Runtime} (env : Env.t).

Section Frame.
Context (db0 : Store.t).

Local Abbreviation Same := (fun w : World.t => World.store w = db0).

Lemma tick_same {A} (answer : nat -> A) : safe Same (outside answer).
Proof. intros w Hw. exact Hw. Qed.

Lemma active_trials_same (now : string) :
  safe Same (on_store (StateManager.get_active_trials now)).
Proof. intros w Hw. exact Hw. Qed.

(** [_process_trials] only reads the store, and swallows every failure of
    the upstream and of the sender. *)
Lemma process_trials_same (nowcast : list NowcastListItem.t) :
  safe Same (AlertEngine._process_trials env nowcast).
Proof.
  unfold AlertEngine._process_trials.
  repeat lazymatch goal with
    | |- safe _ (bind _ _) => apply Safe.safe_bind; [|intros ?]
    | |- safe _ (for_each _ _ _) => apply Safe.safe_for_each; intros ? ?
    | |- safe _ (ret _) => apply Safe.safe_ret
    | |- safe _ (outside _) => apply tick_same
    | |- safe _ (on_store _) => apply active_trials_same
    | |- safe _ (if ?b then _ else _) => destruct b
    | |- safe _ (match ?x with _ => _ end) => destruct x
    end.
Qed.

End Frame.

(** X15.  [_process_trials] never writes to the store and lets no
    exception out, whatever the upstream and the Telegram calls answer;
    with no bot token, or an empty one, it returns 0 without a single call
    to the outside. *)
Theorem process_trials_reads_only (nowcast : list NowcastListItem.t)
    (w : World.t) :
  (exists sent w',
     AlertEngine._process_trials env nowcast w = (Ok sent, w')
     /\ World.store w' = World.store w)
  /\ (AlertEngine.token_truthy (Env.telegram_bot_token env) = false ->
      AlertEngine._process_trials env nowcast w = (Ok 0, w)).
Proof.
  split.
  - pose proof (process_trials_same (World.store w) nowcast w eq_refl) as H.
    destruct (AlertEngine._process_trials env nowcast w) as [[sent|e] w'];
      [|contradiction].
    now exists sent, w'.
  - unfold AlertEngine._process_trials, AlertEngine.token_truthy.
    destruct (Env.telegram_bot_token env) as [token|]; [|reflexivity].
    now intros ->.
Qed.

(** The farewell loop: one call to the outside per trial, nothing else. *)
Lemma farewell_loop (trials : list Trial.t) (w : World.t) :
  for_ trials
    (fun _ => bind (outside (Env.send_raw env)) (fun _ => ret tt)) w
  = (Ok tt, Nat.iter (length trials) World.tick w).
Proof.
  revert w. induction trials as [|t trials IH]; intros w; simpl for_.
  - reflexivity.
  - unfold bind at 1. unfold bind at 1. unfold outside at 1. unfold ret at 1.
    rewrite IH. f_equal. simpl length. now rewrite Nat.iter_succ_r.
Qed.

Lemma ticks_store (n : nat) (w : World.t) :
  World.store (Nat.iter n World.tick w) = World.store w
  /\ World.calls (Nat.iter n World.tick w) = (n + World.calls w)%nat.
Proof.
  induction n as [|n [IHs IHc]]; simpl; [auto|].
  split; [exact IHs | now rewrite IHc].
Qed.

(** X16.  [_expire_trials] flags and counts the lapsed trials whether or
    not a farewell can be sent.  It returns the number of rows
    [expire_trials] handed back and leaves the store as [expire_trials]
    left it; with a bot token it makes one Telegram call per lapsed trial
    and ignores how the call ends; with none it makes no call at all, so
    those trials are flagged as notified without ever being told. *)
Theorem expire_trials_counts (w : World.t) :
  let now := Env.current_timestamp env (World.calls w) in
  let lapsed :=
    List.filter (StateManager.is_lapsed now)
      (Store.trial_subscriptions (World.store w)) in
  exists w',
    AlertEngine._expire_trials env w = (Ok (AlertEngine.len lapsed), w')
    /\ World.store w' = snd (StateManager.expire_trials now (World.store w))
    /\ World.calls w'
       = if AlertEngine.token_truthy (Env.telegram_bot_token env)
         then (length lapsed + S (World.calls w))%nat
         else S (World.calls w).
Proof.
  intros now lapsed.
  unfold AlertEngine._expire_trials.
  unfold bind at 1. unfold outside at 1.
  unfold bind at 1. unfold on_store at 1.
  cbn [World.store World.tick World.calls].
  fold now.
  assert (Hrun : StateManager.expire_trials now (World.store w)
                 = (Ok lapsed,
                    snd (StateManager.expire_trials now (World.store w)))).
  { unfold StateManager.expire_trials, bind, get, modify, ret. fold lapsed.
    now destruct lapsed. }
  rewrite Hrun.
  destruct lapsed as [|t lapsed'] eqn:Hl.
  - eexists. split; [reflexivity|]. split; [reflexivity|].
    cbn. now destruct (AlertEngine.token_truthy _).
  - rewrite <- Hl. unfold AlertEngine.token_truthy.
    destruct (Env.telegram_bot_token env) as [token|].
    + destruct (Py.truthy token); cbn [negb].
      * cbv zeta. unfold bind at 1. rewrite farewell_loop.
        eexists. split; [reflexivity|].
        destruct (ticks_store (length lapsed)
                    (World.with_store
                       (fun _ => snd (StateManager.expire_trials now
                                        (World.store w)))
                       (World.tick w))) as [Hs Hc].
        split; [exact Hs | exact Hc].
      * eexists. split; [reflexivity|]. split; reflexivity.
    + eexists. split; [reflexivity|]. split; reflexivity.
Qed.

End WithRuntime.
End TrialPipeline.

(** ** The webhook sender *)

Module WebhookFacts.

Lemma build_payload_raises (w : WarningInfo.t) (m : MatchResult.t)
    (is_trial : bool) :
  exists e, WebhookSender._build_payload w m is_trial = Raise e.
Proof. now eexists. Qed.

Lemma send_cases (post : WebhookSender.Post) (w : WarningInfo.t)
    (m : MatchResult.t) (config : Json) :
  WebhookSender.send post w m config = Ok false
  \/ exists e, WebhookSender.send post w m config = Raise e.
Proof.
  unfold WebhookSender.send.
  destruct (PyMore.get config "webhook_url" (JStr "")) as [url|e]; simpl;
    [|right; now eexists].
  destruct (PyMore.truthy url); simpl; [|now left].
  destruct (PyMore.get config "headers" (JObj [])) as [headers|e]; simpl;
    right; now eexists.
Qed.

Lemma webhook_lookup (senders : Senders.t) :
  NotificationDispatcher.sender_map senders !! "webhook" =
  Some (Senders.webhook senders).
Proof. reflexivity. Qed.

End WebhookFacts.

Module WebhookProps.

(** X17.  The webhook sender never reports a delivery: whatever the
    channel configuration and whatever the network would answer, [send]
    returns [False] or raises, and its answer does not depend on the
    network call, which is never reached. *)
Theorem send_never_succeeds (post : WebhookSender.Post) (w : WarningInfo.t)
    (m : MatchResult.t) (config : Json) :
  WebhookSender.send post w m config <> Ok true
  /\ forall post' : WebhookSender.Post,
       WebhookSender.send post' w m config = WebhookSender.send post w m config.
Proof.
  split.
  - destruct (WebhookFacts.send_cases post w m config) as [->|[e ->]];
      discriminate.
  - intros post'. unfold WebhookSender.send.
    destruct (PyMore.get config "webhook_url" (JStr "")) as [url|e]; simpl;
      [|reflexivity].
    destruct (PyMore.truthy url); simpl; [|reflexivity].
    now destruct (PyMore.get config "headers" (JObj [])).
Qed.

Section WithRuntime.
Context `{RT : Py.Runtime}.

(** X18.  Through the dispatcher, an alert sent to a channel of type
    webhook is never delivered: [send] answers [False] and logs exactly
    one delivery row, whose status is not sent. *)
Theorem webhook_channel_never_delivers (now : Z) (senders : Senders.t)
    (post : WebhookSender.Post) (alert_id : Z) (w : WarningInfo.t)
    (m : MatchResult.t) (ch : Channel.t) (db : Store.t) :
  Channel.channel_type ch = Some "webhook" ->
  Senders.webhook senders = WebhookSender.send post ->
  exists row,
    NotificationDispatcher.send now senders alert_id w m ch db =
      (Ok false, Store.with_deliveries (fun rows => rows ++ [row]) db)
    /\ AlertDelivery.alert_id row = alert_id
    /\ AlertDelivery.status row <> "sent".
Proof.
  intros Hty Hsender.
  destruct (DispatchFacts.is_quiet_hours_run now (WarningInfo.severity w) db)
    as (b & Hrun & _).
  rewrite (DispatchFacts.send_run _ _ _ _ _ _ _ b Hrun). destruct b.
  - eexists. split; [reflexivity|]. split; [reflexivity | discriminate].
  - assert (Hout : fst (Route.outcome senders w m ch) = false).
    { unfold Route.outcome. rewrite Hty. simpl default.
      rewrite WebhookFacts.webhook_lookup, Hsender.
      destruct (WebhookFacts.send_cases post w m
                  (default (JObj []) (Channel.config ch))) as [->|[e ->]];
        reflexivity. }
    cbv zeta. rewrite Hout.
    eexists. split; [reflexivity|]. split; [reflexivity | discriminate].
Qed.

End WithRuntime.
End WebhookProps.

(** ** The time formatter *)

Module FormatterFacts.






End FormatterFacts.

Module FormatterProps.


End FormatterProps.

(** ** The write guard *)

Module GuardFacts.

Lemma bearer_spec (auth pw : string) :
  String.prefix "Bearer " auth && String.eqb (PyMore.drop 7 auth) pw = true
  <-> auth = "Bearer " +:+ pw.
Proof.
  rewrite andb_true_iff, PyFacts.prefix_spec, String.eqb_eq. split.
  - intros [[post ->] <-]. reflexivity.
  - intros ->. split; [now exists pw | reflexivity].
Qed.

Lemma is_admin_spec (settings : Settings.t) (request : Request.t) :
  Dependencies._is_admin settings request = true
  <-> Request.header request "authorization" ""
        = "Bearer " +:+ Settings.admin_password settings
      \/ (Request.header request "x-admin-token" ""
            = Settings.admin_password settings
          /\ Settings.admin_password settings <> "").
Proof.
  unfold Dependencies._is_admin.
  destruct (String.prefix "Bearer " (Request.header request "authorization" "")
            && String.eqb
                 (PyMore.drop 7 (Request.header request "authorization" ""))
                 (Settings.admin_password settings)) eqn:Hb.
  - apply bearer_spec in Hb. tauto.
  - assert (Hnb : Request.header request "authorization" ""
                  <> "Bearer " +:+ Settings.admin_password settings).
    { intros H. apply bearer_spec in H. congruence. }
    destruct (Py.truthy (Request.header request "x-admin-token" "")
              && String.eqb (Request.header request "x-admin-token" "")
                   (Settings.admin_password settings)) eqn:Ht.
    + apply andb_true_iff in Ht as [Ht He].
      apply PyFacts.truthy_spec in Ht. apply String.eqb_eq in He.
      split; [intros _; right; split; congruence | reflexivity].
    + split; [discriminate|]. intros [H|[He Hne]]; [contradiction|].
      apply not_true_iff_false in Ht. exfalso. apply Ht.
      apply andb_true_iff. split.
      * apply PyFacts.truthy_spec. congruence.
      * now apply String.eqb_eq.
Qed.

End GuardFacts.

Module GuardProps.

(** X20.  A write request passes the guard exactly when demo mode is off,
    or the Authorization header is Bearer followed by the admin password,
    or the X-Admin-Token header is the admin password and that password
    is not empty; every other request is answered 403. *)
Theorem require_write_allowed_iff (settings : Settings.t)
    (request : Request.t) :
  (Dependencies.require_write_allowed settings request = Respond tt
   <-> Settings.demo_mode settings = false
       \/ Request.header request "authorization" ""
            = "Bearer " +:+ Settings.admin_password settings
       \/ (Request.header request "x-admin-token" ""
             = Settings.admin_password settings
           /\ Settings.admin_password settings <> ""))
  /\ (Dependencies.require_write_allowed settings request = Respond tt
      \/ exists detail,
           Dependencies.require_write_allowed settings request
           = HTTPException 403 detail).
Proof.
  pose proof (GuardFacts.is_admin_spec settings request) as Hadmin.
  unfold Dependencies.require_write_allowed.
  destruct (Settings.demo_mode settings); simpl.
  - destruct (Dependencies._is_admin settings request).
    + split; [|now left]. split; [intros _; right; now apply Hadmin | auto].
    + split; [|right; now eexists].
      split; [discriminate|]. intros [H|H]; [discriminate|].
      apply Hadmin in H. discriminate.
  - split; [|now left]. split; auto.
Qed.

End GuardProps.

(** ** The configuration routes *)

Module ConfigFacts.

(** The table after the upserts of a list of settings, in order. *)
Lemma upserts_run (settings : list (string * string)) (db : Store.t) :
  for_ settings ConfigRoutes.upsert db =
  (Ok tt,
   ConfigRoutes.with_config
     (fun config =>
        fold_left (fun c kv => <[fst kv := snd kv]> c) settings config) db).
Proof.
  revert db. induction settings as [|kv settings IH]; intros db; simpl.
  - now destruct db.
  - unfold bind, ConfigRoutes.upsert at 1, modify. rewrite IH.
    reflexivity.
Qed.

Lemma fold_other (settings : list (string * string))
    (config : gmap string string) (k : string) :
  ~ In k (map fst settings) ->
  fold_left (fun c kv => <[fst kv := snd kv]> c) settings config !! k =
  config !! k.
Proof.
  revert config. induction settings as [|kv settings IH]; intros config Hk.
  - reflexivity.
  - simpl in *. rewrite IH by tauto.
    apply lookup_insert_ne. tauto.
Qed.

Lemma fold_member (settings : list (string * string))
    (config : gmap string string) (k v : string) :
  NoDup (map fst settings) -> In (k, v) settings ->
  fold_left (fun c kv => <[fst kv := snd kv]> c) settings config !! k = Some v.
Proof.
  revert config. induction settings as [|kv settings IH]; intros config Hnd Hin.
  - destruct Hin.
  - simpl in *. apply NoDup_cons in Hnd as [Hfresh Hnd].
    destruct Hin as [->|Hin].
    + rewrite fold_other.
      * simpl. apply lookup_insert_eq.
      * intros H. apply Hfresh. now apply list_elem_of_In.
    + now apply IH.
Qed.

Lemma defaults_distinct : NoDup (map fst ConfigRoutes.defaults).
Proof. apply (bool_decide_unpack _). vm_compute. exact I. Qed.

End ConfigFacts.

Module ConfigProps.

(** X21.  After [update_config] with settings of distinct keys, every key
    sent reads back as the value sent, every other key reads as before,
    the answer is the whole table, and no other table has changed. *)
Theorem update_config_reads_back (settings : list (string * string))
    (db : Store.t) :
  NoDup (map fst settings) ->
  exists db',
    ConfigRoutes.update_config settings db = (Ok (Store.config db'), db')
    /\ (forall k v default,
          In (k, v) settings ->
          StateManager.get_config_value k default db' = (Ok v, db'))
    /\ (forall k default,
          ~ In k (map fst settings) ->
          fst (StateManager.get_config_value k default db') =
          fst (StateManager.get_config_value k default db))
    /\ Store.alerts db' = Store.alerts db
    /\ Store.locations db' = Store.locations db
    /\ Store.notification_channels db' = Store.notification_channels db
    /\ Store.trial_subscriptions db' = Store.trial_subscriptions db.
Proof.
  intros Hnd. eexists. split.
  { unfold ConfigRoutes.update_config, bind at 1.
    rewrite ConfigFacts.upserts_run. reflexivity. }
  split.
  { intros k v default Hin. rewrite DispatchFacts.get_config_value_run.
    unfold QuietHours.config_value. simpl.
    now rewrite (ConfigFacts.fold_member _ _ k v Hnd Hin). }
  split.
  { intros k default Hk. rewrite !DispatchFacts.get_config_value_run.
    unfold QuietHours.config_value. simpl.
    now rewrite (ConfigFacts.fold_other _ _ k Hk). }
  now repeat split.
Qed.

(** X22.  [reset_config] answers the nine defaults; afterwards each of
    them reads back as its default value, keys outside the defaults are
    kept as they were, and no other table has changed. *)
Theorem reset_config_restores (db : Store.t) :
  exists db',
    ConfigRoutes.reset_config db = (Ok ConfigRoutes.defaults, db')
    /\ (forall k v default,
          In (k, v) ConfigRoutes.defaults ->
          StateManager.get_config_value k default db' = (Ok v, db'))
    /\ (forall k,
          ~ In k (map fst ConfigRoutes.defaults) ->
          Store.config db' !! k = Store.config db !! k)
    /\ Store.alerts db' = Store.alerts db
    /\ Store.locations db' = Store.locations db
    /\ Store.notification_channels db' = Store.notification_channels db
    /\ Store.trial_subscriptions db' = Store.trial_subscriptions db.
Proof.
  eexists. split.
  { unfold ConfigRoutes.reset_config, bind at 1.
    rewrite ConfigFacts.upserts_run. reflexivity. }
  split.
  { intros k v default Hin. rewrite DispatchFacts.get_config_value_run.
    unfold QuietHours.config_value.
    unfold ConfigRoutes.with_config, Store.config at 1.
    now rewrite (ConfigFacts.fold_member _ _ k v ConfigFacts.defaults_distinct
                   Hin). }
  split.
  { intros k Hk. unfold ConfigRoutes.with_config, Store.config at 1.
    now rewrite (ConfigFacts.fold_other _ _ k Hk). }
  now repeat split.
Qed.

Section WithRuntime.
Context `{RT : Py.Runtime}.

(** X23.  After [reset_config] quiet hours are off: the dispatcher's
    check answers [False] at every hour and for every severity, whatever
    the table held before. *)
Theorem reset_config_disables_quiet_hours (db : Store.t) (now : Z)
    (severity : string) :
  let db' := snd (ConfigRoutes.reset_config db) in
  NotificationDispatcher._is_quiet_hours now severity db' = (Ok false, db').
Proof.
  intros db'.
  assert (Hen : QuietHours.config_value db' "quiet_hours_enabled" "false"
                = "false").
  { unfold db', ConfigRoutes.reset_config, bind at 1.
    rewrite ConfigFacts.upserts_run. unfold QuietHours.config_value.
    unfold snd, ret, ConfigRoutes.with_config, Store.config at 1.
    rewrite (ConfigFacts.fold_member _ _ "quiet_hours_enabled" "false"
               ConfigFacts.defaults_distinct); [reflexivity|].
    simpl. tauto. }
  unfold NotificationDispatcher._is_quiet_hours. unfold bind at 1.
  rewrite DispatchFacts.get_config_value_run, Hen. reflexivity.
Qed.

End WithRuntime.
End ConfigProps.

(** ** What a poll cycle leaves alone *)

Module SettingsFacts.

Lemma is_duplicate_settings (c : string) (l : Z) :
  settings_fixed (StateManager.is_duplicate c l).
Proof. intros db. now rewrite StateFacts.is_duplicate_run. Qed.

Lemma log_activity_settings (event_type message details : string) :
  settings_fixed (StateManager.log_activity event_type message details).
Proof. intros db. now repeat split. Qed.

Lemma get_enabled_locations_settings :
  settings_fixed StateManager.get_enabled_locations.
Proof. intros db. now repeat split. Qed.

Lemma get_active_trials_settings (now : string) :
  settings_fixed (StateManager.get_active_trials now).
Proof. intros db. now repeat split. Qed.

Lemma get_enabled_channels_settings `{RT : Py.Runtime} :
  settings_fixed StateManager.get_enabled_channels.
Proof. intros db. now rewrite LedgerFacts.get_enabled_channels_reads. Qed.

Lemma expire_trials_settings (now : string) :
  settings_fixed (StateManager.expire_trials now).
Proof.
  intros db. unfold StateManager.expire_trials, bind, get, modify, ret.
  now destruct (List.filter (StateManager.is_lapsed now)
                  (Store.trial_subscriptions db)).
Qed.

Lemma mark_expired_alerts_settings (now : string) :
  settings_fixed (StateManager.mark_expired_alerts now).
Proof.
  intros db. rewrite SweepFacts.mark_expired_alerts_run. now repeat split.
Qed.

Lemma store_alert_settings `{RT : Py.Runtime} (schema : Schema.t)
    (w : WarningInfo.t) (m : MatchResult.t) (c : string) :
  settings_fixed (StateManager.store_alert schema w m c).
Proof.
  intros db. unfold StateManager.store_alert, StateManager.insert_alert.
  unfold bind, get, modify, ret, raise. cbn.
  now destruct (Schema.dedup_unique schema
                && existsb _ (Store.alerts db)).
Qed.

Lemma send_settings `{RT : Py.Runtime} (now : Z) (senders : Senders.t)
    (alert_id : Z) (w : WarningInfo.t) (m : MatchResult.t) (ch : Channel.t) :
  settings_fixed (NotificationDispatcher.send now senders alert_id w m ch).
Proof.
  intros db.
  destruct (DispatchFacts.is_quiet_hours_run now (WarningInfo.severity w) db)
    as (b & Hrun & _).
  rewrite (DispatchFacts.send_run _ _ _ _ _ _ _ b Hrun). now destruct b.
Qed.

Section Frame.
Context `{RT : Py.Runtime} (schema : Schema.t) (env : Env.t).
Context (config0 : gmap string string) (locations0 : list Location.t)
  (channels0 : list NotificationChannel.t).

Local Abbreviation Same :=
  (fun db : Store.t =>
     Store.config db = config0
     /\ Store.locations db = locations0
     /\ Store.notification_channels db = channels0).

Lemma keeps_settings_fixed {A} (m : M Store.t A) :
  settings_fixed m -> keeps Same m.
Proof.
  intros Hm db Hdb. specialize (Hm db).
  destruct (m db) as [[a|e] db']; simpl in Hm;
    destruct Hm as (-> & -> & ->); exact Hdb.
Qed.

Ltac frame_step :=
  lazymatch goal with
  | |- keeps _ (bind _ _) => apply Logic.keeps_bind; [|intros ?]
  | |- keeps _ (try_except _ _) => apply Logic.keeps_try; [|intros ?]
  | |- keeps _ (for_ _ _) => apply Logic.keeps_for_; intros ?
  | |- keeps _ (for_each _ _ _) => apply Logic.keeps_for_each; intros ? ?
  | |- keeps _ (ret _) => apply Logic.keeps_ret
  | |- keeps _ (raise _) => apply Logic.keeps_raise
  | |- keeps _ get => apply Logic.keeps_get
  | |- keeps _ (lift_result _) => apply Logic.keeps_lift_result
  | |- keeps _ (outside _) => apply (Logic.keeps_outside Same)
  | |- keeps _ (AlertEngine.update_summary _) =>
      apply (Logic.keeps_with_summary Same)
  | |- keeps _ (modify (World.with_summary _)) =>
      apply (Logic.keeps_with_summary Same)
  | |- keeps _ (modify (World.set_last_poll _)) =>
      apply (Logic.keeps_set_last_poll Same)
  | |- keeps _ (modify (World.set_last_poll_result _)) =>
      apply (Logic.keeps_set_last_poll_result Same)
  | |- keeps _ (on_store _) =>
      apply (Logic.keeps_on_store Same); apply keeps_settings_fixed
  | |- keeps _ (if ?b then _ else _) => destruct b
  | |- keeps _ (match ?x with _ => _ end) => destruct x
  end.

(** The cycle, however it ends, keeps the three tables of settings. *)
Lemma cycle_keeps_settings :
  keeps (on_world Same) (AlertEngine._run_poll_cycle schema env).
Proof.
  unfold AlertEngine._run_poll_cycle, AlertEngine.poll_body,
    AlertEngine.handle_item, AlertEngine.handle_warning,
    AlertEngine.handle_match, AlertEngine.notify_channel,
    AlertEngine._process_trials, AlertEngine._expire_trials.
  repeat frame_step;
    auto using is_duplicate_settings, log_activity_settings,
      get_enabled_locations_settings, get_active_trials_settings,
      get_enabled_channels_settings, expire_trials_settings,
      mark_expired_alerts_settings, store_alert_settings, send_settings.
Qed.

End Frame.

Lemma cycle_returns `{RT : Py.Runtime} (schema : Schema.t) (env : Env.t)
    (w : World.t) :
  exists summary w',
    AlertEngine._run_poll_cycle schema env w = (Ok summary, w').
Proof.
  pose proof (LedgerFacts.cycle_balanced schema env _ _ _ w
                eq_refl eq_refl eq_refl) as H.
  destruct (AlertEngine._run_poll_cycle schema env w) as [[summary|e] w'];
    [now eexists _, _ | contradiction].
Qed.

End SettingsFacts.

Module SettingsProps.
Section WithRuntime.
Context `{RT : Py.Runtime}.

(** X24.  A poll cycle never changes the settings: the configuration
    table, the monitored locations and the notification channels are the
    same after the cycle as before, whatever the upstream and the senders
    answer and however the cycle ends. *)
Theorem run_poll_cycle_keeps_settings (schema : Schema.t) (env : Env.t)
    (w : World.t) :
  let db := World.store w in
  let db' := World.store (snd (AlertEngine._run_poll_cycle schema env w)) in
  Store.config db' = Store.config db
  /\ Store.locations db' = Store.locations db
  /\ Store.notification_channels db' = Store.notification_channels db.
Proof.
  pose proof (SettingsFacts.cycle_keeps_settings schema env _ _ _ w
                (conj eq_refl (conj eq_refl eq_refl))) as H.
  now destruct (AlertEngine._run_poll_cycle schema env w) as [[s|e] w'].
Qed.

End WithRuntime.
End SettingsProps.

(** ** Start, stop and the loop *)

Module ControlProps.
Section WithRuntime.
Context `{RT : Py.Runtime} (schema : Schema.t) (env : Env.t).


(** X26.  A [poll_interval] that is not an integer kills the loop: on a
    running engine the loop runs one cycle, then raises [ValueError] out
    of [_poll_loop], leaving the engine marked as running although
    nothing polls any more. *)
Theorem poll_loop_dies_on_bad_interval (stopped : nat -> Z -> bool)
    (fuel : nat) (e : Engine.t) (value : string) :
  Engine._running e = true ->
  Store.config (World.store (Engine.world e)) !! "poll_interval" = Some value ->
  Py.int value = None ->
  exists e',
    EngineControl._poll_loop schema env stopped (S fuel) e
      = (Raise (Exception "ValueError"), e')
    /\ Engine._running e' = true
    /\ World.store (Engine.world e')
       = World.store
           (snd (AlertEngine._run_poll_cycle schema env (Engine.world e))).
Proof.
  intros Hrun Hcfg Hint.
  pose proof (SettingsFacts.cycle_keeps_settings schema env _ _ _
                (Engine.world e) (conj eq_refl (conj eq_refl eq_refl)))
    as Hkeeps.
  destruct (SettingsFacts.cycle_returns schema env (Engine.world e))
    as (summary & w' & Hcycle).
  rewrite Hcycle in Hkeeps. destruct Hkeeps as (Hc & _).
  assert (H1 : bind (on_world_of (AlertEngine._run_poll_cycle schema env))
                 (fun _ => ret tt) e
               = (Ok tt, Engine.with_world (fun _ => w') e)).
  { unfold bind, on_world_of. now rewrite Hcycle. }
  assert (H2 : on_world_of
                 (on_store (StateManager.get_config_value "poll_interval" "300"))
                 (Engine.with_world (fun _ => w') e)
               = (Ok value,
                  Engine.with_world
                    (fun _ => World.with_store (fun _ => World.store w') w')
                    (Engine.with_world (fun _ => w') e))).
  { unfold on_world_of, on_store.
    cbn [Engine.world Engine.with_world].
    rewrite DispatchFacts.get_config_value_run.
    unfold QuietHours.config_value. now rewrite Hc, Hcfg. }
  simpl EngineControl._poll_loop.
  unfold bind at 1. unfold get at 1. rewrite Hrun.
  change (negb true) with false. cbv beta iota.
  unfold bind at 1. unfold try_except at 1. rewrite H1.
  unfold bind at 1. rewrite H2, Hint.
  eexists. split; [reflexivity|]. rewrite Hcycle.
  split; [exact Hrun | reflexivity].
Qed.

End WithRuntime.
End ControlProps.

(** ** The further properties on the sample data *)

Module MoreWitnesses.

Local Existing Instance AsciiRuntime.runtime.

Local Abbreviation cycle_of env :=
  (AlertEngine._run_poll_cycle (RT := AsciiRuntime.runtime) Schema.spec env).
Local Abbreviation stocked :=
  (World.initial (Sample.db [] Sample.old_alerts Sample.trials)).
Local Abbreviation sweep_time := "2026-02-17T16:00:00+00:00".
Local Abbreviation old_db := (Sample.db [] Sample.old_alerts []).

Lemma store_then_is_duplicate_witness :
  let run :=
    StateManager.store_alert Schema.spec Sample.hujan Sample.alian_match
      "CBT9" (Sample.db [] [] []) in
  run = (Ok 1, snd run)
  /\ StateManager.is_duplicate "CBT9"
       (Location.id (MatchResult.location Sample.alian_match)) (snd run)
     = (Ok true, snd run).
Proof.
  intros run.
  assert (H : run = (Ok 1, snd run)) by (vm_compute; reflexivity).
  split; [exact H|].
  exact (proj1 (StateMore.store_then_is_duplicate Schema.spec Sample.hujan
                  Sample.alian_match "CBT9" (Sample.db [] [] []) (snd run) 1
                  H)).
Defined.

Lemma mark_expired_alerts_only_advances_witness :
  NoDup (map Alert.id (Store.alerts old_db))
  /\ Forall2 Rows.advanced (Store.alerts old_db)
       (Store.alerts (snd (StateManager.mark_expired_alerts sweep_time old_db))).
Proof.
  assert (H : NoDup (map Alert.id (Store.alerts old_db))).
  { apply (bool_decide_unpack _). vm_compute. exact I. }
  split; [exact H|].
  exact (proj1 (StateMore.mark_expired_alerts_only_advances sweep_time old_db
                  H)).
Defined.

Lemma get_alert_count_after_sweep_witness :
  NoDup (map Alert.id (Store.alerts old_db))
  /\ exists before after returned,
       StateQueries.get_alert_count old_db = (Ok before, old_db)
       /\ StateManager.mark_expired_alerts sweep_time old_db
          = (Ok returned,
             snd (StateManager.mark_expired_alerts sweep_time old_db))
       /\ fst (StateQueries.get_alert_count
                 (snd (StateManager.mark_expired_alerts sweep_time old_db)))
          = Ok after
       /\ after = before - Z.of_nat (length returned).
Proof.
  assert (H : NoDup (map Alert.id (Store.alerts old_db))).
  { apply (bool_decide_unpack _). vm_compute. exact I. }
  split; [exact H|].
  exact (StateMore.get_alert_count_after_sweep sweep_time old_db H).
Defined.

Lemma trials_active_or_lapsed_witness :
  let now := "2026-02-17 16:00:00" in
  let db := Sample.db [] [] Sample.trials in
  NoDup (map Trial.id (Store.trial_subscriptions db))
  /\ exists active lapsed db',
       StateManager.get_active_trials now db = (Ok active, db)
       /\ StateManager.expire_trials now db = (Ok lapsed, db')
       /\ (forall r, In r active <->
             In r (Store.trial_subscriptions db)
             /\ String.ltb now (Trial.expires_at r) = true)
       /\ (forall r, In r active ->
             ~ In r lapsed /\ In r (Store.trial_subscriptions db'))
       /\ (forall r, In r (Store.trial_subscriptions db) ->
             Trial.expired_notified r = 0 -> In r active \/ In r lapsed).
Proof.
  intros now db.
  assert (H : NoDup (map Trial.id (Store.trial_subscriptions db))).
  { apply (bool_decide_unpack _). vm_compute. exact I. }
  split; [exact H|].
  exact (StateMore.trials_active_or_lapsed now db H).
Defined.

Lemma reachable_rows_witness :
  let db :=
    World.store
      (snd (cycle_of Sample.env (World.initial (Sample.db [] [] [])))) in
  Reach.reachable Schema.spec db
  /\ NoDup (map Alert.id (Store.alerts db)).
Proof.
  intros db.
  assert (H : Reach.reachable Schema.spec db).
  { apply ReachFacts.cycle_reachable. apply Reach.reach_fresh. reflexivity. }
  split; [exact H|].
  exact (proj1 (EngineMore.reachable_rows Schema.spec db H)).
Defined.

Lemma run_poll_cycle_grows_witness :
  NoDup (map Alert.id (Store.alerts (World.store stocked)))
  /\ NoDup
       (map Alert.id
          (Store.alerts (World.store (snd (cycle_of Sample.env stocked))))).
Proof.
  assert (H : NoDup (map Alert.id (Store.alerts (World.store stocked)))).
  { apply (bool_decide_unpack _). vm_compute. exact I. }
  split; [exact H|].
  exact (proj1 (EngineMore.run_poll_cycle_grows Schema.spec Sample.env stocked
                  H)).
Defined.

Lemma no_warnings_stops_witness :
  let env := Sample2.quiet_env (Ok []) in
  Env.get_nowcast_list env (S (World.calls stocked)) = Ok []
  /\ World._last_poll_result (snd (cycle_of env stocked)) = Some "no warnings"
  /\ Store.alerts (World.store (snd (cycle_of env stocked)))
     = Store.alerts (World.store stocked).
Proof.
  intros env.
  assert (H : Env.get_nowcast_list env (S (World.calls stocked)) = Ok [])
    by reflexivity.
  split; [exact H|].
  destruct (EarlyExit.no_warnings_stops Schema.spec env stocked H)
    as (_ & H2 & _ & H4 & _).
  split; [exact H2 | exact H4].
Defined.

Lemma no_locations_stops_witness :
  let env := Sample2.quiet_env (Ok [Sample.item]) in
  let w := World.initial Sample2.db_no_locations in
  Env.get_nowcast_list env (S (World.calls w)) = Ok [Sample.item]
  /\ List.filter Location.enabled (Store.locations (World.store w)) = []
  /\ World._last_poll_result (snd (cycle_of env w))
     = Some "no locations configured"
  /\ World.store (snd (cycle_of env w)) = World.store w.
Proof.
  intros env w.
  assert (H1 : Env.get_nowcast_list env (S (World.calls w)) = Ok [Sample.item])
    by reflexivity.
  assert (H2 : List.filter Location.enabled (Store.locations (World.store w))
               = []) by reflexivity.
  split; [exact H1|]. split; [exact H2|].
  destruct (EarlyExit.no_locations_stops Schema.spec env w Sample.item []
              H1 H2) as (_ & H3 & H4).
  split; [exact H3 | exact H4].
Defined.

Lemma list_failure_is_contained_witness :
  let env := Sample2.quiet_env (Raise (Exception "upstream down")) in
  Env.get_nowcast_list env (S (World.calls stocked))
    = Raise (Exception "upstream down")
  /\ fst (cycle_of env stocked) = Ok Summary.zero
  /\ World._last_poll_result (snd (cycle_of env stocked))
     = Some ("error: " +:+ exn_str (Exception "upstream down")).
Proof.
  intros env.
  assert (H : Env.get_nowcast_list env (S (World.calls stocked))
              = Raise (Exception "upstream down")) by reflexivity.
  split; [exact H|].
  destruct (EarlyExit.list_failure_is_contained Schema.spec env stocked
              (Exception "upstream down") H) as (H1 & H2 & _).
  split; [exact H1 | exact H2].
Defined.


Lemma webhook_channel_never_delivers_witness :
  let senders := Sample2.senders_with_webhook Sample2.accepting in
  let db := Sample.db [] [] [] in
  Channel.channel_type Sample2.webhook_channel = Some "webhook"
  /\ Senders.webhook senders = WebhookSender.send Sample2.accepting
  /\ exists row,
       NotificationDispatcher.send 3 senders 1 Sample.hujan Sample.alian_match
         Sample2.webhook_channel db
       = (Ok false, Store.with_deliveries (fun rows => rows ++ [row]) db)
       /\ AlertDelivery.alert_id row = 1
       /\ AlertDelivery.status row <> "sent".
Proof.
  intros senders db.
  assert (H1 : Channel.channel_type Sample2.webhook_channel = Some "webhook")
    by reflexivity.
  assert (H2 : Senders.webhook senders = WebhookSender.send Sample2.accepting)
    by reflexivity.
  split; [exact H1|]. split; [exact H2|].
  exact (WebhookProps.webhook_channel_never_delivers 3 senders
           Sample2.accepting 1 Sample.hujan Sample.alian_match
           Sample2.webhook_channel db H1 H2).
Defined.


Lemma update_config_reads_back_witness :
  let settings := [("poll_interval", "60"); ("quiet_hours_enabled", "true")] in
  let db := Sample.db [] [] [] in
  NoDup (map fst settings)
  /\ exists db',
       ConfigRoutes.update_config settings db = (Ok (Store.config db'), db')
       /\ StateManager.get_config_value "poll_interval" "300" db'
          = (Ok "60", db').
Proof.
  intros settings db.
  assert (H : NoDup (map fst settings)).
  { apply (bool_decide_unpack _). vm_compute. exact I. }
  split; [exact H|].
  destruct (ConfigProps.update_config_reads_back settings db H)
    as (db' & H1 & H2 & _).
  exists db'. split; [exact H1|].
  apply H2. simpl. auto.
Defined.

Lemma poll_loop_dies_on_bad_interval_witness :
  let e := Sample2.engine true (Sample.db [("poll_interval", "soon")] [] []) in
  let stopped := fun (_ : nat) (_ : Z) => false in
  (Engine._running e = true
   /\ Store.config (World.store (Engine.world e)) !! "poll_interval"
      = Some "soon"
   /\ Py.int "soon" = None)
  /\ exists e',
       EngineControl._poll_loop Schema.spec Sample.env stopped 3 e
       = (Raise (Exception "ValueError"), e')
       /\ Engine._running e' = true
       /\ World.store (Engine.world e')
          = World.store (snd (cycle_of Sample.env (Engine.world e))).
Proof.
  intros e stopped.
  assert (H1 : Engine._running e = true) by reflexivity.
  assert (H2 : Store.config (World.store (Engine.world e)) !! "poll_interval"
               = Some "soon") by (vm_compute; reflexivity).
  assert (H3 : Py.int "soon" = None) by (vm_compute; reflexivity).
  split; [repeat split; assumption|].
  exact (ControlProps.poll_loop_dies_on_bad_interval Schema.spec Sample.env
           stopped 2 e "soon" H1 H2 H3).
Defined.

End MoreWitnesses.
